(** * Modelcules: the chemical identifier resolver

    A shallow embedding of [src/utils/identifierLookup.ts] (normalisation,
    validation, the time-boxed cache, the confidence score, the retry wrapper
    and the resolution orchestrator) and of the form handler
    [handleInputChange] of [App.tsx], with the properties the specification
    states about them.

    Conventions of the embedding.
    - A JavaScript string is a [string] of the Standard Library.  The model
      covers strings of ASCII characters: [trim] strips the ASCII white space
      (tab, line feed, vertical tab, form feed, carriage return, space) and
      the case conversions act on the letters a-z and A-Z.
    - A regular expression literal is a value of [regex]; [RegExp.test] is a
      matcher by derivatives, proved equivalent to the language of the
      expression.
    - [Partial<ChemicalIdentifiers>] is a finite map from identifier kinds to
      strings; the module-level [identifierCache] is a finite map from keys
      to entries, threaded through the functions that read or write it.
    - [Date.now()], the backoff timer and the two remote services are the
      environment: a clock in the state and an oracle for what each attempt
      against a source yields.
    - A confidence score is a rational number: the source only divides a
      count by 8, adds 0.2 and takes minima and maxima against 1.0 and 0.3,
      and none of the values it can reach is close enough to a bound for
      floating-point rounding to change a comparison. *)

From Stdlib Require Import String Ascii List ZArith QArith Qminmax Lia Lqa Bool.
From Stdlib Require Import Sorted.
From stdpp Require Import gmap strings pretty.

Local Open Scope string_scope.

(** ** JavaScript string operations *)

Module JS.

Definition code (c : ascii) : N := N_of_ascii c.

Definition inRange (lo hi c : ascii) : bool :=
  (code lo <=? code c)%N && (code c <=? code hi)%N.

Fixpoint oneOf (set : string) (c : ascii) : bool :=
  match set with
  | EmptyString => false
  | String d rest => Ascii.eqb c d || oneOf rest c
  end.

Definition isSpace (c : ascii) : bool := inRange "009" "013" c || Ascii.eqb c " ".
Definition isDigit (c : ascii) : bool := inRange "0" "9" c.
Definition isLower (c : ascii) : bool := inRange "a" "z" c.
Definition isUpper (c : ascii) : bool := inRange "A" "Z" c.

Definition upperChar (c : ascii) : ascii :=
  if isLower c then ascii_of_N (code c - 32) else c.
Definition lowerChar (c : ascii) : ascii :=
  if isUpper c then ascii_of_N (code c + 32) else c.

Fixpoint mapChars (f : ascii -> ascii) (s : string) : string :=
  match s with
  | EmptyString => EmptyString
  | String c rest => String (f c) (mapChars f rest)
  end.

Definition toUpperCase : string -> string := mapChars upperChar.
Definition toLowerCase : string -> string := mapChars lowerChar.

Fixpoint allChars (p : ascii -> bool) (s : string) : bool :=
  match s with
  | EmptyString => true
  | String c rest => p c && allChars p rest
  end.

Fixpoint anyChar (p : ascii -> bool) (s : string) : bool :=
  match s with
  | EmptyString => false
  | String c rest => p c || anyChar p rest
  end.

Definition isEmpty (s : string) : bool :=
  match s with EmptyString => true | _ => false end.

Fixpoint trimStart (s : string) : string :=
  match s with
  | EmptyString => EmptyString
  | String c rest => if isSpace c then trimStart rest else s
  end.

Fixpoint trimEnd (s : string) : string :=
  match s with
  | EmptyString => EmptyString
  | String c rest =>
      match trimEnd rest with
      | EmptyString => if isSpace c then EmptyString else String c EmptyString
      | t => String c t
      end
  end.

Definition trim (s : string) : string := trimEnd (trimStart s).

Definition startsWith (s p : string) : bool := String.prefix p s.

Fixpoint drop (n : nat) (s : string) : string :=
  match n, s with
  | O, _ => s
  | S n', EmptyString => EmptyString
  | S n', String _ rest => drop n' rest
  end.

(** [s.slice(a, b)] and [s.slice(a)] for indices [0 <= a <= b]. *)
Definition slice (a b : nat) (s : string) : string := substring a (b - a) s.
Definition sliceFrom (a : nat) (s : string) : string := drop a s.

(** [s.includes(t)] *)
Fixpoint includes (t s : string) : bool :=
  String.prefix t s ||
  match s with
  | EmptyString => false
  | String _ rest => includes t rest
  end.

(** The string is empty or starts with a character that is not white
    space. *)
Definition headOk (s : string) : bool :=
  match s with
  | EmptyString => true
  | String c _ => negb (isSpace c)
  end.

(** [list.includes(s)] on an array of strings. *)
Definition memberOf (l : list string) (s : string) : bool :=
  existsb (String.eqb s) l.

End JS.

(** ** Regular expressions *)

Module Regex.

Inductive regex : Type :=
| Void : regex
| Eps : regex
| Cls : (ascii -> bool) -> regex
| Cat : regex -> regex -> regex
| Alt : regex -> regex -> regex
| Star : regex -> regex.

(** The language of an expression. *)
Inductive Lang : regex -> string -> Prop :=
| LEps : Lang Eps EmptyString
| LCls p c : p c = true -> Lang (Cls p) (String c EmptyString)
| LCat r1 r2 s1 s2 : Lang r1 s1 -> Lang r2 s2 -> Lang (Cat r1 r2) (s1 ++ s2)
| LAltL r1 r2 s : Lang r1 s -> Lang (Alt r1 r2) s
| LAltR r1 r2 s : Lang r2 s -> Lang (Alt r1 r2) s
| LStarNil r : Lang (Star r) EmptyString
| LStarCons r s1 s2 : Lang r s1 -> Lang (Star r) s2 -> Lang (Star r) (s1 ++ s2).

Fixpoint nullable (r : regex) : bool :=
  match r with
  | Void => false
  | Eps => true
  | Cls _ => false
  | Cat r1 r2 => nullable r1 && nullable r2
  | Alt r1 r2 => nullable r1 || nullable r2
  | Star _ => true
  end.

(** Constructors that absorb [Void] and [Eps], so that derivatives stay
    small. *)
Definition cat (r1 r2 : regex) : regex :=
  match r1, r2 with
  | Void, _ => Void
  | _, Void => Void
  | Eps, _ => r2
  | _, _ => Cat r1 r2
  end.

Definition alt (r1 r2 : regex) : regex :=
  match r1, r2 with
  | Void, _ => r2
  | _, Void => r1
  | _, _ => Alt r1 r2
  end.

Fixpoint deriv (c : ascii) (r : regex) : regex :=
  match r with
  | Void => Void
  | Eps => Void
  | Cls p => if p c then Eps else Void
  | Cat r1 r2 =>
      alt (cat (deriv c r1) r2) (if nullable r1 then deriv c r2 else Void)
  | Alt r1 r2 => alt (deriv c r1) (deriv c r2)
  | Star r1 => cat (deriv c r1) (Star r1)
  end.

(** The whole of [s] is in the language of [r]. *)
Fixpoint matches (r : regex) (s : string) : bool :=
  match s with
  | EmptyString => nullable r
  | String c rest => matches (deriv c r) rest
  end.

(** The rest of [s] after its longest prefix in the language of [r]. *)
Fixpoint longestPrefix (r : regex) (s : string) : option string :=
  match s with
  | EmptyString => if nullable r then Some EmptyString else None
  | String c rest =>
      match longestPrefix (deriv c r) rest with
      | Some tl => Some tl
      | None => if nullable r then Some s else None
      end
  end.

(** Derived forms. *)
Definition Any : regex := Cls (fun _ => true).
Definition Opt (r : regex) : regex := Alt r Eps.
Definition Plus (r : regex) : regex := Cat r (Star r).
Definition Chr (c : ascii) : regex := Cls (Ascii.eqb c).

Fixpoint Rep (n : nat) (r : regex) : regex :=
  match n with
  | O => Eps
  | S n' => Cat r (Rep n' r)
  end.

(** [r{lo,hi}] and [r{lo,}] *)
Fixpoint UpTo (n : nat) (r : regex) : regex :=
  match n with
  | O => Eps
  | S n' => Opt (Cat r (UpTo n' r))
  end.
Definition RepRange (lo hi : nat) (r : regex) : regex :=
  Cat (Rep lo r) (UpTo (hi - lo) r).
Definition AtLeast (lo : nat) (r : regex) : regex := Cat (Rep lo r) (Star r).

(** A literal, and a literal under the [i] flag. *)
Fixpoint Lit (s : string) : regex :=
  match s with
  | EmptyString => Eps
  | String c rest => Cat (Chr c) (Lit rest)
  end.

(** Under the [i] flag a character belongs to a class when one of its two
    cases does; a negated class is negated after that. *)
Definition icase (p : ascii -> bool) (c : ascii) : bool :=
  p (JS.lowerChar c) || p (JS.upperChar c).
Definition notIn (p : ascii -> bool) (c : ascii) : bool := negb (p c).
Definition orIn (p q : ascii -> bool) (c : ascii) : bool := p c || q c.

Fixpoint LitI (s : string) : regex :=
  match s with
  | EmptyString => Eps
  | String c rest => Cat (Cls (icase (Ascii.eqb c))) (LitI rest)
  end.

(** An expression stands for the set of whole strings [RegExp.test]
    accepts: [/^r$/] is [r] itself, [/^r/] is [Prefix r] and [/r/] is
    [Search r]. *)
Definition Prefix (r : regex) : regex := Cat r (Star Any).
Definition Search (r : regex) : regex := Cat (Star Any) (Cat r (Star Any)).
Definition test (r : regex) (s : string) : bool := matches r s.

(** [s.replace(/^r/, by)] for an expression whose greedy match is its
    longest one (a literal followed by an optional character). *)
Definition replacePrefix (r : regex) (by_ : string) (s : string) : string :=
  match longestPrefix r s with
  | Some rest => by_ ++ rest
  | None => s
  end.

(** Every character class of [r] lies within [q]. *)
Fixpoint classesWithin (q : ascii -> bool) (r : regex) : Prop :=
  match r with
  | Void | Eps => True
  | Cls p => forall c, p c = true -> q c = true
  | Cat r1 r2 | Alt r1 r2 => classesWithin q r1 /\ classesWithin q r2
  | Star r1 => classesWithin q r1
  end.

End Regex.

(** ** Identifier kinds and identifier sets *)

Module Ident.

(** [keyof ChemicalIdentifiers] *)
Inductive Kind : Type :=
| iupacName | casNumber | chemSpider | echaInfoCard | ecNumber | eNumber
| pubchemCID | rtecsNumber | unii | compToxDashboard | inchi | smiles.

Definition allKinds : list Kind :=
  [iupacName; casNumber; chemSpider; echaInfoCard; ecNumber; eNumber;
   pubchemCID; rtecsNumber; unii; compToxDashboard; inchi; smiles].

(** The property name, as interpolated into messages and cache keys. *)
Definition kindName (k : Kind) : string :=
  match k with
  | iupacName => "iupacName" | casNumber => "casNumber"
  | chemSpider => "chemSpider" | echaInfoCard => "echaInfoCard"
  | ecNumber => "ecNumber" | eNumber => "eNumber"
  | pubchemCID => "pubchemCID" | rtecsNumber => "rtecsNumber"
  | unii => "unii" | compToxDashboard => "compToxDashboard"
  | inchi => "inchi" | smiles => "smiles"
  end.

Definition kindIndex (k : Kind) : nat :=
  match k with
  | iupacName => 0 | casNumber => 1 | chemSpider => 2 | echaInfoCard => 3
  | ecNumber => 4 | eNumber => 5 | pubchemCID => 6 | rtecsNumber => 7
  | unii => 8 | compToxDashboard => 9 | inchi => 10 | smiles => 11
  end.

Definition kindOfIndex (n : nat) : option Kind := nth_error allKinds n.

#[global] Instance Kind_eq_dec : EqDecision Kind.
Proof. solve_decision. Defined.

#[global] Instance Kind_countable : Countable Kind.
Proof. refine (inj_countable kindIndex kindOfIndex _). by intros []. Defined.

(** [Partial<ChemicalIdentifiers>]: the properties present and their
    values. *)
Abbreviation IdentifierSet := (gmap Kind string).

End Ident.

(** ** [src/utils/identifierLookup.ts]: normalisation and validation *)

Module Lookup.
Import JS Regex Ident.

Definition digit : regex := Cls isDigit.

(** [VALIDATION_PATTERNS] *)
Definition VALIDATION_PATTERNS (type : Kind) : option regex :=
  match type with
  | casNumber => (* /^\d{2,7}-\d{2}-\d$/ *)
      Some (Cat (RepRange 2 7 digit)
             (Cat (Chr "-") (Cat (Rep 2 digit) (Cat (Chr "-") digit))))
  | pubchemCID => (* /^\d+$/ *)
      Some (Plus digit)
  | unii => (* /^[A-Z0-9]{10}$/ *)
      Some (Rep 10 (Cls (orIn isUpper isDigit)))
  | chemSpider => (* /^\d+$/ *)
      Some (Plus digit)
  | ecNumber => (* /^\d{3}-\d{3}-\d$/ *)
      Some (Cat (Rep 3 digit)
             (Cat (Chr "-") (Cat (Rep 3 digit) (Cat (Chr "-") digit))))
  | eNumber => (* /^E\d{3,4}[a-z]?$/i *)
      Some (Cat (LitI "E")
             (Cat (RepRange 3 4 digit) (Opt (Cls (icase isLower)))))
  | smiles => (* /^[A-Za-z0-9@+\-\[\]()=#$:.\\\/]+$/ *)
      Some (Plus (Cls (orIn isUpper (orIn isLower
                   (orIn isDigit (oneOf "@+-[]()=#$:.\/"))))))
  | inchi => (* /^InChI=1S?\// *)
      Some (Prefix (Cat (Lit "InChI=1") (Cat (Opt (Chr "S")) (Chr "/"))))
  | rtecsNumber => (* /^[A-Z]{2}\d{7}$/ *)
      Some (Cat (Rep 2 (Cls isUpper)) (Rep 7 digit))
  | compToxDashboard => (* /^DTXSID\d{7,}$/ *)
      Some (Cat (Lit "DTXSID") (AtLeast 7 digit))
  | iupacName | echaInfoCard => None
  end.

(** Normalizes identifiers to standard formats. *)
Definition normalizeIdentifier (type : Kind) (value : string) : string :=
  let trimmed := trim value in
  match type with
  | casNumber =>
      (* /^\d{8,9}$/ *)
      if test (RepRange 8 9 digit) trimmed then
        if Nat.eqb (String.length trimmed) 8
        then slice 0 5 trimmed ++ "-" ++ slice 5 7 trimmed ++ "-"
               ++ sliceFrom 7 trimmed
        else slice 0 6 trimmed ++ "-" ++ slice 6 8 trimmed ++ "-"
               ++ sliceFrom 8 trimmed
      else trimmed
  | pubchemCID | chemSpider =>
      (* .replace(/^CID:?/i, '').replace(/^CSID:?/i, '') *)
      replacePrefix (Cat (LitI "CSID") (Opt (Chr ":"))) ""
        (replacePrefix (Cat (LitI "CID") (Opt (Chr ":"))) "" trimmed)
  | inchi =>
      if startsWith trimmed "InChI=" then trimmed else "InChI=" ++ trimmed
  | eNumber =>
      (* .replace(/^E?/, 'E') *)
      replacePrefix (Opt (Chr "E")) "E" (toUpperCase trimmed)
  | unii | rtecsNumber => toUpperCase trimmed
  | compToxDashboard =>
      (* .replace(/^DTXSID:?/i, 'DTXSID') *)
      replacePrefix (Cat (LitI "DTXSID") (Opt (Chr ":"))) "DTXSID"
        (toUpperCase trimmed)
  | iupacName | echaInfoCard | ecNumber | smiles => trimmed
  end.

(** Validates if an identifier matches the expected format. *)
Definition validateIdentifier (type : Kind) (value : string) : bool :=
  match VALIDATION_PATTERNS type with
  | None => true
  | Some pattern => test pattern (normalizeIdentifier type value)
  end.

(** Generate the cache key for an identifier. *)
Definition getCacheKey (type : Kind) (value : string) : string :=
  kindName type ++ ":" ++ toLowerCase (normalizeIdentifier type value).

Definition CACHE_DURATION : Z := 60 * 60 * 1000.

(** [isCacheValid], with the value of [Date.now()] made explicit. *)
Definition isCacheValid (now timestamp : Z) : bool :=
  (now - timestamp <? CACHE_DURATION)%Z.

(** [parseInt(s) > 0] for a string of digits: some digit is not zero. *)
Definition parsesPositive (s : string) : bool :=
  anyChar (fun c => negb (Ascii.eqb c "0")) s.

(** Pre-validation: does the input seem reasonable for the kind? *)
Definition isReasonableInput (type : Kind) (value : string) : bool :=
  let trimmed := toLowerCase (trim value) in
  if Nat.ltb (String.length trimmed) 2 then false
  else if (* /^[^a-z0-9\-\[\]()=\s]+$/i *)
    test (Plus (Cls (notIn (icase (orIn isLower (orIn isDigit
            (orIn (oneOf "-[]()=") isSpace))))))) trimmed
  then false
  else if (* /^[a-z]{1,3}$/ *)
    test (RepRange 1 3 (Cls isLower)) trimmed
    && negb (memberOf ["o"; "c"; "n"; "h"] trimmed)
  then false
  else
  match type with
  | iupacName =>
      if negb (test (Search (Cls (icase isLower))) trimmed) then false
      else if Nat.ltb (String.length trimmed) 2 then false
      else if memberOf ["o"; "c"; "n"; "h"; "f"; "cl"; "br"; "i"; "s"; "p"]
                trimmed then true
      else if Nat.leb 3 (String.length trimmed)
                && ((negb (test (Search (Cls (icase (oneOf "aeiouy")))) trimmed)
                     && negb (memberOf ["ch4"; "nh3"; "hcl"; "h2o"; "co2";
                                        "h2s"; "hf"; "hbr"; "hi"] trimmed))
                    || test (Search (AtLeast 5
                          (Cls (icase (oneOf "bcdfghjklmnpqrstvwxyz")))))
                         trimmed)
      then false
      else true
  | casNumber =>
      test (Cat (RepRange 2 7 digit)
             (Cat (Chr "-") (Cat (Rep 2 digit) (Cat (Chr "-") digit))))
        trimmed
  | pubchemCID | chemSpider =>
      test (Plus digit) trimmed && parsesPositive trimmed
  | smiles =>
      test (Plus (Cls (orIn isUpper (orIn isLower
                   (orIn isDigit (oneOf "@+-[]()=#$:.\/")))))) trimmed
  | inchi => startsWith trimmed "inchi="
  | unii => test (Rep 10 (Cls (icase (orIn isUpper isDigit)))) trimmed
  | echaInfoCard | ecNumber | eNumber | rtecsNumber | compToxDashboard =>
      Nat.leb 2 (String.length trimmed)
      && test (Search (Cls (icase (orIn isLower isDigit)))) trimmed
  end.

End Lookup.


(** ** [src/utils/identifierLookup.ts]: the local table of common compounds *)

Module LocalTable.
Import JS Ident.

(** An object literal with the six properties every entry of the table
    has, in the order the source writes them. *)
Definition compound (name smi inch cas cid code : string) : IdentifierSet :=
  list_to_map [(iupacName, name); (smiles, smi); (inchi, inch);
               (casNumber, cas); (pubchemCID, cid); (unii, code)].

Definition water : IdentifierSet :=
  compound "water" "O"
    "InChI=1S/H2O/h1H2"
    "7732-18-5" "962" "059QF0KO0R".

Definition carbonDioxide : IdentifierSet :=
  compound "carbon dioxide" "O=C=O"
    "InChI=1S/CO2/c2-1-3"
    "124-38-9" "280" "142M471B3J".

Definition methane : IdentifierSet :=
  compound "methane" "C"
    "InChI=1S/CH4/h1H4"
    "74-82-8" "297" "OP0UW79H66".

Definition ethanol : IdentifierSet :=
  compound "ethanol" "CCO"
    "InChI=1S/C2H6O/c1-2-3/h3H,2H2,1H3"
    "64-17-5" "702" "3K9958V90M".

Definition benzene : IdentifierSet :=
  compound "benzene" "c1ccccc1"
    "InChI=1S/C6H6/c1-2-4-6-5-3-1/h1-6H"
    "71-43-2" "241" "J64922108F".

Definition aceticAcid : IdentifierSet :=
  compound "acetic acid" "CC(=O)O"
    "InChI=1S/C2H4O2/c1-2(3)4/h1H3,(H,3,4)"
    "64-19-7" "176" "Q40Q9N063P".

Definition formicAcid : IdentifierSet :=
  compound "formic acid" "C(=O)O"
    "InChI=1S/CH2O2/c2-1-3/h1H,(H,2,3)"
    "64-18-6" "284" "0YIW783RG1".

Definition methanol : IdentifierSet :=
  compound "methanol" "CO"
    "InChI=1S/CH4O/c1-2/h2H,1H3"
    "67-56-1" "887" "Y4S76JWI15".

Definition ammonia : IdentifierSet :=
  compound "ammonia" "N"
    "InChI=1S/H3N/h1H3"
    "7664-41-7" "222" "5138Q19F1X".

Definition ethane : IdentifierSet :=
  compound "ethane" "CC"
    "InChI=1S/C2H6/c1-2/h1-2H3"
    "74-84-0" "6324" "L99N5N533T".

Definition propane : IdentifierSet :=
  compound "propane" "CCC"
    "InChI=1S/C3H8/c1-3-2/h3H2,1-2H3"
    "74-98-6" "6334" "T75W9KEA2A".

Definition butane : IdentifierSet :=
  compound "butane" "CCCC"
    "InChI=1S/C4H10/c1-3-4-2/h3-4H2,1-2H3"
    "106-97-8" "7843" "VR7E826LM6".

Definition isobutane : IdentifierSet :=
  compound "2-methylpropane" "CC(C)C"
    "InChI=1S/C4H10/c1-4(2)3/h4H,1-3H3"
    "75-28-5" "6344" "BXN20XJN5I".

Definition toluene : IdentifierSet :=
  compound "toluene" "Cc1ccccc1"
    "InChI=1S/C7H8/c1-7-5-3-2-4-6-7/h2-6H,1H3"
    "108-88-3" "1140" "3FPU23BG52".

Definition glucose : IdentifierSet :=
  compound "D-glucose" "C([C@@H]1[C@H]([C@@H]([C@H]([C@H](O1)O)O)O)O)O"
    "InChI=1S/C6H12O6/c7-1-2-3(8)4(9)5(10)6(11)12-2/h2-11H,1H2/t2-,3-,4+,5-,6+/m1/s1"
    "50-99-7" "5793" "IY9XDZ35W2".

Definition caffeine : IdentifierSet :=
  compound "1,3,7-trimethylpurine-2,6-dione" "CN1C=NC2=C1C(=O)N(C(=O)N2C)C"
    "InChI=1S/C8H10N4O2/c1-10-4-9-6-5(10)7(13)12(3)8(14)11(6)2/h4H,1-3H3"
    "58-08-2" "2519" "3G6A5W338E".

Definition aspirin : IdentifierSet :=
  compound "2-acetoxybenzoic acid" "CC(=O)OC1=CC=CC=C1C(=O)O"
    "InChI=1S/C9H8O4/c1-6(10)13-8-5-3-2-4-7(8)9(11)12/h2-5H,1H3,(H,11,12)"
    "50-78-2" "2244" "R16CO5Y76E".

(** [commonCompounds]: every alias key with the literal it maps to, in
    source order. *)
Definition commonCompounds : list (string * IdentifierSet) :=
  [("water", water);
   ("h2o", water);
   ("o", water);
   ("7732-18-5", water);
   ("carbon dioxide", carbonDioxide);
   ("co2", carbonDioxide);
   ("o=c=o", carbonDioxide);
   ("124-38-9", carbonDioxide);
   ("methane", methane);
   ("ch4", methane);
   ("c", methane);
   ("74-82-8", methane);
   ("ethanol", ethanol);
   ("ethyl alcohol", ethanol);
   ("cco", ethanol);
   ("64-17-5", ethanol);
   ("benzene", benzene);
   ("c1ccccc1", benzene);
   ("71-43-2", benzene);
   ("acetic acid", aceticAcid);
   ("cc(=o)o", aceticAcid);
   ("64-19-7", aceticAcid);
   ("formic acid", formicAcid);
   ("methanoic acid", formicAcid);
   ("c(=o)o", formicAcid);
   ("64-18-6", formicAcid);
   ("methanol", methanol);
   ("methyl alcohol", methanol);
   ("co", methanol);
   ("67-56-1", methanol);
   ("ammonia", ammonia);
   ("nh3", ammonia);
   ("n", ammonia);
   ("7664-41-7", ammonia);
   ("ethane", ethane);
   ("cc", ethane);
   ("74-84-0", ethane);
   ("propane", propane);
   ("ccc", propane);
   ("74-98-6", propane);
   ("butane", butane);
   ("cccc", butane);
   ("106-97-8", butane);
   ("isobutane", isobutane);
   ("2-methylpropane", isobutane);
   ("cc(c)c", isobutane);
   ("75-28-5", isobutane);
   ("toluene", toluene);
   ("methylbenzene", toluene);
   ("cc1ccccc1", toluene);
   ("108-88-3", toluene);
   ("glucose", glucose);
   ("d-glucose", glucose);
   ("50-99-7", glucose);
   ("caffeine", caffeine);
   ("58-08-2", caffeine);
   ("aspirin", aspirin);
   ("acetylsalicylic acid", aspirin);
   ("50-78-2", aspirin)].

Fixpoint lookupKey (key : string) (table : list (string * IdentifierSet))
  : option IdentifierSet :=
  match table with
  | [] => None
  | (k, v) :: rest => if String.eqb k key then Some v else lookupKey key rest
  end.

(** Enhanced local lookup for common compounds: the alias key first, then
    the first entry whose property of the requested kind equals the value,
    compared in lower case.  [commonCompounds] is read as the dictionary of
    the keys written in it; a value that names a member every JavaScript
    object inherits (["constructor"] and the like) is outside the model. *)
Definition getLocalIdentifiers (sourceType : Kind) (sourceValue : string)
  : option IdentifierSet :=
  let lowerValue := trim (toLowerCase sourceValue) in
  match lookupKey lowerValue commonCompounds with
  | Some compound => Some compound
  | None =>
      snd <$> List.find
        (fun entry : string * IdentifierSet =>
           match snd entry !! sourceType with
           | Some idValue => String.eqb (toLowerCase idValue) lowerValue
           | None => false
           end)
        commonCompounds
  end.

End LocalTable.


(** ** [src/utils/identifierLookup.ts]: cache, confidence, retry, resolution *)

Module Resolver.
Import JS Regex Ident Lookup LocalTable.

Record IdentifierLookupResult : Type := mkResult {
  success : bool;
  identifiers : option IdentifierSet;
  error : option string;
  source : option string;
  confidence : option Q
}.

Record DatabaseConfig : Type := mkDatabase {
  name : string;
  baseUrl : string;
  priority : Z;   (* higher number = higher priority *)
  timeout : Z;
  retries : nat
}.

(** Multiple database configurations for redundancy. *)
Definition PubChem : DatabaseConfig :=
  mkDatabase "PubChem" "https://pubchem.ncbi.nlm.nih.gov/rest/pug" 10 5000 2.
Definition NCICACTUS : DatabaseConfig :=
  mkDatabase "NCI/CACTUS" "https://cactus.nci.nih.gov/chemical/structure"
    6 7000 1.
Definition DATABASES : list DatabaseConfig := [PubChem; NCICACTUS].

(** [dbs.sort((a, b) => b.priority - a.priority)]: a stable sort, highest
    priority first. *)
Fixpoint insertByPriority (db : DatabaseConfig) (sorted : list DatabaseConfig)
  : list DatabaseConfig :=
  match sorted with
  | [] => [db]
  | x :: rest =>
      if (priority x <=? priority db)%Z then db :: x :: rest
      else x :: insertByPriority db rest
  end.

Fixpoint sortByPriority (dbs : list DatabaseConfig) : list DatabaseConfig :=
  match dbs with
  | [] => []
  | db :: rest => insertByPriority db (sortByPriority rest)
  end.

(** An entry of [identifierCache]. *)
Record CacheEntry : Type := mkEntry {
  cachedIdentifiers : IdentifierSet;
  timestamp : Z;
  cachedSource : string
}.

(** What one attempt against a remote source comes to: the resolver
    returns a result, or it throws an error with a message. *)
Inductive Outcome : Type :=
| Returned (result : IdentifierLookupResult)
| Threw (message : string).

(** The remote services.  [lookupFromPubChem] and [lookupFromNCICACTUS]
    are the two resolvers the wrapper dispatches to; their last argument
    is the index of the attempt within the wrapper, so that a service may
    answer differently from one attempt to the next.  [latency] is the
    time an attempt takes. *)
Record Network : Type := mkNetwork {
  lookupFromPubChem : Kind -> string -> DatabaseConfig -> nat -> Outcome;
  lookupFromNCICACTUS : Kind -> string -> DatabaseConfig -> nat -> Outcome;
  latency : DatabaseConfig -> nat -> Z
}.

(** What the resolver does to the outside, in order. *)
Inductive Event : Type :=
| Attempt (db : string) (attempt : nat)
| Backoff (ms : Z).

(** The state the functions run in: the module-level cache, the clock
    [Date.now()] reads, and the attempts and waits made so far. *)
Record World : Type := mkWorld {
  identifierCache : gmap string CacheEntry;
  clock : Z;
  trace : list Event
}.

(** A computation that reads and updates the state. *)
Definition M (A : Type) : Type := World -> A * World.

#[global] Instance M_ret : MRet M := fun A (x : A) w => (x, w).
#[global] Instance M_bind : MBind M :=
  fun A B (f : A -> M B) (m : M A) w => let (x, w') := m w in f x w'.

Definition truthy (value : option string) : bool :=
  match value with
  | Some s => negb (isEmpty s)
  | None => false
  end.

(** Calculate the confidence score from how many identifiers were found. *)
Definition calculateConfidence (ids : IdentifierSet) (sourceType : Kind) : Q :=
  let identifierCount := size ids in
  let hasSourceType := truthy (ids !! sourceType) in
  let confidence :=
    Qmin (inject_Z (Z.of_nat identifierCount) / 8)%Q 1.0%Q in
  let confidence :=
    if hasSourceType then Qmin (confidence + 0.2)%Q 1.0%Q else confidence in
  Qmax confidence 0.3%Q.

(** [identifierCache.get(key)] followed by the [isCacheValid] test. *)
Definition cacheGet (key : string) : M (option CacheEntry) := fun w =>
  (match identifierCache w !! key with
   | Some cached =>
       if isCacheValid (clock w) (timestamp cached) then Some cached else None
   | None => None
   end, w).

(** [identifierCache.set(key, { identifiers, timestamp: Date.now(), source })] *)
Definition cacheSet (key : string) (ids : IdentifierSet) (src : string)
  : M unit := fun w =>
  (tt, mkWorld (<[key := mkEntry ids (clock w) src]> (identifierCache w))
               (clock w) (trace w)).

(** The body of the [try] block of [lookupFromDatabase]: the resolver for
    [db.name], or the error for a name that has none. *)
Definition respond (net : Network) (db : DatabaseConfig)
    (sourceType : Kind) (sourceValue : string) (attempt : nat) : Outcome :=
  if String.eqb (name db) "PubChem"
  then lookupFromPubChem net sourceType sourceValue db attempt
  else if String.eqb (name db) "NCI/CACTUS"
  then lookupFromNCICACTUS net sourceType sourceValue db attempt
  else Threw ("Unsupported database: " ++ name db).

(** One attempt against [db]: it is recorded and takes its time. *)
Definition attemptLookup (net : Network) (db : DatabaseConfig)
    (sourceType : Kind) (sourceValue : string) (attempt : nat) : M Outcome :=
  fun w =>
  (respond net db sourceType sourceValue attempt,
   mkWorld (identifierCache w) (clock w + latency net db attempt)
           (trace w ++ [Attempt (name db) attempt])).

(** [await new Promise(resolve => setTimeout(resolve, ms))] *)
Definition wait (ms : Z) : M unit := fun w =>
  (tt, mkWorld (identifierCache w) (clock w + ms) (trace w ++ [Backoff ms])).

(** The loop of [lookupFromDatabase] from attempt number [attempt] on, with
    [remaining] iterations left before [attempt <= db.retries] fails. *)
Fixpoint retryLoop (net : Network) (db : DatabaseConfig) (sourceType : Kind)
    (sourceValue : string) (attempt remaining : nat)
    (lastError : option string) : M Outcome :=
  match remaining with
  | O =>
      mret (Threw (default ("Failed after " ++ pretty (retries db + 1)
                             ++ " attempts") lastError))
  | S remaining' =>
      outcome ← attemptLookup net db sourceType sourceValue attempt;
      match outcome with
      | Returned result => mret (Returned result)
      | Threw message =>
          (if Nat.ltb attempt (retries db)
           then wait (1000 * 2 ^ Z.of_nat attempt)
           else mret tt) ≫= fun _ =>
          retryLoop net db sourceType sourceValue (S attempt) remaining'
            (Some message)
      end
  end.

(** Lookup from a specific database with retry logic. *)
Definition lookupFromDatabase (net : Network) (db : DatabaseConfig)
    (sourceType : Kind) (sourceValue : string) : M Outcome :=
  retryLoop net db sourceType sourceValue 0 (S (retries db)) None.

Definition failed (message : string) : IdentifierLookupResult :=
  mkResult false None (Some message) None None.

(** The loop over the sorted databases in [lookupChemicalIdentifiers]:
    the result of the first source that succeeds, if any, and the
    [errors] collected from the sources that threw. *)
Fixpoint tryDatabases (net : Network) (dbs : list DatabaseConfig)
    (sourceType : Kind) (normalizedValue cacheKey : string)
    (errors : list string)
  : M (option IdentifierLookupResult * list string) :=
  match dbs with
  | [] => mret (None, errors)
  | db :: rest =>
      outcome ← lookupFromDatabase net db sourceType normalizedValue;
      match outcome with
      | Returned result =>
          match success result, identifiers result with
          | true, Some ids =>
              cacheSet cacheKey ids (name db) ≫= fun _ =>
              mret (Some (mkResult (success result) (Some ids) (error result)
                            (Some (name db))
                            (Some (calculateConfidence ids sourceType))),
                    errors)
          | _, _ =>
              tryDatabases net rest sourceType normalizedValue cacheKey errors
          end
      | Threw message =>
          tryDatabases net rest sourceType normalizedValue cacheKey
            (errors ++ [name db ++ ": " ++ message])
      end
  end.

(** The part of [lookupChemicalIdentifiers] after a cache miss: the local
    table, then the remote sources. *)
Definition resolveUncached (net : Network) (dbs : list DatabaseConfig)
    (sourceType : Kind) (sourceValue normalizedValue cacheKey : string)
  : M IdentifierLookupResult :=
  match getLocalIdentifiers sourceType normalizedValue with
  | Some localResult =>
      cacheSet cacheKey localResult "Local Database" ≫= fun _ =>
      mret (mkResult true (Some localResult) None (Some "Local Database")
              (Some 1.0%Q))
  | None =>
      found ← tryDatabases net (sortByPriority dbs) sourceType
                normalizedValue cacheKey [];
      match fst found with
      | Some result => mret result
      | None =>
          mret (failed ("Unable to find " ++ String "034" sourceValue
            ++ String "034" (" in chemical databases. Please check the "
            ++ "spelling or try a different identifier type.")))
      end
  end.

(** [lookupChemicalIdentifiers] over a given list of sources. *)
Definition lookupWith (net : Network) (dbs : list DatabaseConfig)
    (sourceType : Kind) (sourceValue : string) : M IdentifierLookupResult :=
  if isEmpty (trim sourceValue) then
    mret (failed "Empty identifier provided")
  else if negb (isReasonableInput sourceType sourceValue) then
    mret (failed ("Invalid " ++ kindName sourceType
                  ++ ". Please enter a valid chemical identifier."))
  else
    let normalizedValue := normalizeIdentifier sourceType sourceValue in
    if negb (validateIdentifier sourceType normalizedValue) then
      mret (failed ("Invalid format for " ++ kindName sourceType ++ ": "
                    ++ sourceValue))
    else
      let cacheKey := getCacheKey sourceType normalizedValue in
      cached ← cacheGet cacheKey;
      match cached with
      | Some entry =>
          mret (mkResult true (Some (cachedIdentifiers entry)) None
                  (Some (cachedSource entry ++ " (cached)")) (Some 1.0%Q))
      | None =>
          resolveUncached net dbs sourceType sourceValue normalizedValue
            cacheKey
      end.

Definition lookupChemicalIdentifiers (net : Network) (sourceType : Kind)
    (sourceValue : string) : M IdentifierLookupResult :=
  lookupWith net DATABASES sourceType sourceValue.

(** Cache management utilities. *)
Definition clearIdentifierCache : M unit := fun w =>
  (tt, mkWorld ∅ (clock w) (trace w)).

Definition getCacheSize : M nat := fun w => (size (identifierCache w), w).

(** Clean expired entries from the cache; the number removed. *)
Definition cleanExpiredCache : M nat := fun w =>
  let live :=
    filter (fun kv : string * CacheEntry =>
              isCacheValid (clock w) (timestamp (snd kv)) = true)
           (identifierCache w) in
  (size (identifierCache w) - size live, mkWorld live (clock w) (trace w)).

End Resolver.


(** ** [App.tsx]: the form handler that calls the resolver *)

Module App.
Import JS Regex Ident Lookup LocalTable Resolver.

(** The component state [handleInputChange] reads and sets.  [identifiers]
    is a [ChemicalIdentifiers] object: every kind is present, an empty
    string standing for a blank field. *)
Record State : Type := mkState {
  identifiers : IdentifierSet;
  sourceField : option Kind;
  isLookingUp : bool;
  lookupError : option string;
  lookupSource : option string
}.

Definition blankIdentifiers : IdentifierSet :=
  list_to_map (List.map (fun k => (k, EmptyString)) allKinds).

Definition initialState : State :=
  mkState blankIdentifiers None false None None.

(** [{ ...prev, ...found, [field]: value }] *)
Definition mergeFound (prev found : IdentifierSet) (field : Kind)
    (value : string) : IdentifierSet :=
  <[field := value]> (found ∪ prev).

(** [a || b] on strings that may be undefined. *)
Definition orElse (a : option string) (b : string) : string :=
  match a with
  | Some s => if isEmpty s then b else s
  | None => b
  end.

Definition handleInputChange (net : Network) (field : Kind) (value : string)
    (st : State) : M State :=
  (* setLookupError(null); setLookupSource(null) *)
  let st := mkState (identifiers st) (sourceField st) (isLookingUp st)
              None None in
  if isEmpty (trim value) then
    (* the field is being cleared *)
    if bool_decide (Some field = sourceField st) then
      mret (mkState blankIdentifiers None (isLookingUp st) None None)
    else
      mret (mkState (<[field := EmptyString]> (identifiers st))
              (sourceField st) (isLookingUp st) None None)
  else
    (* set the source field and update the identifier *)
    let st := mkState (<[field := value]> (identifiers st)) (Some field)
                true None None in
    cleanExpiredCache ≫= fun _ =>
    let normalizedValue := normalizeIdentifier field value in
    if negb (validateIdentifier field normalizedValue) then
      mret (mkState (identifiers st) (sourceField st) false
              (Some ("Invalid " ++ kindName field
                     ++ " format. Please check your input."))
              None)
    else
      match getLocalIdentifiers field value with
      | Some found =>
          mret (mkState (mergeFound (identifiers st) found field value)
                  (sourceField st) false None (Some "Local Database"))
      | None =>
          result ← lookupChemicalIdentifiers net field value;
          match Resolver.success result, Resolver.identifiers result with
          | true, Some found =>
              mret (mkState (mergeFound (identifiers st) found field value)
                      (sourceField st) false None
                      (Some (orElse (source result) "External Database")))
          | _, _ =>
              mret (mkState (identifiers st) (sourceField st) false
                      (Some (orElse (error result) "Unknown lookup error"))
                      None)
          end
      end.

End App.


(** ** Notions the properties are stated with *)

Module Spec.
Import JS Regex Ident Lookup LocalTable Resolver.

(** The kinds whose normalisation strips a textual prefix. *)
Definition stripsPrefix (k : Kind) : bool :=
  match k with
  | pubchemCID | chemSpider | compToxDashboard => true
  | _ => false
  end.

(** The database-ID kinds. *)
Definition isDatabaseId (k : Kind) : bool :=
  match k with
  | pubchemCID | chemSpider => true
  | _ => false
  end.

(** A message names a kind when the property name occurs in it. *)
Definition namesKind (k : Kind) (message : string) : bool :=
  includes (kindName k) message.

(** The same state at a later (or any other) reading of the clock. *)
Definition atTime (now : Z) (w : World) : World :=
  mkWorld (identifierCache w) now (trace w).

(** Attempts [first .. first + more] on a source, with the backoff
    [1000 * 2^i] after each attempt [i] but the last. *)
Fixpoint scheduleFrom (db : string) (first more : nat) : list Event :=
  match more with
  | O => [Attempt db first]
  | S more' =>
      Attempt db first :: Backoff (1000 * 2 ^ Z.of_nat first)
        :: scheduleFrom db (S first) more'
  end.
Definition schedule (db : string) (last : nat) : list Event :=
  scheduleFrom db 0 last.

(** The number of attempts in a list of events. *)
Definition attempts (events : list Event) : nat :=
  List.length (List.filter (fun e => match e with Attempt _ _ => true
                                             | Backoff _ => false end) events).

(** The attempt the retry wrapper stops at: the first one from [attempt]
    on that does not throw, or the last one permitted. *)
Fixpoint stopsAt (outcome : nat -> Outcome) (attempt more : nat) : nat :=
  match more with
  | O => attempt
  | S more' =>
      match outcome attempt with
      | Returned _ => attempt
      | Threw _ => stopsAt outcome (S attempt) more'
      end
  end.

(** The events of one run of the wrapper on [db]. *)
Definition wrapperEvents (net : Network) (sourceType : Kind)
    (sourceValue : string) (db : DatabaseConfig) : list Event :=
  schedule (name db)
    (stopsAt (respond net db sourceType sourceValue) 0 (retries db)).

(** The score as the specification words it, for a given reading of
    "populated". *)
Definition countOfPopulatedFields (populated : IdentifierSet -> Kind -> bool)
    (ids : IdentifierSet) : nat :=
  List.length (List.filter (populated ids) allKinds).

Definition specifiedConfidence (populated : IdentifierSet -> Kind -> bool)
    (ids : IdentifierSet) (k : Kind) : Q :=
  let cap :=
    (Qmin (inject_Z (Z.of_nat (countOfPopulatedFields populated ids)) / 8) 1.0
     + (if populated ids k then 0.2 else 0))%Q in
  Qmax (Qmin cap 1.0%Q) 0.3%Q.

(** The two readings: the property is present, or it is present with a
    non-empty value. *)
Definition isPresent (ids : IdentifierSet) (k : Kind) : bool :=
  bool_decide (is_Some (ids !! k)).
Definition isNonEmpty (ids : IdentifierSet) (k : Kind) : bool :=
  truthy (ids !! k).

(** The score the source computes, written as one formula. *)
Definition scoreFormula (ids : IdentifierSet) (k : Kind) : Q :=
  let cap :=
    (Qmin (inject_Z (Z.of_nat (size ids)) / 8) 1.0
     + (if truthy (ids !! k) then 0.2 else 0))%Q in
  Qmax (Qmin cap 1.0%Q) 0.3%Q.

End Spec.

(** ** Scenarios: concrete services and inputs *)

Module Scenario.
Import JS Regex Ident Lookup LocalTable Resolver.

Definition emptyWorld : World := mkWorld ∅ 0 [].

Definition notFound : IdentifierLookupResult :=
  failed "Could not find compound in PubChem database".

(** Ethanol as PubChem reports it, in its canonical notation. *)
Definition ethanolFromPubChem : IdentifierSet :=
  {[ smiles := "CCO"; pubchemCID := "702" ]}.

(** PubChem answers every request with ethanol; the second source is
    down. *)
Definition echoing : Network :=
  mkNetwork
    (fun _ _ _ _ => Returned (mkResult true (Some ethanolFromPubChem)
                                None None None))
    (fun _ _ _ _ => Threw "NCI CACTUS lookup failed: Failed to fetch")
    (fun _ _ => 120%Z).

(** PubChem does not know the compound on the first attempt, and would
    return ethanol on a second one; the second source finds nothing. *)
Definition misses : Network :=
  mkNetwork
    (fun _ _ _ attempt =>
       match attempt with
       | O => Returned notFound
       | _ => Returned (mkResult true (Some ethanolFromPubChem)
                          None None None)
       end)
    (fun _ _ _ _ =>
       Returned (failed "No identifiers found in NCI CACTUS database"))
    (fun _ _ => 120%Z).

(** PubChem throws on every attempt; the second source throws once and
    then answers. *)
Definition failing : Network :=
  mkNetwork
    (fun _ _ _ _ => Threw "PubChem lookup failed: Failed to fetch")
    (fun _ _ _ attempt =>
       match attempt with
       | O => Threw "NCI CACTUS lookup failed: Failed to fetch"
       | _ => Returned (mkResult true (Some {[ iupacName := "ethanol" ]})
                          None None None)
       end)
    (fun _ _ => 120%Z).

(** A set with all twelve fields populated. *)
Definition complete : IdentifierSet :=
  list_to_map (List.map (fun k => (k, kindName k)) allKinds).

(** What the second source gives when three of its four conversions
    answer with a blank line. *)
Definition mostlyBlank : IdentifierSet :=
  {[ smiles := ""; iupacName := "x"; casNumber := ""; inchi := "" ]}.

End Scenario.


(** ** [App.tsx]: clearing the form and choosing what to render *)

Module View.
Import JS Ident Resolver App.

(** [handleClearAll] *)
Definition handleClearAll (st : State) : State :=
  mkState blankIdentifiers None (isLookingUp st) None None.

(** The fields [currentMolecule] looks at, in its order of preference. *)
Definition renderingFields : list Kind :=
  [smiles; inchi; iupacName; casNumber; pubchemCID].

Fixpoint firstNonEmpty (fields : list Kind) (ids : IdentifierSet)
  : option (Kind * string) :=
  match fields with
  | [] => None
  | field :: rest =>
      match ids !! field with
      | Some value =>
          if isEmpty value then firstNonEmpty rest ids
          else Some (field, value)
      | None => firstNonEmpty rest ids
      end
  end.

(** [currentMolecule]: the first non-empty identifier for rendering. *)
Definition currentMolecule (ids : IdentifierSet) : option (Kind * string) :=
  firstNonEmpty renderingFields ids.

End View.

(** ** [InputForm]: what the form shows of the state *)

Module Form.
Import JS Ident Resolver App.






(** The three banners: [isLookingUp && ...], [lookupError && ...] and
    [lookupSource && !isLookingUp && !lookupError && ...]. *)
Definition showsSpinner (st : State) : bool := isLookingUp st.
Definition showsError (st : State) : bool := truthy (lookupError st).
Definition showsSuccess (st : State) : bool :=
  truthy (lookupSource st) && negb (isLookingUp st)
  && negb (truthy (lookupError st)).

End Form.

(** ** [identifierLookup.ts]: the two resolvers and the requests they make *)

Module Web.
Import JS Regex Ident Lookup Resolver.

(** [encodeURIComponent]: letters, digits and [- _ . ! ~ * ' ( )] stay,
    every other character becomes [%XX]. *)
Definition unreserved (c : ascii) : bool :=
  isUpper c || isLower c || isDigit c || oneOf "-_.!~*'()" c.

Definition hexDigit (n : N) : ascii :=
  if (n <? 10)%N then ascii_of_N (48 + n) else ascii_of_N (55 + n).

Fixpoint encodeURIComponent (s : string) : string :=
  match s with
  | EmptyString => EmptyString
  | String c rest =>
      if unreserved c then String c (encodeURIComponent rest)
      else String "%" (String (hexDigit (code c / 16))
             (String (hexDigit (code c mod 16)) (encodeURIComponent rest)))
  end.

(** [s.replace(/[\s-]/g, '')] *)
Fixpoint removeSpacesAndHyphens (s : string) : string :=
  match s with
  | EmptyString => EmptyString
  | String c rest =>
      if isSpace c || Ascii.eqb c "-" then removeSpacesAndHyphens rest
      else String c (removeSpacesAndHyphens rest)
  end.

(** What [await fetch(url)] and the reading of the response come to: an
    error is thrown (the request is aborted or fails, the body cannot be
    read), the response is not [ok], or it is [ok] with a body. *)
Inductive Reply (A : Type) : Type :=
| Throws
| NotOk
| Ok (body : A).
Arguments Throws {A}.
Arguments NotOk {A}.
Arguments Ok {A} body.

(** [propsData.PropertyTable?.Properties?.[0]] *)
Record Properties : Type := mkProperties {
  IUPACName : option string;
  CanonicalSMILES : option string;
  InChI : option string
}.

(** The services behind [fetch], by what the code reads of the body for
    each kind of request, the URL given:
    [data.IdentifierList?.CID?.[0]?.toString()] of the CID request,
    [propsData.PropertyTable?.Properties?.[0]] of the property request,
    [synonymsData.InformationList?.Information?.[0]?.Synonym || []] of the
    synonym request, a list of strings, and [response.text()] of a
    conversion request. *)
Record Services : Type := mkServices {
  cidList : string -> Reply (option string);
  propertyTable : string -> Reply (option Properties);
  synonymList : string -> Reply (list string);
  conversion : string -> Reply string
}.

(** The URL [getPubChemCID] requests. *)
Definition cidUrl (sourceType : Kind) (sourceValue : string)
    (db : DatabaseConfig) : string :=
  match sourceType with
  | casNumber =>
      baseUrl db ++ "/compound/name/"
        ++ encodeURIComponent (removeSpacesAndHyphens sourceValue)
        ++ "/cids/JSON"
  | smiles =>
      baseUrl db ++ "/compound/smiles/" ++ encodeURIComponent sourceValue
        ++ "/cids/JSON"
  | inchi =>
      baseUrl db ++ "/compound/inchi/" ++ encodeURIComponent sourceValue
        ++ "/cids/JSON"
  | _ =>
      baseUrl db ++ "/compound/name/" ++ encodeURIComponent sourceValue
        ++ "/cids/JSON"
  end.

(** Get the PubChem CID from the various identifier types; every error is
    caught and gives [null]. *)
Definition getPubChemCID (sv : Services) (sourceType : Kind)
    (sourceValue : string) (db : DatabaseConfig) : option string :=
  match sourceType with
  | pubchemCID => Some sourceValue (* already have the CID *)
  | _ =>
      match cidList sv (cidUrl sourceType sourceValue db) with
      | Ok (Some cid) => if isEmpty cid then None else Some cid
      | Ok None | NotOk | Throws => None
      end
  end.

(** [if (value) identifiers[k] = value] *)
Definition setIfTruthy (k : Kind) (value : option string)
    (ids : IdentifierSet) : IdentifierSet :=
  match value with
  | Some s => if isEmpty s then ids else <[k := s]> ids
  | None => ids
  end.

(** [VALIDATION_PATTERNS[k]?.test(value)], on the value as it stands. *)
Definition patternTest (k : Kind) (value : string) : bool :=
  match VALIDATION_PATTERNS k with
  | Some pattern => test pattern value
  | None => false
  end.

(** [if (!identifiers[k] && VALIDATION_PATTERNS[k]?.test(synonym))
       identifiers[k] = synonym] *)
Definition takeSynonym (k : Kind) (synonym : string) (ids : IdentifierSet)
  : IdentifierSet :=
  if negb (truthy (ids !! k)) && patternTest k synonym
  then <[k := synonym]> ids
  else ids.

(** The body of the loop over the synonyms. *)
Definition extractFrom (ids : IdentifierSet) (synonym : string)
  : IdentifierSet :=
  takeSynonym rtecsNumber synonym
    (takeSynonym eNumber synonym
      (takeSynonym ecNumber synonym
        (takeSynonym unii synonym
          (takeSynonym casNumber synonym ids)))).

Definition propsUrl (cid : string) (db : DatabaseConfig) : string :=
  baseUrl db ++ "/compound/cid/" ++ cid
    ++ "/property/IUPACName,CanonicalSMILES,InChI,MolecularFormula/JSON".

Definition synonymsUrl (cid : string) (db : DatabaseConfig) : string :=
  baseUrl db ++ "/compound/cid/" ++ cid ++ "/synonyms/JSON".

(** Get all identifiers from a PubChem CID.  An error thrown on the way
    is caught and what was collected until then is returned. *)
Definition getAllIdentifiersFromPubChemCID (sv : Services) (cid : string)
    (db : DatabaseConfig) : IdentifierSet :=
  let identifiers : IdentifierSet := ∅ in
  match propertyTable sv (propsUrl cid db) with
  | Throws => identifiers
  | propsReply =>
      let identifiers :=
        match propsReply with
        | Ok (Some props) =>
            setIfTruthy inchi (InChI props)
              (setIfTruthy smiles (CanonicalSMILES props)
                (setIfTruthy iupacName (IUPACName props) identifiers))
        | _ => identifiers
        end in
      match synonymList sv (synonymsUrl cid db) with
      | Throws => identifiers
      | synonymsReply =>
          let identifiers :=
            match synonymsReply with
            | Ok synonyms => fold_left extractFrom synonyms identifiers
            | _ => identifiers
            end in
          (* set the PubChem CID *)
          <[pubchemCID := cid]> identifiers
      end
  end.

(** PubChem database lookup.  The two functions it awaits catch their own
    errors, so nothing reaches its [catch]. *)
Definition lookupFromPubChem (sv : Services) (sourceType : Kind)
    (sourceValue : string) (db : DatabaseConfig) : Outcome :=
  match getPubChemCID sv sourceType sourceValue db with
  | Some cid =>
      if isEmpty cid
      then Returned (mkResult false None
             (Some "Could not find compound in PubChem database") None None)
      else Returned (mkResult true
             (Some (getAllIdentifiersFromPubChemCID sv cid db))
             None None None)
  | None =>
      Returned (mkResult false None
        (Some "Could not find compound in PubChem database") None None)
  end.

(** The conversions NCI CACTUS is asked for: the path segment and the
    field the answer goes to. *)
Definition conversions : list (string * Kind) :=
  [("smiles", smiles); ("iupac_name", iupacName); ("cas", casNumber);
   ("stdinchi", inchi)].

Definition conversionUrl (from to : string) : string :=
  "https://cactus.nci.nih.gov/chemical/structure" ++ "/"
    ++ encodeURIComponent from ++ "/" ++ to.

(** [result && !result.includes('Page not found')] *)
Definition usable (result : string) : bool :=
  negb (isEmpty result) && negb (includes "Page not found" result).

(** One round of the loop over the conversions; a conversion that fails
    is skipped. *)
Definition convert (sv : Services) (sourceValue : string)
    (ids : IdentifierSet) (c : string * Kind) : IdentifierSet :=
  match conversion sv (conversionUrl sourceValue (fst c)) with
  | Ok result =>
      if usable result then <[snd c := trim result]> ids else ids
  | NotOk | Throws => ids
  end.

(** NCI CACTUS database lookup; the kind of the value is not used. *)
Definition lookupFromNCICACTUS (sv : Services) (_sourceType : Kind)
    (sourceValue : string) (db : DatabaseConfig) : Outcome :=
  let identifiers := fold_left (convert sv sourceValue) conversions ∅ in
  if Nat.eqb (size identifiers) 0
  then Returned (mkResult false None
         (Some "No identifiers found in NCI CACTUS database") None None)
  else Returned (mkResult true (Some identifiers) None None None).

(** The network the two resolvers make of the services, which may answer
    differently from one attempt to the next. *)
Definition resolvers (sv : nat -> Services) (lat : DatabaseConfig -> nat -> Z)
  : Network :=
  mkNetwork
    (fun sourceType sourceValue db attempt =>
       lookupFromPubChem (sv attempt) sourceType sourceValue db)
    (fun sourceType sourceValue db attempt =>
       lookupFromNCICACTUS (sv attempt) sourceType sourceValue db)
    lat.

End Web.

(** ** Further notions the properties are stated with *)

Module Measure.
Import Ident Resolver.

(** The same state with another cache. *)
Definition withCache (cache : gmap string CacheEntry) (w : World) : World :=
  mkWorld cache (clock w) (trace w).

(** The time spent in backoff waits in a list of events. *)
Fixpoint waited (events : list Event) : Z :=
  match events with
  | [] => 0
  | Attempt _ _ :: rest => waited rest
  | Backoff ms :: rest => ms + waited rest
  end.

(** The cache after the loop over the sources: the set of the source that
    succeeded, if any, written under the key at the time the loop ended. *)
Definition cacheAfter (key : string) (cache : gmap string CacheEntry)
    (found : option IdentifierLookupResult) (now : Z)
  : gmap string CacheEntry :=
  match found with
  | Some result =>
      match identifiers result, source result with
      | Some ids, Some src => <[key := mkEntry ids now src]> cache
      | _, _ => cache
      end
  | None => cache
  end.

(** The message of a lookup that found nothing. *)
Definition notFoundMessage (sourceValue : string) : string :=
  "Unable to find " ++ String "034" sourceValue
  ++ String "034" (" in chemical databases. Please check the "
  ++ "spelling or try a different identifier type.").




(** The kinds whose normalisation puts the value in upper case. *)
Definition upperCased (k : Kind) : bool :=
  match k with
  | unii | rtecsNumber | eNumber | compToxDashboard => true
  | _ => false
  end.

(** The kinds the loop over the synonyms of PubChem fills. *)
Definition takesSynonyms (k : Kind) : bool :=
  match k with
  | casNumber | unii | ecNumber | eNumber | rtecsNumber => true
  | _ => false
  end.

(** The kinds a set collected from PubChem can hold. *)
Definition fromPubChem (k : Kind) : bool :=
  match k with
  | iupacName | smiles | inchi | pubchemCID => true
  | _ => takesSynonyms k
  end.

(** What holds of the set while [getAllIdentifiersFromPubChemCID]
    collects it: the values are not empty, the fields are those PubChem
    fills, the CID is not set yet, and a field filled from a synonym
    passes its pattern. *)
Definition collected (ids : IdentifierSet) : Prop :=
  forall k s, ids !! k = Some s ->
    JS.isEmpty s = false /\ fromPubChem k = true /\ k <> pubchemCID
    /\ (takesSynonyms k = true -> Web.patternTest k s = true).

(** What one conversion of NCI CACTUS contributes: the answer trimmed,
    when there is a usable one. *)
Definition converted (sv : Web.Services) (sourceValue : string)
    (to : string) : option string :=
  match Web.conversion sv (Web.conversionUrl sourceValue to) with
  | Web.Ok result => if Web.usable result then Some (JS.trim result) else None
  | _ => None
  end.

(** The conversion whose answer goes to a field, if there is one. *)
Definition conversionFor (k : Kind) : option string :=
  fst <$> List.find (fun c : string * Kind => bool_decide (snd c = k))
            Web.conversions.

(** Services that know ethanol, whatever they are asked. *)
Definition knowingEthanol : Web.Services :=
  Web.mkServices
    (fun _ => Web.Ok (Some "702"))
    (fun _ => Web.Ok (Some (Web.mkProperties (Some "ethanol") (Some "CCO")
                              (Some "InChI=1S/C2H6O/c1-2-3/h3H,2H2,1H3"))))
    (fun _ => Web.Ok ["ethanol"; "64-17-5"; "3K9958V90M"; "200-578-6";
                      "E1510"; "KQ6300000"; "67-63-0"])
    (fun _ => Web.Ok "CCO ").

(** PubChem does not answer; NCI CACTUS converts everything to the
    SMILES of ethanol, followed by a blank. *)
Definition cactusOnly : nat -> Web.Services := fun _ =>
  Web.mkServices (fun _ => Web.NotOk) (fun _ => Web.NotOk)
    (fun _ => Web.NotOk) (fun _ => Web.Ok "CCO ").

(** Services none of which can be reached, and instant attempts. *)
Definition unreachable : nat -> Web.Services := fun _ =>
  Web.mkServices (fun _ => Web.Throws) (fun _ => Web.Throws)
    (fun _ => Web.Throws) (fun _ => Web.Throws).
Definition instant : DatabaseConfig -> nat -> Z := fun _ _ => 0%Z.

End Measure.

(** * Properties *)

(** ** Strings *)

Module JSFacts.
Import JS.

Ltac by_cases_on c :=
  destruct c as [[] [] [] [] [] [] [] []]; vm_compute; try reflexivity;
  try discriminate.

Lemma isSpace_upperChar c : isSpace (upperChar c) = isSpace c.
Proof. by_cases_on c. Qed.

Lemma upperChar_idem c : upperChar (upperChar c) = upperChar c.
Proof. by_cases_on c. Qed.

Lemma isDigit_not_space c : isDigit c = true -> isSpace c = false.
Proof. by_cases_on c. Qed.

Lemma mapChars_upper_idem s : toUpperCase (toUpperCase s) = toUpperCase s.
Proof.
  unfold toUpperCase. induction s as [|c s IH]; simpl; [reflexivity|].
  now rewrite upperChar_idem, IH.
Qed.

Lemma allChars_app p s t :
  allChars p (s ++ t) = allChars p s && allChars p t.
Proof.
  induction s as [|c s IH]; simpl; [reflexivity|].
  now rewrite IH, andb_assoc.
Qed.

Lemma allChars_impl (p q : ascii -> bool) s :
  (forall c, p c = true -> q c = true) ->
  allChars p s = true -> allChars q s = true.
Proof.
  intros Hpq. induction s as [|c s IH]; simpl; [reflexivity|].
  intros [Hc Hs]%andb_true_iff. now rewrite (Hpq c Hc), IH.
Qed.

Lemma allChars_drop p n s : allChars p s = true -> allChars p (drop n s) = true.
Proof.
  revert s. induction n as [|n IH]; intros [|c s]; simpl; try reflexivity;
    try (intros H; exact H).
  intros [_ Hs]%andb_true_iff. now apply IH.
Qed.

Lemma allChars_substring p n m s :
  allChars p s = true -> allChars p (substring n m s) = true.
Proof.
  revert n m. induction s as [|c s IH]; intros [|n] [|m]; simpl;
    try reflexivity; intros [Hc Hs]%andb_true_iff.
  - now rewrite Hc, (IH 0 m).
  - now apply IH.
  - now apply IH.
Qed.

Lemma trimStart_headOk s : headOk (trimStart s) = true.
Proof.
  induction s as [|c s IH]; simpl; [reflexivity|].
  destruct (isSpace c) eqn:E; [exact IH|]. simpl. now rewrite E.
Qed.

Lemma trimStart_id s : headOk s = true -> trimStart s = s.
Proof.
  destruct s as [|c s]; simpl; [reflexivity|].
  now destruct (isSpace c).
Qed.

Lemma trimEnd_cons c s :
  isSpace c = false -> trimEnd (String c s) = String c (trimEnd s).
Proof. intros H. simpl. rewrite H. now destruct (trimEnd s). Qed.

Lemma trimEnd_idem s : trimEnd (trimEnd s) = trimEnd s.
Proof.
  induction s as [|c s IH]; simpl; [reflexivity|].
  destruct (trimEnd s) as [|d t] eqn:E.
  - destruct (isSpace c) eqn:Ec; simpl; [reflexivity|]. now rewrite Ec.
  - change (trimEnd (String c (String d t)))
      with (match trimEnd (String d t) with
            | EmptyString =>
                if isSpace c then EmptyString else String c EmptyString
            | String a b => String c (String a b)
            end).
    now rewrite IH.
Qed.

Lemma trimEnd_headOk s : headOk s = true -> headOk (trimEnd s) = true.
Proof.
  destruct s as [|c s]; [reflexivity|]. simpl headOk at 1.
  intros H%negb_true_iff. rewrite trimEnd_cons by exact H. simpl.
  now rewrite H.
Qed.

Lemma trim_fixed s : headOk s = true -> trimEnd s = s -> trim s = s.
Proof. intros H1 H2. unfold trim. now rewrite trimStart_id, H2. Qed.

Lemma trim_headOk s : headOk (trim s) = true.
Proof. apply trimEnd_headOk, trimStart_headOk. Qed.

Lemma trimEnd_trim s : trimEnd (trim s) = trim s.
Proof. apply trimEnd_idem. Qed.

Lemma trim_idem s : trim (trim s) = trim s.
Proof. apply trim_fixed; [apply trim_headOk | apply trimEnd_trim]. Qed.

Lemma trim_no_space s : allChars (fun c => negb (isSpace c)) s = true -> trim s = s.
Proof.
  intros H. apply trim_fixed.
  - destruct s as [|c s]; [reflexivity|]. simpl in *.
    now apply andb_true_iff in H as [-> _].
  - induction s as [|c s IH]; [reflexivity|]. simpl in H.
    apply andb_true_iff in H as [Hc Hs]. apply negb_true_iff in Hc.
    now rewrite trimEnd_cons, IH.
Qed.

Lemma trimStart_upper s : trimStart (toUpperCase s) = toUpperCase (trimStart s).
Proof.
  unfold toUpperCase. induction s as [|c s IH]; simpl; [reflexivity|].
  rewrite isSpace_upperChar. now destruct (isSpace c).
Qed.

Lemma trimEnd_upper s : trimEnd (toUpperCase s) = toUpperCase (trimEnd s).
Proof.
  unfold toUpperCase. induction s as [|c s IH]; simpl; [reflexivity|].
  rewrite IH, isSpace_upperChar.
  destruct (trimEnd s); simpl; [now destruct (isSpace c)|reflexivity].
Qed.

Lemma trim_upper s : trim (toUpperCase s) = toUpperCase (trim s).
Proof. unfold trim. now rewrite trimStart_upper, trimEnd_upper. Qed.

Lemma includes_app_r t a b : includes t b = true -> includes t (a ++ b) = true.
Proof.
  intros H. induction a as [|c a IH]; simpl; [exact H|].
  rewrite IH. apply orb_true_r.
Qed.

Lemma prefix_app t b : String.prefix t (t ++ b) = true.
Proof. induction t as [|c t IH]; simpl; [now destruct b|].
  destruct (ascii_dec c c); [exact IH|congruence]. Qed.

Lemma includes_prefix t s : String.prefix t s = true -> includes t s = true.
Proof. intros H. destruct s; cbn [includes]; now rewrite H. Qed.

Lemma includes_mid t a b : includes t (a ++ t ++ b) = true.
Proof. apply includes_app_r, includes_prefix, prefix_app. Qed.

End JSFacts.

(** ** The matcher decides the language of an expression *)

Module RegexFacts.
Import JS Regex JSFacts.

Ltac invert H := inversion H; subst; clear H.

Lemma append_empty s t : s ++ t = EmptyString -> s = EmptyString /\ t = EmptyString.
Proof. destruct s; simpl; [now split|discriminate]. Qed.

Lemma nullable_Lang r : nullable r = true -> Lang r EmptyString.
Proof.
  induction r as [| |p|r1 IH1 r2 IH2|r1 IH1 r2 IH2|r IH]; simpl; intros H;
    try discriminate.
  - constructor.
  - apply andb_true_iff in H as [H1 H2].
    change EmptyString with (EmptyString ++ EmptyString).
    constructor; auto.
  - apply orb_true_iff in H as [H|H]; [apply LAltL|apply LAltR]; auto.
  - constructor.
Qed.

Lemma Lang_nullable r s : Lang r s -> s = EmptyString -> nullable r = true.
Proof.
  induction 1; intros E; simpl; try reflexivity; try discriminate.
  - apply append_empty in E as [-> ->]. now rewrite IHLang1, IHLang2.
  - now rewrite IHLang.
  - rewrite IHLang by exact E. apply orb_true_r.
Qed.

Lemma nullable_spec r : nullable r = true <-> Lang r EmptyString.
Proof. split; [apply nullable_Lang|intros H; now apply (Lang_nullable r _ H)]. Qed.

Lemma Lang_cat r1 r2 s : Lang (cat r1 r2) s <-> Lang (Cat r1 r2) s.
Proof.
  split.
  - destruct r1, r2; simpl; intros H; try exact H; try (now invert H);
      exact (LCat Eps _ EmptyString s LEps H).
  - intros H. invert H.
    destruct r1, r2; simpl; try (now constructor);
      try match goal with H : Lang Void _ |- _ => now invert H end;
      match goal with H : Lang Eps _ |- _ => now invert H end.
Qed.

Lemma Lang_alt r1 r2 s : Lang (alt r1 r2) s <-> Lang (Alt r1 r2) s.
Proof.
  split.
  - destruct r1, r2; simpl; intros H; try exact H;
      try (now apply LAltL); now apply LAltR.
  - intros H.
    destruct r1, r2; simpl; try exact H; invert H; try assumption;
      match goal with H : Lang Void _ |- _ => now invert H end.
Qed.

Lemma Lang_Star_cons r c s :
  Lang (Star r) (String c s) ->
  exists s1 s2, s = s1 ++ s2 /\ Lang r (String c s1) /\ Lang (Star r) s2.
Proof.
  intros H. remember (Star r) as r' eqn:Er. remember (String c s) as t eqn:Et.
  revert s Et.
  induction H as [| | | | | |r0 s1 s2 H1 _ H2 IH2]; intros s' Et;
    try discriminate.
  invert Er. destruct s1 as [|d s1]; simpl in Et.
  - now apply IH2.
  - invert Et. now exists s1, s2.
Qed.

Ltac inv_lang :=
  repeat match goal with
  | H : Lang Void _ |- _ => invert H
  | H : Lang Eps _ |- _ => invert H
  | H : Lang (Cls _) _ |- _ => invert H
  | H : Lang (Cat _ _) _ |- _ => invert H
  | H : Lang (Alt _ _) _ |- _ => invert H
  | H : Lang (cat _ _) _ |- _ => apply Lang_cat in H
  | H : Lang (alt _ _) _ |- _ => apply Lang_alt in H
  end.

Lemma deriv_sound c r : forall s, Lang (deriv c r) s -> Lang r (String c s).
Proof.
  induction r as [| |p|r1 IH1 r2 IH2|r1 IH1 r2 IH2|r IH]; simpl; intros s H.
  - inv_lang.
  - inv_lang.
  - destruct (p c) eqn:E; inv_lang. now constructor.
  - inv_lang.
    + match goal with |- Lang _ (String c (?a ++ ?b)) =>
        change (String c (a ++ b)) with (String c a ++ b) end.
      constructor; auto.
    + destruct (nullable r1) eqn:E; [|inv_lang].
      refine (LCat r1 r2 EmptyString (String c s) (nullable_Lang r1 E) _).
      now apply IH2.
  - inv_lang; [apply LAltL|apply LAltR]; auto.
  - inv_lang.
    match goal with |- Lang _ (String c (?a ++ ?b)) =>
      change (String c (a ++ b)) with (String c a ++ b) end.
    constructor; auto.
Qed.

Lemma Lang_Cat_cons r1 r2 c s :
  Lang (Cat r1 r2) (String c s) ->
  (exists s1 s2, s = s1 ++ s2 /\ Lang r1 (String c s1) /\ Lang r2 s2)
  \/ (Lang r1 EmptyString /\ Lang r2 (String c s)).
Proof.
  intros H. remember (Cat r1 r2) as r eqn:Er.
  remember (String c s) as t eqn:Et.
  destruct H as [| |q1 q2 s1 s2 H1 H2| | | |]; try discriminate.
  injection Er as -> ->. destruct s1 as [|d s1]; simpl in Et.
  - right. subst. auto.
  - left. injection Et as -> <-. now exists s1, s2.
Qed.

Lemma deriv_complete c r : forall s, Lang r (String c s) -> Lang (deriv c r) s.
Proof.
  induction r as [| |p|r1 IH1 r2 IH2|r1 IH1 r2 IH2|r IH]; simpl; intros s H.
  - inv_lang.
  - inv_lang.
  - remember (Cls p) as r eqn:Er. remember (String c s) as t eqn:Et.
    destruct H as [|q d Hq| | | | |]; try discriminate.
    injection Er as ->. injection Et as -> <-. rewrite Hq. constructor.
  - apply Lang_alt.
    apply Lang_Cat_cons in H as [(s1 & s2 & -> & H1 & H2)|[H1 H2]].
    + apply LAltL, Lang_cat. constructor; auto.
    + apply LAltR. rewrite (Lang_nullable r1 _ H1 eq_refl). auto.
  - apply Lang_alt. inv_lang; [apply LAltL|apply LAltR]; auto.
  - apply Lang_Star_cons in H as (s1 & s2 & -> & H1 & H2).
    apply Lang_cat. constructor; auto.
Qed.

(** [RegExp.test] accepts exactly the language of the expression. *)
Lemma matches_spec r s : matches r s = true <-> Lang r s.
Proof.
  revert r. induction s as [|c s IH]; intros r; simpl.
  - apply nullable_spec.
  - rewrite IH. split; [apply deriv_sound|apply deriv_complete].
Qed.

Lemma Lang_within q r s : classesWithin q r -> Lang r s -> allChars q s = true.
Proof.
  intros Hq H. induction H; simpl in *; try reflexivity.
  - now rewrite (Hq c).
  - destruct Hq. rewrite allChars_app, IHLang1, IHLang2; auto.
  - destruct Hq. auto.
  - destruct Hq. auto.
  - rewrite allChars_app, IHLang1, IHLang2; auto.
Qed.

Lemma matches_within q r s :
  classesWithin q r -> matches r s = true -> allChars q s = true.
Proof. intros Hq H. apply (Lang_within q r); [exact Hq|now apply matches_spec]. Qed.

Lemma Lang_Star_Cls p s : Lang (Star (Cls p)) s <-> allChars p s = true.
Proof.
  split.
  - apply Lang_within. simpl. auto.
  - induction s as [|c s IH]; simpl; intros H; [constructor|].
    apply andb_true_iff in H as [Hc Hs].
    change (String c s) with (String c EmptyString ++ s).
    constructor; [now constructor|auto].
Qed.

(** [/^[p]+$/] accepts the non-empty strings of characters of [p]. *)
Lemma matches_Plus_Cls p s :
  matches (Plus (Cls p)) s = true <-> s <> EmptyString /\ allChars p s = true.
Proof.
  split.
  - intros H. split; [intros ->; discriminate|].
    apply (matches_within p) in H; [exact H|simpl; auto].
  - intros [Hne H]. destruct s as [|c s]; [congruence|]. simpl in H.
    apply andb_true_iff in H as [Hc Hs]. apply matches_spec.
    exact (LCat _ _ (String c EmptyString) s (LCls p c Hc)
             (proj2 (Lang_Star_Cls p s) Hs)).
Qed.

Lemma longestPrefix_Void s : longestPrefix Void s = None.
Proof. induction s as [|c s IH]; simpl; [reflexivity|now rewrite IH]. Qed.

Lemma longestPrefix_Eps s : longestPrefix Eps s = Some s.
Proof.
  destruct s as [|c s]; simpl; [reflexivity|].
  now rewrite longestPrefix_Void.
Qed.

Lemma longestPrefix_Opt_Chr a s :
  longestPrefix (Opt (Chr a)) s
  = Some (match s with
          | EmptyString => EmptyString
          | String c rest => if Ascii.eqb a c then rest else s
          end).
Proof.
  destruct s as [|c rest]; [reflexivity|].
  change (longestPrefix (Opt (Chr a)) (String c rest))
    with (match longestPrefix (alt (if Ascii.eqb a c then Eps else Void) Void)
                  rest with
          | Some tl => Some tl
          | None => Some (String c rest)
          end).
  destruct (Ascii.eqb a c).
  - change (alt Eps Void) with Eps. now rewrite longestPrefix_Eps.
  - change (alt Void Void) with Void. now rewrite longestPrefix_Void.
Qed.

(** [s.replace(/^E?/, 'E')] puts an E in front unless one is there. *)
Lemma replace_optional_E s :
  replacePrefix (Opt (Chr "E")) "E" s
  = if startsWith s "E" then s else String "E" s.
Proof.
  unfold replacePrefix. rewrite longestPrefix_Opt_Chr.
  destruct s as [|c rest]; [reflexivity|].
  unfold startsWith. cbn [String.prefix].
  destruct (ascii_dec "E" c) as [<-|Hne].
  - rewrite Ascii.eqb_refl. now destruct rest.
  - destruct (Ascii.eqb "E" c) eqn:E; [|reflexivity].
    apply Ascii.eqb_eq in E. contradiction.
Qed.

End RegexFacts.

(** ** Normalisation and format validation *)

Module NormalizeFacts.
Import JS Regex Ident Lookup Spec JSFacts RegexFacts.

Lemma trim_upper_fixed v :
  let u := toUpperCase (trim v) in trim u = u /\ toUpperCase u = u.
Proof.
  simpl. split.
  - now rewrite trim_upper, trim_idem.
  - apply mapChars_upper_idem.
Qed.

Lemma digits_within_RepRange lo hi : classesWithin isDigit (RepRange lo hi digit).
Proof.
  unfold RepRange. split.
  - induction lo as [|lo IH]; simpl; auto.
  - generalize (hi - lo). intros n. induction n as [|n IH]; simpl; auto.
Qed.

(** A string of digits cut in three and joined by hyphens has no white
    space to trim and is no longer a string of digits. *)
Lemma hyphenated_fixed t (a b c d e : nat) :
  allChars isDigit t = true ->
  let out := slice a b t ++ "-" ++ slice c d t ++ "-" ++ sliceFrom e t in
  trim out = out /\ test (RepRange 8 9 digit) out = false.
Proof.
  intros Ht out. split.
  - apply trim_no_space. unfold out, slice, sliceFrom.
    rewrite !allChars_app.
    assert (Hns : forall s, allChars isDigit s = true ->
                  allChars (fun c => negb (isSpace c)) s = true).
    { intros s. apply allChars_impl. intros x Hx.
      now rewrite (isDigit_not_space x Hx). }
    rewrite (Hns (substring a (b - a) t)), (Hns (substring c (d - c) t)),
      (Hns (drop e t))
      by (apply allChars_substring || apply allChars_drop; exact Ht).
    reflexivity.
  - destruct (test (RepRange 8 9 digit) out) eqn:E; [|reflexivity].
    apply (matches_within isDigit) in E; [|apply digits_within_RepRange].
    unfold out in E. rewrite !allChars_app in E. simpl in E.
    rewrite !andb_false_r in E. discriminate.
Qed.

(** Normalising twice is normalising once, for the kinds that strip no
    prefix. *)
Lemma normalize_twice k v :
  stripsPrefix k = false ->
  normalizeIdentifier k (normalizeIdentifier k v) = normalizeIdentifier k v.
Proof.
  intros Hk. destruct k; try discriminate Hk; clear Hk;
    unfold normalizeIdentifier; try apply trim_idem.
  - (* casNumber *)
    destruct (test (RepRange 8 9 digit) (trim v)) eqn:E.
    + assert (Hd : allChars isDigit (trim v) = true)
        by (apply (matches_within isDigit) in E;
            [exact E|apply digits_within_RepRange]).
      destruct (Nat.eqb (String.length (trim v)) 8).
      * destruct (hyphenated_fixed (trim v) 0 5 5 7 7 Hd) as [-> ->].
        reflexivity.
      * destruct (hyphenated_fixed (trim v) 0 6 6 8 8 Hd) as [-> ->].
        reflexivity.
    + now rewrite trim_idem, E.
  - (* eNumber *)
    rewrite !replace_optional_E.
    destruct (trim_upper_fixed v) as [Ht Hu].
    set (u := toUpperCase (trim v)) in *.
    destruct (startsWith u "E") eqn:E.
    + now rewrite Ht, Hu, E.
    + assert (Hfix : trim (String "E" u) = String "E" u).
      { apply trim_fixed; [reflexivity|].
        rewrite trimEnd_cons by reflexivity. f_equal.
        rewrite <- Ht. apply trimEnd_trim. }
      rewrite Hfix.
      change (toUpperCase (String "E" u)) with (String "E" (toUpperCase u)).
      rewrite Hu. unfold startsWith. simpl. now destruct u.
  - (* rtecsNumber *)
    destruct (trim_upper_fixed v) as [Ht Hu]. now rewrite Ht, Hu.
  - (* unii *)
    destruct (trim_upper_fixed v) as [Ht Hu]. now rewrite Ht, Hu.
  - (* inchi *)
    destruct (startsWith (trim v) "InChI=") eqn:E.
    + now rewrite trim_idem, E.
    + assert (Hfix : trim ("InChI=" ++ trim v) = "InChI=" ++ trim v).
      { apply trim_fixed; [reflexivity|].
        change ("InChI=" ++ trim v)
          with (String "I" (String "n" (String "C" (String "h" (String "I"
                  (String "=" (trim v))))))).
        rewrite !trimEnd_cons by reflexivity. now rewrite trimEnd_trim. }
      rewrite Hfix. unfold startsWith. now rewrite prefix_app.
Qed.

End NormalizeFacts.

(** ** The confidence score *)

Module ConfidenceFacts.
Import Ident Resolver Spec.

(** Case analysis on every minimum and maximum of the goal, innermost
    first, then linear arithmetic. *)
Ltac minmax :=
  unfold Qmin, Qmax, GenericMinMax.gmin, GenericMinMax.gmax;
  repeat match goal with
  | |- context [Qcompare ?a ?b] =>
      lazymatch a with
      | context [Qcompare _ _] => fail
      | _ => idtac
      end;
      let E := fresh "E" in
      destruct (Qcompare a b) eqn:E;
      [apply Qeq_alt in E | apply Qlt_alt in E | apply Qgt_alt in E]
  end;
  lra.

Lemma NoDup_allKinds : NoDup allKinds.
Proof. apply (bool_decide_unpack _). vm_compute. exact I. Qed.

(** The number of properties of a set is the number of kinds present. *)
Lemma count_present (ids : IdentifierSet) :
  countOfPopulatedFields isPresent ids = size ids.
Proof.
  unfold countOfPopulatedFields. rewrite <- size_dom.
  assert (E : dom ids = list_to_set (List.filter (isPresent ids) allKinds)).
  { apply set_eq. intros f.
    rewrite elem_of_dom, elem_of_list_to_set, list_elem_of_In, filter_In.
    unfold isPresent. rewrite bool_decide_eq_true. split; [|tauto].
    intros H. split; [|exact H]. destruct f; simpl; tauto. }
  rewrite E, size_list_to_set; [reflexivity|].
  apply NoDup_ListNoDup, List.NoDup_filter, NoDup_ListNoDup, NoDup_allKinds.
Qed.

Lemma size_all_present (ids : IdentifierSet) :
  (forall f, isPresent ids f = true) -> size ids = 12.
Proof.
  intros H. rewrite <- count_present. unfold countOfPopulatedFields.
  rewrite forallb_filter_id; [reflexivity|].
  apply forallb_forall. intros f _. apply H.
Qed.

Lemma score_unfold (ids : IdentifierSet) (k : Kind) :
  (calculateConfidence ids k == scoreFormula ids k)%Q.
Proof.
  unfold calculateConfidence, scoreFormula.
  set (q := (inject_Z (Z.of_nat (size ids)) / 8)%Q).
  destruct (truthy (ids !! k)); minmax.
Qed.

Lemma score_bounds (ids : IdentifierSet) (k : Kind) :
  (0.3 <= calculateConfidence ids k <= 1.0)%Q.
Proof.
  unfold calculateConfidence.
  set (q := (inject_Z (Z.of_nat (size ids)) / 8)%Q).
  destruct (truthy (ids !! k)); split; minmax.
Qed.

Lemma score_eight (ids : IdentifierSet) (k : Kind) :
  8 <= size ids -> (calculateConfidence ids k == 1.0)%Q.
Proof.
  intros H. unfold calculateConfidence.
  assert (Hq : (1 <= inject_Z (Z.of_nat (size ids)) / 8)%Q).
  { apply Qle_shift_div_l; [reflexivity|].
    change (1 * 8)%Q with (inject_Z 8). rewrite <- Zle_Qle. lia. }
  set (q := (inject_Z (Z.of_nat (size ids)) / 8)%Q) in *.
  destruct (truthy (ids !! k)); minmax.
Qed.

End ConfidenceFacts.

(** ** The retry wrapper and the order of the sources *)

Module RetryFacts.
Import Ident Resolver Spec.
Local Open Scope list_scope.

Lemma stopsAt_bounds f more : forall attempt,
  attempt <= stopsAt f attempt more <= attempt + more.
Proof.
  induction more as [|more IH]; intros attempt; simpl; [lia|].
  destruct (f attempt); [lia|]. specialize (IH (S attempt)). lia.
Qed.

Lemma stopsAt_earlier_threw f more : forall attempt i,
  attempt <= i < stopsAt f attempt more -> exists e, f i = Threw e.
Proof.
  induction more as [|more IH]; intros attempt i Hi; simpl in Hi; [lia|].
  destruct (f attempt) as [r|e] eqn:E; [lia|].
  destruct (decide (i = attempt)) as [->|Hne]; [now exists e|].
  apply (IH (S attempt)). lia.
Qed.

Lemma stopsAt_early_returned f more : forall attempt,
  stopsAt f attempt more < attempt + more ->
  exists r, f (stopsAt f attempt more) = Returned r.
Proof.
  induction more as [|more IH]; intros attempt Hj; simpl in *; [lia|].
  destruct (f attempt) as [r|e] eqn:E; [now exists r|].
  apply IH. lia.
Qed.

Lemma stopsAt_all_threw f more : forall attempt,
  (forall i, attempt <= i <= attempt + more -> exists e, f i = Threw e) ->
  stopsAt f attempt more = attempt + more.
Proof.
  induction more as [|more IH]; intros attempt H; simpl; [lia|].
  destruct (H attempt ltac:(lia)) as [e ->].
  rewrite IH; [lia|]. intros i Hi. apply H. lia.
Qed.

Lemma scheduleFrom_shape db more : forall first,
  scheduleFrom db first more
  = flat_map (fun i => [Attempt db i; Backoff (1000 * 2 ^ Z.of_nat i)])
      (seq first more) ++ [Attempt db (first + more)].
Proof.
  induction more as [|more IH]; intros first; simpl.
  - now rewrite Nat.add_0_r.
  - rewrite IH. now rewrite Nat.add_succ_r.
Qed.

Lemma attempts_scheduleFrom db more : forall first,
  attempts (scheduleFrom db first more) = S more.
Proof.
  unfold attempts. induction more as [|more IH]; intros first; simpl;
    [reflexivity|].
  f_equal. apply IH.
Qed.

Lemma retryLoop_step net db k v attempt remaining lastError :
  retryLoop net db k v attempt (S remaining) lastError
  = (attemptLookup net db k v attempt ≫= fun outcome =>
     match outcome with
     | Returned result => mret (Returned result)
     | Threw message =>
         (if Nat.ltb attempt (retries db)
          then wait (1000 * 2 ^ Z.of_nat attempt)
          else mret tt) ≫= fun _ =>
         retryLoop net db k v (S attempt) remaining (Some message)
     end).
Proof. reflexivity. Qed.

(** One run of the loop of the wrapper. *)
Lemma retryLoop_run net db k v more : forall attempt lastError w,
  attempt + more = retries db ->
  let j := stopsAt (respond net db k v) attempt more in
  let run := retryLoop net db k v attempt (S more) lastError w in
  fst run = respond net db k v j
  /\ trace (snd run) = trace w ++ scheduleFrom (name db) attempt (j - attempt)
  /\ identifierCache (snd run) = identifierCache w.
Proof.
  induction more as [|more IH]; intros attempt lastError w Hsum j run;
    subst j run; rewrite retryLoop_step; cbn [stopsAt];
    unfold mbind, M_bind, attemptLookup.
  - rewrite Nat.sub_diag.
    replace (Nat.ltb attempt (retries db)) with false
      by (symmetry; apply Nat.ltb_ge; lia).
    destruct (respond net db k v attempt) as [r|e]; now repeat split.
  - replace (Nat.ltb attempt (retries db)) with true
      by (symmetry; apply Nat.ltb_lt; lia).
    destruct (respond net db k v attempt) as [r|e] eqn:E.
    + rewrite Nat.sub_diag, E. now repeat split.
    + unfold wait. cbn beta iota.
      match goal with
      | |- context [retryLoop net db k v (S attempt) (S more) ?le ?w1] =>
          destruct (IH (S attempt) le w1 ltac:(lia)) as (Ho & Ht & Hc)
      end.
      split; [exact Ho|]. split; [|exact Hc].
      rewrite Ht. cbn [trace].
      pose proof (stopsAt_bounds (respond net db k v) more (S attempt)) as Hb.
      replace (stopsAt (respond net db k v) (S attempt) more - attempt)
        with (S (stopsAt (respond net db k v) (S attempt) more - S attempt))
        by lia.
      cbn [scheduleFrom]. now rewrite <- !app_assoc.
Qed.

(** [lookupFromDatabase]: the outcome is that of the attempt the wrapper
    stops at, the events are the schedule up to that attempt, and the
    cache is not touched. *)
Lemma lookupFromDatabase_run net db k v w :
  let j := stopsAt (respond net db k v) 0 (retries db) in
  let run := lookupFromDatabase net db k v w in
  fst run = respond net db k v j
  /\ trace (snd run) = trace w ++ wrapperEvents net k v db
  /\ identifierCache (snd run) = identifierCache w.
Proof.
  unfold lookupFromDatabase, wrapperEvents, schedule.
  destruct (retryLoop_run net db k v (retries db) 0 None w eq_refl)
    as (Ho & Ht & Hc).
  rewrite Nat.sub_0_r in Ht. now repeat split.
Qed.

(** The loop over the sources: the wrappers of the first [n] sources of
    the list ran, one after the other, and nothing else was done to the
    outside. *)
Lemma tryDatabases_trace net k v key dbs : forall errors w,
  exists n,
    n <= List.length dbs
    /\ trace (snd (tryDatabases net dbs k v key errors w))
       = trace w ++ concat (List.map (wrapperEvents net k v) (take n dbs))
    /\ (fst (fst (tryDatabases net dbs k v key errors w)) = None ->
        n = List.length dbs).
Proof.
  induction dbs as [|db rest IH]; intros errors w.
  - exists 0. simpl. rewrite app_nil_r. now repeat split.
  - cbn [tryDatabases]. unfold mbind, M_bind.
    destruct (lookupFromDatabase_run net db k v w) as (Ho & Ht & _).
    destruct (lookupFromDatabase net db k v w) as [o w1]. simpl in Ho, Ht.
    assert (Hrec : forall errors', exists n,
      n <= List.length (db :: rest)
      /\ trace (snd (tryDatabases net rest k v key errors' w1))
         = trace w ++ concat (List.map (wrapperEvents net k v)
                                (take n (db :: rest)))
      /\ (fst (fst (tryDatabases net rest k v key errors' w1)) = None ->
          n = List.length (db :: rest))).
    { intros errors'. destruct (IH errors' w1) as (n & Hn & Hn' & Hnone).
      exists (S n). simpl. split; [lia|]. split.
      - now rewrite Hn', Ht, <- app_assoc.
      - intros H. now rewrite Hnone. }
    destruct o as [result|message]; [|apply Hrec].
    destruct (success result); [|apply Hrec].
    destruct (identifiers result) as [ids|]; [|apply Hrec].
    exists 1. simpl. rewrite app_nil_r. split; [lia|].
    split; [exact Ht|discriminate].
Qed.

Lemma insertByPriority_perm db l : Permutation (insertByPriority db l) (db :: l).
Proof.
  induction l as [|x l IH]; simpl; [reflexivity|].
  destruct (priority x <=? priority db)%Z; [reflexivity|].
  rewrite IH. apply perm_swap.
Qed.

Lemma sortByPriority_perm dbs : Permutation (sortByPriority dbs) dbs.
Proof.
  induction dbs as [|db dbs IH]; simpl; [reflexivity|].
  now rewrite insertByPriority_perm, IH.
Qed.

Lemma insertByPriority_sorted db l :
  StronglySorted (fun a b => (priority b <= priority a)%Z) l ->
  StronglySorted (fun a b => (priority b <= priority a)%Z)
    (insertByPriority db l).
Proof.
  induction l as [|x l IH]; simpl; intros Hs.
  - repeat constructor.
  - apply StronglySorted_inv in Hs as [Hl Hx].
    destruct (priority x <=? priority db)%Z eqn:E.
    + apply Z.leb_le in E. constructor; [now constructor|].
      constructor; [exact E|].
      eapply Forall_impl; [exact Hx|]. simpl. intros y Hy. lia.
    + apply Z.leb_gt in E. constructor; [now apply IH|].
      rewrite insertByPriority_perm. constructor; [lia|exact Hx].
Qed.

(** The sources are tried highest priority first. *)
Lemma sortByPriority_sorted dbs :
  StronglySorted (fun a b => (priority b <= priority a)%Z)
    (sortByPriority dbs).
Proof.
  induction dbs as [|db dbs IH]; simpl; [constructor|].
  now apply insertByPriority_sorted.
Qed.

End RetryFacts.

(** * The claims of the specification *)

Import JS Regex Ident Lookup LocalTable Resolver Spec Scenario.
Import JSFacts RegexFacts NormalizeFacts ConfidenceFacts RetryFacts.

(** ** C1: the requested field keeps the caller's input *)

(** C1, as stated, fails: [lookupChemicalIdentifiers] returns the set of
    the source as it is.  Asked for the [smiles] ["C(C)O"], with PubChem
    reporting the compound in its canonical notation, the result is
    successful and its [smiles] is ["CCO"]; asked for the [iupacName]
    ["h2o"], the local table answers with the [iupacName] ["water"]. *)
Lemma C1_result_carries_source_value :
  success (fst (lookupChemicalIdentifiers echoing smiles "C(C)O" emptyWorld))
  = true
  /\ (identifiers
        (fst (lookupChemicalIdentifiers echoing smiles "C(C)O" emptyWorld))
      ≫= lookup smiles) = Some "CCO"
  /\ (identifiers
        (fst (lookupChemicalIdentifiers echoing smiles "C(C)O" emptyWorld))
      ≫= lookup smiles) <> Some "C(C)O"
  /\ success (fst (lookupChemicalIdentifiers echoing iupacName "h2o"
                     emptyWorld)) = true
  /\ (identifiers
        (fst (lookupChemicalIdentifiers echoing iupacName "h2o" emptyWorld))
      ≫= lookup iupacName) = Some "water"
  /\ (identifiers
        (fst (lookupChemicalIdentifiers echoing iupacName "h2o" emptyWorld))
      ≫= lookup iupacName) <> Some "h2o".
Proof. vm_compute. repeat split; discriminate. Qed.

(** C1, amended: the pinning is done by the caller.  After
    [handleInputChange(field, value)] with a value that is not blank,
    whatever the lookup found and whatever a source echoed, the form's
    identifier set has the caller's original input string, exactly, in
    the requested field. *)
Theorem C1_field_pinned_by_handler (net : Network) (field : Kind)
    (value : string) (st : App.State) (w : World) :
  isEmpty (trim value) = false ->
  App.identifiers (fst (App.handleInputChange net field value st w)) !! field
  = Some value.
Proof.
  intros Hv. unfold App.handleInputChange. rewrite Hv.
  unfold mbind, M_bind.
  destruct (cleanExpiredCache w) as [removed w1].
  destruct (negb (validateIdentifier field (normalizeIdentifier field value))).
  { simpl. apply lookup_insert_eq. }
  destruct (getLocalIdentifiers field value) as [found|].
  { simpl. apply lookup_insert_eq. }
  destruct (lookupChemicalIdentifiers net field value w1) as [result w2].
  destruct (success result), (identifiers result); simpl;
    apply lookup_insert_eq.
Qed.

Lemma C1_field_pinned_by_handler_witness :
  isEmpty (trim "C(C)O") = false
  /\ App.identifiers
       (fst (App.handleInputChange echoing smiles "C(C)O" App.initialState
               emptyWorld)) !! smiles
     = Some "C(C)O".
Proof.
  split; [reflexivity|].
  apply (C1_field_pinned_by_handler echoing smiles "C(C)O"). reflexivity.
Defined.

(** ** C2: the formula of the confidence score *)

(** C2, as stated, fails whichever way "populated" is read.  On the set
    [mostlyBlank], which has four properties, three of them empty
    strings, and the requested kind [smiles], whose value there is the
    empty string, the source scores 4/8 = 0.5: it counts the four
    properties and gives no boost.  If a populated field is one that is
    present, the formula of the claim gives 0.7; if it is one with a
    non-empty value, the formula gives 0.3. *)
Lemma C2_blank_values_counted :
  (calculateConfidence mostlyBlank smiles == 0.5)%Q
  /\ (specifiedConfidence isPresent mostlyBlank smiles == 0.7)%Q
  /\ (specifiedConfidence isNonEmpty mostlyBlank smiles == 0.3)%Q
  /\ ~ (calculateConfidence mostlyBlank smiles
        == specifiedConfidence isPresent mostlyBlank smiles)%Q
  /\ ~ (calculateConfidence mostlyBlank smiles
        == specifiedConfidence isNonEmpty mostlyBlank smiles)%Q.
Proof. vm_compute. repeat split; discriminate. Qed.

(** C2, amended: for every identifier set and requested kind,
    [calculateConfidence] equals max(min(cap, 1.0), 0.3), where cap is
    min(n/8, 1.0), with n the number of properties present in the set,
    those with an empty string included, plus 0.2 when the value for the
    requested kind is present and not empty.  Consequently every set
    scores at least 0.3, and a set with all twelve fields populated scores
    exactly 1.0.  On a set none of whose values is empty the score is the
    one of the claim as it was stated, under either reading. *)
Theorem C2_confidence_formula (ids : IdentifierSet) (k : Kind) :
  (calculateConfidence ids k == scoreFormula ids k)%Q
  /\ (0.3 <= calculateConfidence ids k)%Q
  /\ ((forall f, isNonEmpty ids f = true) ->
      (calculateConfidence ids k == 1.0)%Q)
  /\ ((forall f, isNonEmpty ids f = isPresent ids f) ->
      (calculateConfidence ids k == specifiedConfidence isNonEmpty ids k)%Q
      /\ (calculateConfidence ids k
          == specifiedConfidence isPresent ids k)%Q).
Proof.
  split; [apply score_unfold|]. split; [apply score_bounds|]. split.
  - intros Hall. apply score_eight.
    rewrite (size_all_present ids); [lia|].
    intros f. specialize (Hall f). unfold isNonEmpty, isPresent in *.
    destruct (ids !! f); [reflexivity|discriminate].
  - intros Hsame.
    assert (E : (calculateConfidence ids k
                 == specifiedConfidence isPresent ids k)%Q).
    { rewrite score_unfold. unfold scoreFormula, specifiedConfidence.
      rewrite count_present, <- Hsame. reflexivity. }
    split; [|exact E].
    rewrite E. unfold specifiedConfidence, countOfPopulatedFields.
    rewrite (filter_ext _ _ (Hsame)), Hsame. reflexivity.
Qed.

Lemma C2_confidence_formula_witness :
  (forall f, isNonEmpty complete f = true)
  /\ (calculateConfidence complete smiles == 1.0)%Q
  /\ (forall f, isNonEmpty water f = isPresent water f)
  /\ (calculateConfidence water smiles
      == specifiedConfidence isNonEmpty water smiles)%Q.
Proof.
  assert (Hall : forall f, isNonEmpty complete f = true)
    by (intros f; destruct f; vm_compute; reflexivity).
  assert (Hsame : forall f, isNonEmpty water f = isPresent water f)
    by (intros f; destruct f; vm_compute; reflexivity).
  split; [exact Hall|]. split.
  - apply (proj1 (proj2 (proj2 (C2_confidence_formula complete smiles)))).
    exact Hall.
  - split; [exact Hsame|].
    apply (proj2 (proj2 (proj2 (C2_confidence_formula water smiles)))).
    exact Hsame.
Defined.

(** ** C3: the cache round trip and its time to live *)

(** C3: an entry written under a key at time [clock w] is still in the
    cache at any later time, swept or not; a lookup of the key gives the
    entry back when [now - createdAt] is less than one hour and treats
    the key as a miss otherwise.  For a request that passes validation
    and has that key, [lookupChemicalIdentifiers] then returns the stored
    set with the source suffixed [" (cached)"] and confidence 1.0 within
    the hour, and goes on to the local table and the remote sources, as
    after a miss, once the hour has elapsed.  The key of a request is the
    kind, a colon and the normalised value in lower case. *)
Theorem C3_cache_round_trip (net : Network) (k : Kind) (raw key : string)
    (ids : IdentifierSet) (src : string) (w : World) (now : Z) :
  let later := atTime now (snd (cacheSet key ids src w)) in
  CACHE_DURATION = 3600000%Z
  /\ identifierCache later !! key = Some (mkEntry ids (clock w) src)
  /\ ((now - clock w < CACHE_DURATION)%Z ->
      fst (cacheGet key later) = Some (mkEntry ids (clock w) src))
  /\ ((CACHE_DURATION <= now - clock w)%Z -> fst (cacheGet key later) = None)
  /\ (stripsPrefix k = false ->
      getCacheKey k (normalizeIdentifier k raw)
      = kindName k ++ ":" ++ toLowerCase (normalizeIdentifier k raw))
  /\ (key = getCacheKey k (normalizeIdentifier k raw) ->
      isEmpty (trim raw) = false ->
      isReasonableInput k raw = true ->
      validateIdentifier k (normalizeIdentifier k raw) = true ->
      ((now - clock w < CACHE_DURATION)%Z ->
       lookupChemicalIdentifiers net k raw later
       = (mkResult true (Some ids) None (Some (src ++ " (cached)"))
            (Some 1.0%Q), later))
      /\ ((CACHE_DURATION <= now - clock w)%Z ->
          lookupChemicalIdentifiers net k raw later
          = resolveUncached net DATABASES k raw (normalizeIdentifier k raw)
              key later)).
Proof.
  intros later.
  assert (Hentry : identifierCache later !! key
                   = Some (mkEntry ids (clock w) src))
    by (simpl; apply lookup_insert_eq).
  assert (Hhit : (now - clock w < CACHE_DURATION)%Z ->
                 cacheGet key later
                 = (Some (mkEntry ids (clock w) src), later)).
  { intros Hlt. unfold cacheGet. rewrite Hentry. simpl.
    unfold isCacheValid. now rewrite (proj2 (Z.ltb_lt _ _) Hlt). }
  assert (Hmiss : (CACHE_DURATION <= now - clock w)%Z ->
                  cacheGet key later = (None, later)).
  { intros Hge. unfold cacheGet. rewrite Hentry. simpl.
    unfold isCacheValid. now rewrite (proj2 (Z.ltb_ge _ _) Hge). }
  split; [reflexivity|]. split; [exact Hentry|].
  split; [intros H; now rewrite Hhit|].
  split; [intros H; now rewrite Hmiss|].
  split; [intros Hk; unfold getCacheKey; now rewrite normalize_twice|].
  intros Hkey He Hr Hv. unfold lookupChemicalIdentifiers, lookupWith.
  rewrite He, Hr, Hv. change (negb true) with false. cbv iota zeta.
  rewrite <- Hkey. unfold mbind, M_bind. cbv beta.
  split; intros H.
  - now rewrite Hhit.
  - now rewrite Hmiss.
Qed.

Lemma C3_cache_round_trip_witness :
  (3599999 - clock emptyWorld < CACHE_DURATION)%Z
  /\ lookupChemicalIdentifiers echoing iupacName "Ethanol"
       (atTime 3599999
          (snd (cacheSet "iupacName:ethanol" ethanol "PubChem" emptyWorld)))
     = (mkResult true (Some ethanol) None (Some "PubChem (cached)")
          (Some 1.0%Q),
        atTime 3599999
          (snd (cacheSet "iupacName:ethanol" ethanol "PubChem" emptyWorld))).
Proof.
  assert (Hlt : (3599999 - clock emptyWorld < CACHE_DURATION)%Z)
    by (vm_compute; reflexivity).
  split; [exact Hlt|].
  destruct (C3_cache_round_trip echoing iupacName "Ethanol"
              "iupacName:ethanol" ethanol "PubChem" emptyWorld 3599999)
    as (_ & _ & _ & _ & _ & H).
  destruct (H eq_refl eq_refl eq_refl eq_refl) as [Hhit _].
  exact (Hhit Hlt).
Defined.

(** ** C4: validation failures come first and leave no trace *)

(** C4, as stated, fails on the empty-input path: the result is
    unsuccessful, but its message is the fixed text
    ["Empty identifier provided"], which names neither the requested kind
    nor any other. *)
Lemma C4_empty_input_names_no_kind :
  success (fst (lookupChemicalIdentifiers echoing smiles "   " emptyWorld))
  = false
  /\ error (fst (lookupChemicalIdentifiers echoing smiles "   " emptyWorld))
     = Some "Empty identifier provided"
  /\ namesKind smiles "Empty identifier provided" = false
  /\ existsb (fun k => namesKind k "Empty identifier provided") allKinds
     = false.
Proof. vm_compute. repeat split. Qed.

(** C4, amended: when the empty-input check, the plausibility check or
    the format check fails, [lookupChemicalIdentifiers] returns an
    unsuccessful result without any cache lookup, cache write or remote
    call: the state is unchanged and the result is the same whatever the
    cache and the network are.  The message names the requested kind on
    the plausibility and format paths; on the empty-input path it is
    ["Empty identifier provided"]. *)
Theorem C4_validation_failures (net : Network) (k : Kind) (v : string)
    (w : World) :
  isEmpty (trim v) = true
  \/ isReasonableInput k v = false
  \/ validateIdentifier k (normalizeIdentifier k v) = false ->
  let r := fst (lookupChemicalIdentifiers net k v w) in
  success r = false
  /\ identifiers r = None
  /\ snd (lookupChemicalIdentifiers net k v w) = w
  /\ (forall net' w', fst (lookupChemicalIdentifiers net' k v w') = r)
  /\ (isEmpty (trim v) = true -> error r = Some "Empty identifier provided")
  /\ (isEmpty (trim v) = false ->
      exists message, error r = Some message /\ namesKind k message = true).
Proof.
  intros H. unfold lookupChemicalIdentifiers, lookupWith.
  destruct (isEmpty (trim v)) eqn:Ee.
  { simpl. repeat split; try reflexivity. discriminate. }
  destruct (isReasonableInput k v) eqn:Er; simpl.
  2: { repeat split; try discriminate.
       eexists. split; [reflexivity|]. apply includes_mid. }
  destruct (validateIdentifier k (normalizeIdentifier k v)) eqn:Ev; simpl.
  { destruct H as [H|[H|H]]; discriminate. }
  repeat split; try discriminate.
  eexists. split; [reflexivity|]. apply includes_mid.
Qed.

Lemma C4_validation_failures_witness :
  validateIdentifier eNumber (normalizeIdentifier eNumber "E12345") = false
  /\ snd (lookupChemicalIdentifiers echoing eNumber "E12345" emptyWorld)
     = emptyWorld
  /\ error (fst (lookupChemicalIdentifiers echoing eNumber "E12345" emptyWorld))
     = Some "Invalid format for eNumber: E12345".
Proof.
  assert (H : validateIdentifier eNumber (normalizeIdentifier eNumber "E12345")
              = false) by reflexivity.
  split; [exact H|].
  destruct (C4_validation_failures echoing eNumber "E12345" emptyWorld
              (or_intror (or_intror H))) as (_ & _ & Hw & _).
  split; [exact Hw|reflexivity].
Defined.

(** ** C5: the retry wrapper *)

(** C5, as stated, fails on what the wrapper returns and on what it
    throws.  When the first attempt against PubChem returns an
    unsuccessful result, the wrapper returns that result after one
    attempt, although the next attempt would have succeeded; and when
    every attempt against the second source throws, the error that
    comes out is the error of the last attempt, in which the name of the
    source, ["NCI/CACTUS"], does not occur. *)
Lemma C5_first_result_returned_as_is :
  fst (lookupFromDatabase misses PubChem smiles "C(C)O" emptyWorld)
  = Returned notFound
  /\ success notFound = false
  /\ trace (snd (lookupFromDatabase misses PubChem smiles "C(C)O" emptyWorld))
     = [Attempt "PubChem" 0]
  /\ (exists r, respond misses PubChem smiles "C(C)O" 1 = Returned r
                /\ success r = true)
  /\ fst (lookupFromDatabase echoing NCICACTUS smiles "C(C)O" emptyWorld)
     = Threw "NCI CACTUS lookup failed: Failed to fetch"
  /\ includes (name NCICACTUS) "NCI CACTUS lookup failed: Failed to fetch"
     = false.
Proof.
  vm_compute. repeat split. eexists. split; reflexivity.
Qed.

(** C5, amended: for every source configuration, [lookupFromDatabase]
    makes at most [retries + 1] attempts; after each attempt but its last
    it waits exactly 1000 ms * 2^attemptIndex; it returns the result of
    the first attempt that does not throw, successful and non-empty or
    not, and makes no further attempt; when every attempt throws it
    throws the error of the last attempt as it is.  The name of the source
    is put in front of the message by the caller, which records
    [name: message] in its list of errors.  The cache is not touched. *)
Theorem C5_retry_wrapper (net : Network) (db : DatabaseConfig) (k : Kind)
    (v key : string) (errors : list string) (w : World) :
  let j := stopsAt (respond net db k v) 0 (retries db) in
  let run := lookupFromDatabase net db k v w in
  trace (snd run) = (trace w ++ schedule (name db) j)%list
  /\ schedule (name db) j
     = (flat_map (fun i => [Attempt (name db) i;
                            Backoff (1000 * 2 ^ Z.of_nat i)]) (seq 0 j)
        ++ [Attempt (name db) j])%list
  /\ attempts (schedule (name db) j) = S j
  /\ j <= retries db
  /\ fst run = respond net db k v j
  /\ (forall i, i < j -> exists e, respond net db k v i = Threw e)
  /\ (j < retries db -> exists r, respond net db k v j = Returned r)
  /\ (forall e, respond net db k v j = Threw e ->
      fst run = Threw e
      /\ snd (fst (tryDatabases net [db] k v key errors w))
         = (errors ++ [(name db ++ ": " ++ e)%string])%list)
  /\ identifierCache (snd run) = identifierCache w.
Proof.
  intros j run.
  destruct (lookupFromDatabase_run net db k v w) as (Ho & Ht & Hc).
  fold j run in Ho, Ht, Hc.
  pose proof (stopsAt_bounds (respond net db k v) (retries db) 0) as Hb.
  repeat split.
  - exact Ht.
  - apply scheduleFrom_shape.
  - apply attempts_scheduleFrom.
  - apply Hb.
  - exact Ho.
  - intros i Hi.
    apply (stopsAt_earlier_threw (respond net db k v) (retries db) 0). lia.
  - intros Hj.
    apply (stopsAt_early_returned (respond net db k v) (retries db) 0).
    exact Hj.
  - now rewrite Ho.
  - cbn [tryDatabases]. unfold mbind, M_bind.
    fold run. destruct run as [o w1]. simpl in Ho. subst o.
    fold j. now rewrite H.
  - exact Hc.
Qed.

Lemma C5_retry_wrapper_witness :
  stopsAt (respond misses PubChem smiles "C(C)O") 0 (retries PubChem)
  < retries PubChem
  /\ (exists r,
        respond misses PubChem smiles "C(C)O"
          (stopsAt (respond misses PubChem smiles "C(C)O") 0
             (retries PubChem))
        = Returned r).
Proof.
  assert (Hj : stopsAt (respond misses PubChem smiles "C(C)O") 0
                 (retries PubChem) < retries PubChem) by (vm_compute; lia).
  split; [exact Hj|].
  destruct (C5_retry_wrapper misses PubChem smiles "C(C)O" "smiles:c(c)o" []
              emptyWorld) as (_ & _ & _ & _ & _ & _ & H & _).
  exact (H Hj).
Defined.

(** ** C6: the order of the remote sources *)

(** C6, as stated, fails: with PubChem answering its first attempt with
    an unsuccessful result, the second source is queried right after that
    single attempt, while PubChem's retry budget of two further attempts
    is unused, the first of them being one that would succeed. *)
Lemma C6_lower_source_before_budget_used :
  trace (snd (lookupChemicalIdentifiers misses smiles "C(C)O" emptyWorld))
  = [Attempt "PubChem" 0; Attempt "NCI/CACTUS" 0]
  /\ retries PubChem = 2
  /\ (exists r, respond misses PubChem smiles "C(C)O" 1 = Returned r
                /\ success r = true).
Proof.
  vm_compute. repeat split. eexists. split; reflexivity.
Qed.

(** C6, amended: the sources are taken in descending order of priority
    and the wrapper of each one consulted runs once, to its end, before
    the next source is queried.  A wrapper ends when an attempt returns,
    which leaves its remaining retries unused, or when its last attempt
    has thrown.  With the two configured sources, of priorities 10
    (PubChem) and 6 (NCI/CACTUS), when every attempt of the higher
    throws, the lower is run exactly once, with its own retry budget,
    after the three attempts of the higher.  This loop is all that
    [lookupChemicalIdentifiers] does to the outside for a request that
    passes validation and misses the cache and the local table. *)
Theorem C6_sources_by_priority (net : Network) (dbs : list DatabaseConfig)
    (k : Kind) (raw v key : string) (errors : list string) (w : World) :
  let sorted := sortByPriority dbs in
  Permutation sorted dbs
  /\ StronglySorted (fun a b => (priority b <= priority a)%Z) sorted
  /\ (exists n,
        n <= List.length sorted
        /\ trace (snd (tryDatabases net sorted k v key errors w))
           = (trace w
              ++ concat (List.map (wrapperEvents net k v) (take n sorted)))%list
        /\ (fst (fst (tryDatabases net sorted k v key errors w)) = None ->
            n = List.length sorted))
  /\ sortByPriority DATABASES = [PubChem; NCICACTUS]
  /\ priority PubChem = 10%Z /\ priority NCICACTUS = 6%Z
  /\ ((forall i, i <= retries PubChem ->
         exists e, respond net PubChem k v i = Threw e) ->
      trace (snd (tryDatabases net (sortByPriority DATABASES) k v key
                    errors w))
      = (trace w ++ schedule "PubChem" 2
         ++ wrapperEvents net k v NCICACTUS)%list
      /\ attempts (schedule "PubChem" 2) = 3
      /\ 1 <= attempts (wrapperEvents net k v NCICACTUS) <= 2)
  /\ (isEmpty (trim raw) = false ->
      isReasonableInput k raw = true ->
      validateIdentifier k (normalizeIdentifier k raw) = true ->
      fst (cacheGet (getCacheKey k (normalizeIdentifier k raw)) w) = None ->
      getLocalIdentifiers k (normalizeIdentifier k raw) = None ->
      snd (lookupWith net dbs k raw w)
      = snd (tryDatabases net sorted k (normalizeIdentifier k raw)
               (getCacheKey k (normalizeIdentifier k raw)) [] w)).
Proof.
  intros sorted. split; [apply sortByPriority_perm|].
  split; [apply sortByPriority_sorted|].
  split; [apply tryDatabases_trace|].
  split; [reflexivity|]. split; [reflexivity|]. split; [reflexivity|].
  split.
  - intros Hthrow.
    assert (Hj : stopsAt (respond net PubChem k v) 0 (retries PubChem) = 2).
    { rewrite stopsAt_all_threw; [reflexivity|].
      intros i Hi. apply Hthrow. simpl in *. lia. }
    split; [|split; [reflexivity|]].
    + change (sortByPriority DATABASES) with [PubChem; NCICACTUS].
      cbn [tryDatabases]. unfold mbind, M_bind.
      destruct (lookupFromDatabase_run net PubChem k v w) as (Ho & Ht & _).
      destruct (lookupFromDatabase net PubChem k v w) as [o w1].
      cbn [fst snd] in Ho, Ht. rewrite Hj in Ho.
      destruct (Hthrow 2 ltac:(simpl; lia)) as [e He]. rewrite He in Ho.
      subst o.
      destruct (lookupFromDatabase_run net NCICACTUS k v w1) as (_ & Ht2 & _).
      destruct (lookupFromDatabase net NCICACTUS k v w1) as [o2 w2].
      cbn [fst snd] in Ht2.
      assert (Hw2 : trace w2
                    = (trace w ++ schedule "PubChem" 2
                       ++ wrapperEvents net k v NCICACTUS)%list).
      { rewrite Ht2, Ht. unfold wrapperEvents at 1. rewrite Hj.
        now rewrite <- app_assoc. }
      destruct o2 as [result|message]; [|exact Hw2].
      destruct (success result); [|exact Hw2].
      destruct (identifiers result); exact Hw2.
    + unfold wrapperEvents, schedule. rewrite attempts_scheduleFrom.
      pose proof (stopsAt_bounds (respond net NCICACTUS k v)
                    (retries NCICACTUS) 0) as Hb.
      assert (Hr : retries NCICACTUS = 1) by reflexivity. lia.
  - intros He Hr Hv Hmiss Hlocal. unfold lookupWith.
    rewrite He, Hr, Hv. change (negb true) with false. cbv iota zeta.
    unfold mbind, M_bind, cacheGet in *. cbn [fst] in Hmiss.
    cbv beta iota. rewrite Hmiss. unfold resolveUncached. rewrite Hlocal.
    unfold mbind, M_bind. fold sorted.
    destruct (tryDatabases net sorted k (normalizeIdentifier k raw)
                (getCacheKey k (normalizeIdentifier k raw)) [] w)
      as [[[result|] errs] w']; reflexivity.
Qed.

Lemma C6_sources_by_priority_witness :
  (forall i, i <= retries PubChem ->
     exists e,
       respond failing PubChem smiles (normalizeIdentifier smiles "C(C)O") i
       = Threw e)
  /\ getLocalIdentifiers smiles (normalizeIdentifier smiles "C(C)O") = None
  /\ trace (snd (lookupChemicalIdentifiers failing smiles "C(C)O" emptyWorld))
     = (schedule "PubChem" 2
        ++ wrapperEvents failing smiles "C(C)O" NCICACTUS)%list.
Proof.
  assert (H : forall i, i <= retries PubChem ->
              exists e,
                respond failing PubChem smiles
                  (normalizeIdentifier smiles "C(C)O") i = Threw e)
    by (intros i _; eexists; reflexivity).
  assert (Hlocal : getLocalIdentifiers smiles
                     (normalizeIdentifier smiles "C(C)O") = None)
    by (vm_compute; reflexivity).
  split; [exact H|]. split; [exact Hlocal|].
  destruct (C6_sources_by_priority failing DATABASES smiles "C(C)O"
              (normalizeIdentifier smiles "C(C)O")
              (getCacheKey smiles (normalizeIdentifier smiles "C(C)O"))
              [] emptyWorld) as (_ & _ & _ & _ & _ & _ & Hthrow & Hlink).
  unfold lookupChemicalIdentifiers.
  rewrite (Hlink eq_refl eq_refl eq_refl eq_refl Hlocal).
  exact (proj1 (Hthrow H)).
Defined.

(** ** C7: the format of the database-ID kinds *)

(** C7, as stated, fails: the format check accepts ["0"], and it accepts
    ["CID:962"], which is not made of digits only. *)
Lemma C7_zero_passes_format :
  validateIdentifier pubchemCID "0" = true
  /\ validateIdentifier chemSpider "0" = true
  /\ validateIdentifier pubchemCID "CID:962" = true.
Proof. vm_compute. repeat split. Qed.

(** C7, amended: for [pubchemCID] and [chemSpider], [validateIdentifier]
    accepts a string exactly when its normal form is a non-empty string
    of digits, zero or not: ["0"] passes the format check.  Zero is
    rejected by the plausibility check: [isReasonableInput] accepts a value
    of these kinds only if, trimmed, it is a string of digits one of
    which is not 0. *)
Theorem C7_database_id_format (k : Kind) (v : string) :
  isDatabaseId k = true ->
  (validateIdentifier k v = true <->
     normalizeIdentifier k v <> EmptyString
     /\ allChars isDigit (normalizeIdentifier k v) = true)
  /\ validateIdentifier k "0" = true
  /\ isReasonableInput k "0" = false
  /\ (isReasonableInput k v = true ->
      allChars isDigit (toLowerCase (trim v)) = true
      /\ anyChar (fun c => negb (Ascii.eqb c "0")) (toLowerCase (trim v))
         = true).
Proof.
  intros Hk.
  assert (Hp : VALIDATION_PATTERNS k = Some (Plus digit))
    by (destruct k; try discriminate Hk; reflexivity).
  split; [|split; [|split]].
  - unfold validateIdentifier. rewrite Hp. apply matches_Plus_Cls.
  - destruct k; try discriminate Hk; reflexivity.
  - destruct k; try discriminate Hk; reflexivity.
  - unfold isReasonableInput.
    destruct (Nat.ltb _ 2); [discriminate|].
    destruct (test (Plus (Cls (notIn _))) _); [discriminate|].
    destruct (_ && _); [discriminate|].
    assert (Hgoal : test (Plus digit) (toLowerCase (trim v))
                    && parsesPositive (toLowerCase (trim v)) = true ->
      allChars isDigit (toLowerCase (trim v)) = true
      /\ anyChar (fun c => negb (Ascii.eqb c "0")) (toLowerCase (trim v))
         = true).
    { intros [Hd Hz]%andb_true_iff. split; [|exact Hz].
      now apply matches_Plus_Cls in Hd as [_ Hd]. }
    destruct k; try discriminate Hk; exact Hgoal.
Qed.

Lemma C7_database_id_format_witness :
  isDatabaseId chemSpider = true
  /\ isReasonableInput chemSpider " 682 " = true
  /\ (validateIdentifier chemSpider " 682 " = true <->
        normalizeIdentifier chemSpider " 682 " <> EmptyString
        /\ allChars isDigit (normalizeIdentifier chemSpider " 682 ") = true)
  /\ allChars isDigit (toLowerCase (trim " 682 ")) = true
  /\ anyChar (fun c => negb (Ascii.eqb c "0")) (toLowerCase (trim " 682 "))
     = true.
Proof.
  split; [reflexivity|]. split; [reflexivity|].
  destruct (C7_database_id_format chemSpider " 682 " eq_refl)
    as (Hiff & _ & _ & Hplausible).
  split; [exact Hiff|]. exact (Hplausible eq_refl).
Defined.

(** ** C8: normalisation is total and idempotent *)

(** C8, as stated, fails: for the kind [pubchemCID] the input ["CIDCID1"]
    normalises to ["CID1"], which normalises to ["1"]; stripping one
    prefix can uncover another. *)
Lemma C8_prefix_uncovered :
  normalizeIdentifier pubchemCID "CIDCID1" = "CID1"
  /\ normalizeIdentifier pubchemCID "CID1" = "1"
  /\ normalizeIdentifier pubchemCID (normalizeIdentifier pubchemCID "CIDCID1")
     <> normalizeIdentifier pubchemCID "CIDCID1".
Proof. vm_compute. repeat split. discriminate. Qed.

(** C8, amended: [normalizeIdentifier] yields a string for every kind and
    every input, and normalising twice gives the same string as
    normalising once for every kind but the three whose normalisation
    strips a prefix ([pubchemCID], [chemSpider], [compToxDashboard]). *)
Theorem C8_normalize_idempotent (k : Kind) (v : string) :
  (exists out, normalizeIdentifier k v = out)
  /\ (stripsPrefix k = false ->
      normalizeIdentifier k (normalizeIdentifier k v)
      = normalizeIdentifier k v).
Proof. split; [eexists; reflexivity|apply normalize_twice]. Qed.

Lemma C8_normalize_idempotent_witness :
  stripsPrefix eNumber = false
  /\ normalizeIdentifier eNumber (normalizeIdentifier eNumber " e330 ")
     = normalizeIdentifier eNumber " e330 ".
Proof.
  split; [reflexivity|].
  apply (proj2 (C8_normalize_idempotent eNumber " e330 ")). reflexivity.
Defined.

(** ** C9: the floor of the confidence score is unconditional *)

(** C9: for every identifier set, the empty one included, and every
    requested kind, [calculateConfidence] returns a score between 0.3 and
    1.0; the empty set scores exactly 0.3. *)
Theorem C9_confidence_floor (ids : IdentifierSet) (k : Kind) :
  (0.3 <= calculateConfidence ids k <= 1.0)%Q
  /\ calculateConfidence ∅ k = 0.3%Q.
Proof.
  split; [apply score_bounds|].
  unfold calculateConfidence. now rewrite lookup_empty, map_size_empty.
Qed.

(** ** C10: format validation is invariant under normalisation *)

(** C10, as stated, fails: ["CIDCID1"] is rejected as a [pubchemCID],
    its normal form ["CID1"] is accepted, because [validateIdentifier]
    normalises once more and reaches ["1"]. *)
Lemma C10_validation_changes :
  validateIdentifier pubchemCID "CIDCID1" = false
  /\ validateIdentifier pubchemCID (normalizeIdentifier pubchemCID "CIDCID1")
     = true.
Proof. vm_compute. split; reflexivity. Qed.

(** C10, amended: for every kind but [pubchemCID], [chemSpider] and
    [compToxDashboard], [validateIdentifier] gives the same verdict on a
    string and on its normal form. *)
Theorem C10_validate_normalized (k : Kind) (v : string) :
  stripsPrefix k = false ->
  validateIdentifier k v = validateIdentifier k (normalizeIdentifier k v).
Proof.
  intros Hk. unfold validateIdentifier.
  destruct (VALIDATION_PATTERNS k); [|reflexivity].
  now rewrite normalize_twice.
Qed.

Lemma C10_validate_normalized_witness :
  stripsPrefix casNumber = false
  /\ validateIdentifier casNumber " 77321850 "
     = validateIdentifier casNumber (normalizeIdentifier casNumber " 77321850 ").
Proof.
  split; [reflexivity|].
  apply (C10_validate_normalized casNumber " 77321850 "). reflexivity.
Defined.

(** * Further properties of the resolver *)

(** ** The cache does not influence what the sources are asked *)

Module CacheFacts.
Import JS Regex Ident Lookup LocalTable Resolver Spec Measure RetryFacts.
Local Open Scope list_scope.

Lemma withCache_same w : withCache (identifierCache w) w = w.
Proof. now destruct w. Qed.

Lemma retryLoop_withCache net db k v remaining : forall attempt lastError w c,
  retryLoop net db k v attempt remaining lastError (withCache c w)
  = (fst (retryLoop net db k v attempt remaining lastError w),
     withCache c (snd (retryLoop net db k v attempt remaining lastError w))).
Proof.
  induction remaining as [|remaining IH]; intros attempt lastError w c.
  - reflexivity.
  - rewrite !retryLoop_step. unfold mbind, M_bind, attemptLookup.
    cbn [withCache identifierCache clock trace].
    destruct (respond net db k v attempt) as [r|e]; [reflexivity|].
    destruct (Nat.ltb attempt (retries db)); unfold wait; cbn beta iota;
      cbn [identifierCache clock trace].
    + exact (IH (S attempt) (Some e)
               (mkWorld (identifierCache w)
                  (clock w + latency net db attempt
                   + 1000 * 2 ^ Z.of_nat attempt)
                  ((trace w ++ [Attempt (name db) attempt])
                   ++ [Backoff (1000 * 2 ^ Z.of_nat attempt)])) c).
    + exact (IH (S attempt) (Some e)
               (mkWorld (identifierCache w)
                  (clock w + latency net db attempt)
                  (trace w ++ [Attempt (name db) attempt])) c).
Qed.

Lemma lookupFromDatabase_withCache net db k v w c :
  lookupFromDatabase net db k v (withCache c w)
  = (fst (lookupFromDatabase net db k v w),
     withCache c (snd (lookupFromDatabase net db k v w))).
Proof. apply retryLoop_withCache. Qed.

(** The loop over the sources reads nothing from the cache, and writes
    to it exactly the entry of the source that succeeded. *)
Lemma tryDatabases_withCache net k v key dbs : forall errors w c,
  tryDatabases net dbs k v key errors (withCache c w)
  = (fst (tryDatabases net dbs k v key errors w),
     withCache
       (cacheAfter key c (fst (fst (tryDatabases net dbs k v key errors w)))
          (clock (snd (tryDatabases net dbs k v key errors w))))
       (snd (tryDatabases net dbs k v key errors w))).
Proof.
  induction dbs as [|db rest IH]; intros errors w c.
  - reflexivity.
  - cbn [tryDatabases]. unfold mbind, M_bind.
    rewrite lookupFromDatabase_withCache.
    destruct (lookupFromDatabase net db k v w) as [o w1]. cbn [fst snd].
    destruct o as [result|message]; [|apply IH].
    destruct (success result); [|apply IH].
    destruct (identifiers result) as [ids|]; [|apply IH].
    reflexivity.
Qed.

Lemma tryDatabases_cache net k v key dbs errors w :
  identifierCache (snd (tryDatabases net dbs k v key errors w))
  = cacheAfter key (identifierCache w)
      (fst (fst (tryDatabases net dbs k v key errors w)))
      (clock (snd (tryDatabases net dbs k v key errors w))).
Proof.
  pose proof (tryDatabases_withCache net k v key dbs errors w
                (identifierCache w)) as H.
  rewrite withCache_same in H.
  apply (f_equal (fun p => identifierCache (snd p))) in H. exact H.
Qed.

(** What a source that succeeded hands back. *)
Lemma tryDatabases_found net k v key dbs : forall errors w result,
  fst (fst (tryDatabases net dbs k v key errors w)) = Some result ->
  success result = true
  /\ exists ids db,
       In db dbs
       /\ identifiers result = Some ids
       /\ source result = Some (name db)
       /\ confidence result = Some (calculateConfidence ids k).
Proof.
  induction dbs as [|db rest IH]; intros errors w result.
  - discriminate.
  - cbn [tryDatabases]. unfold mbind, M_bind.
    destruct (lookupFromDatabase net db k v w) as [o w1].
    assert (Hrec : forall errors',
      fst (fst (tryDatabases net rest k v key errors' w1)) = Some result ->
      success result = true
      /\ exists ids db0,
           In db0 (db :: rest)
           /\ identifiers result = Some ids
           /\ source result = Some (name db0)
           /\ confidence result = Some (calculateConfidence ids k)).
    { intros errors' H. destruct (IH errors' w1 result H)
        as (Hs & ids & db0 & Hin & Hrest).
      split; [exact Hs|]. exists ids, db0. split; [now right|exact Hrest]. }
    destruct o as [r|message]; [|apply Hrec].
    destruct (success r) eqn:Es; [|apply Hrec].
    destruct (identifiers r) as [ids|] eqn:Ei; [|apply Hrec].
    cbn. intros [= <-]. cbn. split; [reflexivity|].
    exists ids, db. split; [now left|]. now repeat split.
Qed.

(** [lookupWith] on a request that passes the three checks. *)
Lemma lookupWith_valid net dbs k v w :
  isEmpty (trim v) = false ->
  isReasonableInput k v = true ->
  validateIdentifier k (normalizeIdentifier k v) = true ->
  lookupWith net dbs k v w
  = match fst (cacheGet (getCacheKey k (normalizeIdentifier k v)) w) with
    | Some entry =>
        (mkResult true (Some (cachedIdentifiers entry)) None
           (Some (cachedSource entry ++ " (cached)")%string) (Some 1.0%Q), w)
    | None =>
        resolveUncached net dbs k v (normalizeIdentifier k v)
          (getCacheKey k (normalizeIdentifier k v)) w
    end.
Proof.
  intros He Hr Hv. unfold lookupWith. rewrite He, Hr, Hv.
  change (negb true) with false. cbv iota zeta.
  unfold mbind, M_bind, cacheGet. cbv beta iota. cbn [fst].
  now destruct (identifierCache w !! _) as [e|]; [destruct (isCacheValid _ _)|].
Qed.

(** The part after a cache miss, case by case. *)
Lemma resolveUncached_cases net dbs k v nv key w :
  resolveUncached net dbs k v nv key w
  = match getLocalIdentifiers k nv with
    | Some found =>
        (mkResult true (Some found) None (Some "Local Database"%string)
           (Some 1.0%Q),
         snd (cacheSet key found "Local Database" w))
    | None =>
        (match fst (fst (tryDatabases net (sortByPriority dbs) k nv key [] w))
         with
         | Some result => result
         | None => failed (notFoundMessage v)
         end,
         snd (tryDatabases net (sortByPriority dbs) k nv key [] w))
    end.
Proof.
  unfold resolveUncached. destruct (getLocalIdentifiers k nv); [reflexivity|].
  unfold mbind, M_bind.
  now destruct (tryDatabases net (sortByPriority dbs) k nv key [] w)
    as [[[result|] errs] w'].
Qed.

(** The events of a lookup: the wrappers of the first [n] sources, with
    [n] zero unless the request passed the checks and missed the cache
    and the local table. *)
Lemma lookup_events net k v w :
  exists n,
    n <= List.length (sortByPriority DATABASES)
    /\ trace (snd (lookupChemicalIdentifiers net k v w))
       = trace w
         ++ concat (List.map (wrapperEvents net k (normalizeIdentifier k v))
                      (take n (sortByPriority DATABASES)))
    /\ (n <> 0 ->
        isEmpty (trim v) = false
        /\ isReasonableInput k v = true
        /\ validateIdentifier k (normalizeIdentifier k v) = true
        /\ fst (cacheGet (getCacheKey k (normalizeIdentifier k v)) w) = None
        /\ getLocalIdentifiers k (normalizeIdentifier k v) = None).
Proof.
  assert (Hnone : forall w', trace w' = trace w ->
    exists n,
      n <= List.length (sortByPriority DATABASES)
      /\ trace w'
         = trace w
           ++ concat (List.map (wrapperEvents net k (normalizeIdentifier k v))
                        (take n (sortByPriority DATABASES)))
      /\ (n <> 0 ->
          isEmpty (trim v) = false
          /\ isReasonableInput k v = true
          /\ validateIdentifier k (normalizeIdentifier k v) = true
          /\ fst (cacheGet (getCacheKey k (normalizeIdentifier k v)) w) = None
          /\ getLocalIdentifiers k (normalizeIdentifier k v) = None)).
  { intros w' H. exists 0. cbn [take List.map concat]. rewrite app_nil_r.
    split; [apply Nat.le_0_l|]. split; [exact H|congruence]. }
  unfold lookupChemicalIdentifiers.
  destruct (isEmpty (trim v)) eqn:He.
  { unfold lookupWith. rewrite He. now apply Hnone. }
  destruct (isReasonableInput k v) eqn:Hr.
  2: { unfold lookupWith. rewrite He, Hr. now apply Hnone. }
  destruct (validateIdentifier k (normalizeIdentifier k v)) eqn:Hv.
  2: { unfold lookupWith. rewrite He, Hr, Hv. now apply Hnone. }
  rewrite lookupWith_valid by assumption.
  destruct (fst (cacheGet (getCacheKey k (normalizeIdentifier k v)) w))
    as [entry|] eqn:Ec.
  { now apply Hnone. }
  rewrite resolveUncached_cases.
  destruct (getLocalIdentifiers k (normalizeIdentifier k v)) as [found|].
  { now apply Hnone. }
  cbn [snd].
  destruct (tryDatabases_trace net k (normalizeIdentifier k v)
              (getCacheKey k (normalizeIdentifier k v))
              (sortByPriority DATABASES) [] w) as (n & Hn & Ht & _).
  exists n. split; [exact Hn|]. split; [exact Ht|]. intros _. now repeat split.
Qed.

Lemma attempts_app a b : attempts (a ++ b) = attempts a + attempts b.
Proof. unfold attempts. now rewrite List.filter_app, List.length_app. Qed.

Lemma waited_app a b : (waited (a ++ b) = waited a + waited b)%Z.
Proof.
  induction a as [|[db i|ms] a IH]; cbn [app waited]; [reflexivity|exact IH|].
  rewrite IH. lia.
Qed.

Lemma waited_scheduleFrom db more : forall first,
  (waited (scheduleFrom db first more)
   = 1000 * 2 ^ Z.of_nat first * (2 ^ Z.of_nat more - 1))%Z.
Proof.
  induction more as [|more IH]; intros first; cbn [scheduleFrom waited].
  - cbn. lia.
  - rewrite IH. rewrite !Nat2Z.inj_succ, !Z.pow_succ_r by lia. lia.
Qed.

(** One run of the wrapper: at most [retries + 1] attempts, and a total
    backoff of [1000 * (2^j - 1)] ms when it stops at attempt [j]. *)
Lemma wrapper_bounds net k v db :
  attempts (wrapperEvents net k v db)
  = S (stopsAt (respond net db k v) 0 (retries db))
  /\ (waited (wrapperEvents net k v db)
      = 1000 * (2 ^ Z.of_nat (stopsAt (respond net db k v) 0 (retries db))
                - 1))%Z
  /\ stopsAt (respond net db k v) 0 (retries db) <= retries db.
Proof.
  unfold wrapperEvents, schedule.
  rewrite attempts_scheduleFrom, waited_scheduleFrom.
  split; [reflexivity|]. split; [cbn; lia|].
  apply (stopsAt_bounds (respond net db k v) (retries db) 0).
Qed.

Lemma same_outside w1 w2 :
  clock w1 = clock w2 -> trace w1 = trace w2 ->
  w1 = withCache (identifierCache w1) w2.
Proof.
  destruct w1, w2. unfold withCache. cbn. now intros -> ->.
Qed.

(** What a lookup finds in the cache is all it takes from it. *)
Lemma lookupWith_same_outside net dbs k v w1 w2 :
  clock w1 = clock w2 ->
  trace w1 = trace w2 ->
  fst (cacheGet (getCacheKey k (normalizeIdentifier k v)) w1)
  = fst (cacheGet (getCacheKey k (normalizeIdentifier k v)) w2) ->
  fst (lookupWith net dbs k v w1) = fst (lookupWith net dbs k v w2)
  /\ clock (snd (lookupWith net dbs k v w1))
     = clock (snd (lookupWith net dbs k v w2))
  /\ trace (snd (lookupWith net dbs k v w1))
     = trace (snd (lookupWith net dbs k v w2)).
Proof.
  intros Hc Ht Hg.
  destruct (isEmpty (trim v)) eqn:He.
  { unfold lookupWith. rewrite He. now repeat split. }
  destruct (isReasonableInput k v) eqn:Hr.
  2: { unfold lookupWith. rewrite He, Hr. now repeat split. }
  destruct (validateIdentifier k (normalizeIdentifier k v)) eqn:Hv.
  2: { unfold lookupWith. rewrite He, Hr, Hv. now repeat split. }
  rewrite !lookupWith_valid by assumption. rewrite Hg.
  destruct (fst (cacheGet (getCacheKey k (normalizeIdentifier k v)) w2))
    as [entry|].
  { now repeat split. }
  rewrite !resolveUncached_cases.
  destruct (getLocalIdentifiers k (normalizeIdentifier k v)) as [found|].
  { now repeat split. }
  rewrite (same_outside w1 w2 Hc Ht), tryDatabases_withCache.
  now repeat split.
Qed.

Lemma cacheGet_swept key w :
  fst (cacheGet key (snd (cleanExpiredCache w))) = fst (cacheGet key w).
Proof.
  unfold cacheGet, cleanExpiredCache. cbn [fst snd identifierCache clock].
  rewrite map_lookup_filter.
  destruct (identifierCache w !! key) as [e|]; [|reflexivity].
  cbn. destruct (isCacheValid (clock w) (timestamp e)) eqn:E.
  - rewrite option_guard_True by reflexivity. cbn. now rewrite ?E.
  - rewrite option_guard_False by discriminate. cbn. now rewrite ?E.
Qed.

Lemma sorted_fixed dbs :
  StronglySorted (fun a b => (priority b <= priority a)%Z) dbs ->
  sortByPriority dbs = dbs.
Proof.
  induction 1 as [|x l Hl IH Hx]; [reflexivity|].
  cbn [sortByPriority]. rewrite IH.
  destruct l as [|y l]; [reflexivity|]. cbn [insertByPriority].
  apply Forall_cons in Hx as [Hy _].
  now rewrite (proj2 (Z.leb_le _ _) Hy).
Qed.


End CacheFacts.

Import JS Regex Ident Lookup LocalTable Resolver Spec Scenario Measure.
Import JSFacts RegexFacts NormalizeFacts ConfidenceFacts RetryFacts CacheFacts.

(** ** X1: every result is well formed *)


(** ** X2: what a lookup does to the cache *)

(** X2: [lookupChemicalIdentifiers] changes the cache at most under the
    key of its own request; an unsuccessful lookup leaves the cache as it
    was; after a successful one the cache holds, under that key, the very
    set that was returned. *)
Theorem X2_cache_frame (net : Network) (k : Kind) (v : string) (w : World) :
  let run := lookupChemicalIdentifiers net k v w in
  let key := getCacheKey k (normalizeIdentifier k v) in
  (forall other, other <> key ->
     identifierCache (snd run) !! other = identifierCache w !! other)
  /\ (success (fst run) = false -> identifierCache (snd run) = identifierCache w)
  /\ (success (fst run) = true ->
      exists entry,
        identifierCache (snd run) !! key = Some entry
        /\ identifiers (fst run) = Some (cachedIdentifiers entry)).
Proof.
  assert (Hunchanged : forall (s : bool) (oids : option IdentifierSet),
    s = false ->
    (forall other, other <> getCacheKey k (normalizeIdentifier k v) ->
       identifierCache w !! other = identifierCache w !! other)
    /\ (s = false -> identifierCache w = identifierCache w)
    /\ (s = true ->
        exists entry,
          identifierCache w !! getCacheKey k (normalizeIdentifier k v)
          = Some entry
          /\ oids = Some (cachedIdentifiers entry))).
  { intros s oids Hs. split; [reflexivity|]. split; [reflexivity|].
    congruence. }
  assert (Hwritten : forall ids t src (s : bool)
                            (oids : option IdentifierSet),
    s = true -> oids = Some ids ->
    (forall other, other <> getCacheKey k (normalizeIdentifier k v) ->
       <[getCacheKey k (normalizeIdentifier k v) := mkEntry ids t src]>
         (identifierCache w) !! other = identifierCache w !! other)
    /\ (s = false ->
        <[getCacheKey k (normalizeIdentifier k v) := mkEntry ids t src]>
          (identifierCache w) = identifierCache w)
    /\ (s = true ->
        exists entry,
          <[getCacheKey k (normalizeIdentifier k v) := mkEntry ids t src]>
            (identifierCache w) !! getCacheKey k (normalizeIdentifier k v)
          = Some entry
          /\ oids = Some (cachedIdentifiers entry))).
  { intros ids t src s oids Hs Hi. split.
    - intros other Ho. now rewrite lookup_insert_ne by congruence.
    - split; [congruence|]. intros _. eexists.
      split; [apply lookup_insert_eq|exact Hi]. }
  unfold lookupChemicalIdentifiers. cbv zeta.
  destruct (isEmpty (trim v)) eqn:He.
  { unfold lookupWith. rewrite He. now apply Hunchanged. }
  destruct (isReasonableInput k v) eqn:Hr.
  2: { unfold lookupWith. rewrite He, Hr. now apply Hunchanged. }
  destruct (validateIdentifier k (normalizeIdentifier k v)) eqn:Hv.
  2: { unfold lookupWith. rewrite He, Hr, Hv. now apply Hunchanged. }
  rewrite lookupWith_valid by assumption.
  destruct (fst (cacheGet (getCacheKey k (normalizeIdentifier k v)) w))
    as [entry|] eqn:Ec.
  { cbn [fst snd]. split; [reflexivity|]. split; [reflexivity|].
    intros _. exists entry. split; [|reflexivity].
    unfold cacheGet in Ec. cbn [fst] in Ec.
    destruct (identifierCache w !! _) as [e|]; [|discriminate].
    destruct (isCacheValid _ _); congruence. }
  rewrite resolveUncached_cases.
  destruct (getLocalIdentifiers k (normalizeIdentifier k v)) as [found|].
  { cbn [fst snd cacheSet identifierCache]. now apply Hwritten. }
  cbn [fst snd]. rewrite tryDatabases_cache.
  destruct (fst (fst (tryDatabases net (sortByPriority DATABASES) k
                        (normalizeIdentifier k v)
                        (getCacheKey k (normalizeIdentifier k v)) [] w)))
    as [result|] eqn:Ef.
  - apply tryDatabases_found in Ef as (Hs & ids & db & _ & Hi & Hsrc & _).
    unfold cacheAfter. rewrite Hi, Hsrc. now apply Hwritten.
  - now apply Hunchanged.
Qed.

Lemma X2_cache_frame_witness :
  success (fst (lookupChemicalIdentifiers echoing smiles "C(C)O" emptyWorld))
  = true
  /\ exists entry,
       identifierCache
         (snd (lookupChemicalIdentifiers echoing smiles "C(C)O" emptyWorld))
         !! getCacheKey smiles (normalizeIdentifier smiles "C(C)O")
       = Some entry
       /\ identifiers
            (fst (lookupChemicalIdentifiers echoing smiles "C(C)O"
                    emptyWorld))
          = Some (cachedIdentifiers entry).
Proof.
  split; [reflexivity|].
  destruct (X2_cache_frame echoing smiles "C(C)O" emptyWorld)
    as (_ & _ & H).
  apply H. reflexivity.
Defined.


(** ** X3: when the remote sources are asked *)

(** X3: a lookup only ever adds events to the trace, and it adds some,
    that is, it asks a remote source, only for a request that passes the
    three checks, misses the cache and misses the local table. *)
Theorem X3_remote_only_after_misses (net : Network) (k : Kind) (v : string)
    (w : World) :
  exists events,
    trace (snd (lookupChemicalIdentifiers net k v w))
    = (trace w ++ events)%list
    /\ (events <> [] ->
        isEmpty (trim v) = false
        /\ isReasonableInput k v = true
        /\ validateIdentifier k (normalizeIdentifier k v) = true
        /\ fst (cacheGet (getCacheKey k (normalizeIdentifier k v)) w) = None
        /\ getLocalIdentifiers k (normalizeIdentifier k v) = None).
Proof.
  destruct (lookup_events net k v w) as (n & _ & Ht & Hn).
  eexists. split; [exact Ht|]. intros Hne. apply Hn. intros ->.
  now apply Hne.
Qed.

Lemma X3_remote_only_after_misses_witness :
  trace (snd (lookupChemicalIdentifiers echoing smiles "C(C)O" emptyWorld))
  <> []
  /\ getLocalIdentifiers smiles (normalizeIdentifier smiles "C(C)O") = None.
Proof.
  split; [vm_compute; discriminate|].
  destruct (X3_remote_only_after_misses echoing smiles "C(C)O" emptyWorld)
    as (events & Ht & H).
  apply H. intros ->. vm_compute in Ht. discriminate Ht.
Defined.


(** ** X4: a repeated lookup is served from the cache *)

(** X4: after a successful lookup that was not itself a cache hit, the
    same request made again less than an hour after the first one ended
    returns the same identifier set from the cache, with the source
    suffixed [" (cached)"] and confidence 1.0, whatever the network does
    then. *)
Theorem X4_repeated_lookup_cached (net net' : Network) (k : Kind)
    (v : string) (w : World) (now : Z) :
  let run := lookupChemicalIdentifiers net k v w in
  success (fst run) = true ->
  fst (cacheGet (getCacheKey k (normalizeIdentifier k v)) w) = None ->
  (now - clock (snd run) < CACHE_DURATION)%Z ->
  lookupChemicalIdentifiers net' k v (atTime now (snd run))
  = (mkResult true (identifiers (fst run)) None
       ((fun src => src ++ " (cached)") <$> source (fst run)) (Some 1.0%Q),
     atTime now (snd run)).
Proof.
  cbv zeta. unfold lookupChemicalIdentifiers.
  destruct (isEmpty (trim v)) eqn:He.
  { unfold lookupWith at 1. rewrite He. discriminate. }
  destruct (isReasonableInput k v) eqn:Hr.
  2: { unfold lookupWith at 1. rewrite He, Hr. discriminate. }
  destruct (validateIdentifier k (normalizeIdentifier k v)) eqn:Hv.
  2: { unfold lookupWith at 1. rewrite He, Hr, Hv. discriminate. }
  rewrite !lookupWith_valid by assumption.
  intros Hs Hmiss. rewrite Hmiss in *.
  assert (Hhit : forall w1 ids src,
    identifierCache w1 !! getCacheKey k (normalizeIdentifier k v)
    = Some (mkEntry ids (clock w1) src) ->
    (now - clock w1 < CACHE_DURATION)%Z ->
    fst (cacheGet (getCacheKey k (normalizeIdentifier k v)) (atTime now w1))
    = Some (mkEntry ids (clock w1) src)).
  { intros w1 ids src Hc Hlt. unfold cacheGet, atTime.
    cbn [fst identifierCache clock]. rewrite Hc. cbn [timestamp].
    unfold isCacheValid. now rewrite (proj2 (Z.ltb_lt _ _) Hlt). }
  rewrite resolveUncached_cases in *.
  destruct (getLocalIdentifiers k (normalizeIdentifier k v)) as [found|].
  { cbn [fst snd] in *. intros Hlt.
    rewrite (Hhit _ found "Local Database");
      [reflexivity|apply lookup_insert_eq|exact Hlt]. }
  cbn [fst snd] in *.
  pose proof (tryDatabases_cache net k (normalizeIdentifier k v)
                (getCacheKey k (normalizeIdentifier k v))
                (sortByPriority DATABASES) [] w) as Hc.
  destruct (fst (fst (tryDatabases net (sortByPriority DATABASES) k
                        (normalizeIdentifier k v)
                        (getCacheKey k (normalizeIdentifier k v)) [] w)))
    as [result|] eqn:Ef; [|discriminate].
  apply tryDatabases_found in Ef as (_ & ids & db & _ & Hi & Hsrc & _).
  unfold cacheAfter in Hc. rewrite Hi, Hsrc in Hc.
  intros Hlt. rewrite (Hhit _ ids (name db)).
  - now rewrite Hi, Hsrc.
  - rewrite Hc. apply lookup_insert_eq.
  - exact Hlt.
Qed.

Lemma X4_repeated_lookup_cached_witness :
  success (fst (lookupChemicalIdentifiers echoing smiles "C(C)O" emptyWorld))
  = true
  /\ lookupChemicalIdentifiers failing smiles "C(C)O"
       (atTime 1000000
          (snd (lookupChemicalIdentifiers echoing smiles "C(C)O" emptyWorld)))
     = (mkResult true (Some ethanolFromPubChem) None
          (Some "PubChem (cached)") (Some 1.0%Q),
        atTime 1000000
          (snd (lookupChemicalIdentifiers echoing smiles "C(C)O" emptyWorld))).
Proof.
  split; [reflexivity|].
  apply (X4_repeated_lookup_cached echoing failing smiles "C(C)O" emptyWorld
           1000000); [reflexivity|reflexivity|vm_compute; reflexivity].
Defined.

(** ** X5: the work of one lookup is bounded *)

(** X5: one run of the retry wrapper makes one attempt more than the
    index of the attempt it stops at, which is at most [retries], and
    spends [1000 * (2^j - 1)] ms in backoff when it stops at attempt [j].
    With the two configured sources, one [lookupChemicalIdentifiers]
    makes at most five remote attempts and waits at most 4000 ms in
    backoff. *)
Theorem X5_bounded_work (net : Network) (k : Kind) (v : string)
    (db : DatabaseConfig) (w : World) :
  (attempts (wrapperEvents net k v db) <= S (retries db)
   /\ (waited (wrapperEvents net k v db)
       = 1000 * (2 ^ Z.of_nat (stopsAt (respond net db k v) 0 (retries db))
                 - 1))%Z)
  /\ exists events,
       trace (snd (lookupChemicalIdentifiers net k v w))
       = (trace w ++ events)%list
       /\ attempts events <= 5
       /\ (0 <= waited events <= 4000)%Z.
Proof.
  split.
  { destruct (wrapper_bounds net k v db) as (Ha & Hw & Hj).
    split; [lia|exact Hw]. }
  destruct (lookup_events net k v w) as (n & Hn & Ht & _).
  eexists. split; [exact Ht|].
  change (sortByPriority DATABASES) with [PubChem; NCICACTUS] in *.
  destruct (wrapper_bounds net k (normalizeIdentifier k v) PubChem)
    as (Ha1 & Hw1 & Hj1).
  destruct (wrapper_bounds net k (normalizeIdentifier k v) NCICACTUS)
    as (Ha2 & Hw2 & Hj2).
  assert (Hr1 : retries PubChem = 2) by reflexivity.
  assert (Hr2 : retries NCICACTUS = 1) by reflexivity.
  assert (Hp : (0 <= waited (wrapperEvents net k (normalizeIdentifier k v)
                               PubChem) <= 3000)%Z).
  { rewrite Hw1. revert Hj1.
    generalize (stopsAt (respond net PubChem k (normalizeIdentifier k v)) 0
                  (retries PubChem)).
    intros j Hj. rewrite Hr1 in Hj. destruct j as [|[|[|j]]]; cbn; lia. }
  assert (Hc : (0 <= waited (wrapperEvents net k (normalizeIdentifier k v)
                               NCICACTUS) <= 1000)%Z).
  { rewrite Hw2. revert Hj2.
    generalize (stopsAt (respond net NCICACTUS k (normalizeIdentifier k v)) 0
                  (retries NCICACTUS)).
    intros j Hj. rewrite Hr2 in Hj. destruct j as [|[|j]]; cbn; lia. }
  destruct n as [|[|[|n]]]; [| | |cbn in Hn; lia];
    cbn [take List.map concat]; rewrite ?app_nil_r.
  - split; [cbn; lia|cbn; lia].
  - split; [lia|lia].
  - rewrite attempts_app, waited_app. split; [lia|lia].
Qed.

(** ** X6: sweeping is advisory *)

(** X6: sweeping the expired entries before a lookup changes neither its
    result, nor the attempts it makes, nor the time it takes. *)
Theorem X6_sweep_is_advisory (net : Network) (k : Kind) (v : string)
    (w : World) :
  let swept := snd (cleanExpiredCache w) in
  fst (lookupChemicalIdentifiers net k v swept)
  = fst (lookupChemicalIdentifiers net k v w)
  /\ trace (snd (lookupChemicalIdentifiers net k v swept))
     = trace (snd (lookupChemicalIdentifiers net k v w))
  /\ clock (snd (lookupChemicalIdentifiers net k v swept))
     = clock (snd (lookupChemicalIdentifiers net k v w)).
Proof.
  cbv zeta. unfold lookupChemicalIdentifiers.
  destruct (lookupWith_same_outside net DATABASES k v
              (snd (cleanExpiredCache w)) w eq_refl eq_refl
              (cacheGet_swept _ w)) as (Hr & Hc & Ht).
  now repeat split.
Qed.

(** ** X7: what the sweep removes *)

(** X7: [cleanExpiredCache] keeps exactly the entries that are less than
    an hour old and returns the number of entries it removed; it touches
    neither the clock nor the trace, no lookup in the cache finds
    anything different afterwards, and a second sweep at the same time
    removes nothing. *)
Theorem X7_sweep_removes_expired (w : World) (key : string) :
  let run := cleanExpiredCache w in
  identifierCache (snd run) !! key
  = (identifierCache w !! key ≫= fun entry =>
       if isCacheValid (clock w) (timestamp entry) then Some entry else None)
  /\ fst run + size (identifierCache (snd run)) = size (identifierCache w)
  /\ clock (snd run) = clock w /\ trace (snd run) = trace w
  /\ fst (cacheGet key (snd run)) = fst (cacheGet key w)
  /\ fst (cleanExpiredCache (snd run)) = 0.
Proof.
  cbv zeta. split; [|split; [|split; [|split; [|split]]]].
  - unfold cleanExpiredCache. cbn [snd identifierCache].
    rewrite map_lookup_filter.
    destruct (identifierCache w !! key) as [e|]; [|reflexivity].
    cbn. destruct (isCacheValid (clock w) (timestamp e)) eqn:E.
    + rewrite option_guard_True by reflexivity. cbn. now rewrite ?E.
    + rewrite option_guard_False by discriminate. cbn. now rewrite ?E.
  - unfold cleanExpiredCache. cbn [fst snd identifierCache].
    pose proof (map_subseteq_size _ _
      (map_filter_subseteq
         (fun kv : string * CacheEntry =>
            isCacheValid (clock w) (timestamp (snd kv)) = true)
         (identifierCache w))). lia.
  - reflexivity.
  - reflexivity.
  - apply cacheGet_swept.
  - unfold cleanExpiredCache. cbn [fst snd identifierCache clock].
    rewrite (map_filter_id _ (filter _ (identifierCache w))); [lia|].
    intros i x Hx. now apply map_lookup_filter_Some in Hx as [_ Hx].
Qed.

(** ** X8: cache keys keep the kinds apart *)



(** ** X9: sorting the sources again changes nothing *)

(** X9: [DATABASES.sort(...)] sorts the configured array in place at
    every lookup; sorting a list that is already sorted by priority
    leaves it as it is, so a second sort changes nothing, and the array
    as configured is already in the order in which it is used. *)
Theorem X9_sort_idempotent (dbs : list DatabaseConfig) :
  sortByPriority (sortByPriority dbs) = sortByPriority dbs
  /\ sortByPriority DATABASES = DATABASES.
Proof.
  split; [|reflexivity]. apply sorted_fixed, sortByPriority_sorted.
Qed.

(** ** Plausibility and format *)

Module ValidationFacts.
Import JS Regex Ident Lookup Spec Measure JSFacts RegexFacts NormalizeFacts.




Lemma matches_Void s : matches Void s = false.
Proof. induction s as [|c s IH]; cbn; [reflexivity|exact IH]. Qed.




End ValidationFacts.

Import ValidationFacts.

(** ** X10: short inputs are never plausible *)



Module FormatFacts.
Import JS Regex Ident Lookup Spec Measure JSFacts RegexFacts NormalizeFacts
  ValidationFacts.

Lemma lower_fixed_of (q : ascii -> bool) s :
  (forall c, q (lowerChar c) = true -> lowerChar c = c) ->
  allChars q (toLowerCase s) = true -> toLowerCase s = s.
Proof.
  intros Hq. unfold toLowerCase.
  induction s as [|c s IH]; cbn; [reflexivity|].
  intros [Hc Hs]%andb_true_iff. now rewrite (Hq c Hc), IH.
Qed.

Lemma digit_or_hyphen_lower c :
  (isDigit (lowerChar c) || Ascii.eqb "-" (lowerChar c)) = true ->
  lowerChar c = c.
Proof. by_cases_on c. Qed.

Lemma digit_not_CID_start c :
  isDigit c = true ->
  icase (Ascii.eqb "C") c = false.
Proof. by_cases_on c. Qed.





(** A string of digits starts with none of the prefixes. *)
Lemma no_prefix_on_digits lit by_ s :
  allChars isDigit s = true ->
  replacePrefix (Cat (LitI (String "C" lit)) (Opt (Chr ":"))) by_ s = s.
Proof.
  intros Hs. unfold replacePrefix.
  destruct s as [|c rest]; [reflexivity|].
  cbn in Hs. apply andb_true_iff in Hs as [Hc _].
  apply digit_not_CID_start in Hc.
  cbn [LitI]. set (p := icase (Ascii.eqb "C")) in *.
  cbn [longestPrefix deriv nullable andb]. rewrite Hc.
  cbn [cat alt]. now rewrite longestPrefix_Void.
Qed.

(** A string that passes the CAS pattern has a hyphen in it. *)
Lemma cas_pattern_not_digits s :
  test (Cat (RepRange 2 7 digit)
         (Cat (Chr "-") (Cat (Rep 2 digit) (Cat (Chr "-") digit)))) s = true ->
  allChars (fun c => isDigit c || Ascii.eqb "-" c) s = true
  /\ allChars isDigit s = false.
Proof.
  intros H. split.
  - apply (matches_within (fun c => isDigit c || Ascii.eqb "-" c)) in H;
      [exact H|].
    assert (Hd : forall c, isDigit c = true ->
                 isDigit c || Ascii.eqb "-" c = true)
      by (intros c ->; reflexivity).
    assert (Hh : forall c, Ascii.eqb "-" c = true ->
                 isDigit c || Ascii.eqb "-" c = true)
      by (intros c ->; apply orb_true_r).
    cbn. repeat split; auto.
  - apply matches_spec in H.
    remember (RepRange 2 7 digit) as A. remember (Rep 2 digit) as B.
    inv_lang.
    repeat match goal with
    | H : Lang (Chr "-") _ |- _ => unfold Chr in H; invert H
    | H : Ascii.eqb "-" _ = true |- _ => apply Ascii.eqb_eq in H; subst
    end.
    rewrite !allChars_app. cbn. now rewrite !andb_false_r.
Qed.

Lemma digit_lower c : isDigit (lowerChar c) = true -> lowerChar c = c.
Proof. by_cases_on c. Qed.

(** What is left of a plausible input's check once the three general
    rejections are passed. *)
Ltac past_general_checks H :=
  unfold isReasonableInput in H; cbv zeta in H;
  repeat match type of H with
         | (if ?b then false else _) = true =>
             destruct b; [discriminate H|]
         end.

Lemma plausible_cas v :
  isReasonableInput casNumber v = true ->
  normalizeIdentifier casNumber v = trim v
  /\ validateIdentifier casNumber (trim v) = true.
Proof.
  intros H. past_general_checks H.
  destruct (cas_pattern_not_digits _ H) as [Hall Hnot].
  assert (Hlow : toLowerCase (trim v) = trim v)
    by (apply (lower_fixed_of (fun c => isDigit c || Ascii.eqb "-" c) _
          digit_or_hyphen_lower), Hall).
  rewrite Hlow in H, Hnot.
  assert (Hn : normalizeIdentifier casNumber v = trim v).
  { unfold normalizeIdentifier.
    destruct (test (RepRange 8 9 digit) (trim v)) eqn:E; [|reflexivity].
    apply (matches_within isDigit) in E; [|apply digits_within_RepRange].
    congruence. }
  split; [exact Hn|].
  unfold validateIdentifier. cbn [VALIDATION_PATTERNS].
  rewrite <- Hn at 1. rewrite normalize_twice by reflexivity. now rewrite Hn.
Qed.

Lemma plausible_database_id k v :
  isDatabaseId k = true -> isReasonableInput k v = true ->
  normalizeIdentifier k v = trim v
  /\ validateIdentifier k (trim v) = true.
Proof.
  intros Hk H.
  assert (Hd : allChars isDigit (toLowerCase (trim v)) = true
               /\ toLowerCase (trim v) <> EmptyString).
  { destruct k; try discriminate Hk; past_general_checks H;
      apply andb_true_iff in H as [H _];
      apply matches_Plus_Cls in H as [Hne H]; now split. }
  destruct Hd as [Hd Hne].
  pose proof (lower_fixed_of isDigit _ digit_lower Hd) as Hlow.
  rewrite Hlow in Hd, Hne.
  assert (Hn : forall s, allChars isDigit s = true ->
               replacePrefix (Cat (LitI "CSID") (Opt (Chr ":"))) ""
                 (replacePrefix (Cat (LitI "CID") (Opt (Chr ":"))) "" s) = s).
  { intros s Hs.
    rewrite (no_prefix_on_digits "ID" "" s Hs).
    apply (no_prefix_on_digits "SID" "" s Hs). }
  assert (Hnorm : normalizeIdentifier k v = trim v)
    by (destruct k; try discriminate Hk; apply Hn, Hd).
  split; [exact Hnorm|].
  assert (Hv : normalizeIdentifier k (trim v) = trim v)
    by (destruct k; try discriminate Hk; unfold normalizeIdentifier;
        rewrite trim_idem; apply Hn, Hd).
  unfold validateIdentifier. rewrite Hv.
  destruct k; try discriminate Hk; cbn [VALIDATION_PATTERNS];
    apply matches_Plus_Cls; now split.
Qed.



End FormatFacts.

Import FormatFacts.

(** ** X11: when the format check is implied *)



(** * The two resolvers *)

Import Web.

Module WebFacts.
Local Open Scope list_scope.

(** Both resolvers return. *)
Lemma respond_returns sv lat db k v attempt :
  In db DATABASES ->
  exists r, respond (resolvers sv lat) db k v attempt = Returned r.
Proof.
  intros [<-|[<-|[]]]; unfold respond; cbn [name PubChem NCICACTUS String.eqb
    Ascii.eqb Bool.eqb resolvers Resolver.lookupFromPubChem
    Resolver.lookupFromNCICACTUS].
  - cbn. unfold Web.lookupFromPubChem.
    destruct (getPubChemCID _ _ _ _) as [cid|]; [destruct (isEmpty cid)|];
      eauto.
  - cbn. unfold Web.lookupFromNCICACTUS.
    destruct (Nat.eqb _ 0); eauto.
Qed.

Lemma wrapper_single sv lat db k v :
  In db DATABASES ->
  wrapperEvents (resolvers sv lat) k v db = [Attempt (name db) 0].
Proof.
  intros Hdb. unfold wrapperEvents, schedule.
  destruct (respond_returns sv lat db k v 0 Hdb) as [r Hr].
  destruct (retries db) as [|n]; cbn [stopsAt]; [reflexivity|].
  now rewrite Hr.
Qed.

(** The wrapper on a source whose first attempt returns. *)
Lemma lookupFromDatabase_first net db k v w r :
  respond net db k v 0 = Returned r ->
  lookupFromDatabase net db k v w
  = (Returned r,
     mkWorld (identifierCache w) (clock w + latency net db 0)
             (trace w ++ [Attempt (name db) 0])).
Proof.
  intros H. unfold lookupFromDatabase. rewrite retryLoop_step.
  unfold mbind, M_bind, attemptLookup. now rewrite H.
Qed.

End WebFacts.

Import WebFacts.

(** ** X12: the retries are never used with the two resolvers *)

(** X12: [lookupFromPubChem] and [lookupFromNCICACTUS] catch the errors
    of their requests and return a result on every attempt, so
    [lookupFromDatabase] never retries them: a lookup asks PubChem at most
    once, NCI/CACTUS at most once and only after PubChem, and never waits
    in backoff, whatever the services do. *)
Theorem X12_resolvers_never_retried (sv : nat -> Services)
    (lat : DatabaseConfig -> nat -> Z) (k : Kind) (v : string) (w : World) :
  (forall db attempt, In db DATABASES ->
     exists r, respond (resolvers sv lat) db k v attempt = Returned r)
  /\ exists events,
       trace (snd (lookupChemicalIdentifiers (resolvers sv lat) k v w))
       = (trace w ++ events)%list
       /\ (events = []
           \/ events = [Attempt "PubChem" 0]
           \/ events = [Attempt "PubChem" 0; Attempt "NCI/CACTUS" 0])
       /\ waited events = 0%Z.
Proof.
  split; [intros db attempt; apply respond_returns|].
  destruct (lookup_events (resolvers sv lat) k v w) as (n & Hn & Ht & _).
  eexists. split; [exact Ht|].
  change (sortByPriority DATABASES) with [PubChem; NCICACTUS] in *.
  assert (H1 := wrapper_single sv lat PubChem k (normalizeIdentifier k v)
                  (or_introl eq_refl)).
  assert (H2 := wrapper_single sv lat NCICACTUS k (normalizeIdentifier k v)
                  (or_intror (or_introl eq_refl))).
  destruct n as [|[|[|n]]]; cbn [take List.map concat List.length] in *;
    try lia; rewrite ?H1, ?H2; cbn; auto.
Qed.

(** ** X13: a lookup by CID succeeds whatever the services answer *)

(** X13: for a plausible PubChem CID that is neither cached nor in the
    local table, [getPubChemCID] makes no request and
    [lookupFromPubChem] reports success with whatever
    [getAllIdentifiersFromPubChemCID] collected: the lookup succeeds
    after one attempt on PubChem, NCI/CACTUS is not asked, and the set is
    cached.  When the property request throws, the set is empty: the
    lookup still succeeds, with no identifier at all and confidence
    0.3. *)
Theorem X13_cid_lookup_succeeds_offline (sv : nat -> Services)
    (lat : DatabaseConfig -> nat -> Z) (v : string) (w : World) :
  isReasonableInput pubchemCID v = true ->
  fst (cacheGet (getCacheKey pubchemCID (trim v)) w) = None ->
  getLocalIdentifiers pubchemCID (trim v) = None ->
  let ids := getAllIdentifiersFromPubChemCID (sv 0) (trim v) PubChem in
  let out := lookupChemicalIdentifiers (resolvers sv lat) pubchemCID v w in
  fst out = mkResult true (Some ids) None (Some "PubChem")
              (Some (calculateConfidence ids pubchemCID))
  /\ trace (snd out) = (trace w ++ [Attempt "PubChem" 0])%list
  /\ identifierCache (snd out) !! getCacheKey pubchemCID (trim v)
     = Some (mkEntry ids (clock w + lat PubChem 0) "PubChem")
  /\ (propertyTable (sv 0) (propsUrl (trim v) PubChem) = Throws ->
      ids = ∅ /\ (calculateConfidence ids pubchemCID == 0.3)%Q).
Proof.
  intros Hr Hc Hl ids out.
  destruct (plausible_database_id pubchemCID v eq_refl Hr) as [Hn Hv].
  assert (He : isEmpty (trim v) = false).
  { destruct (isEmpty (trim v)) eqn:E; [|reflexivity].
    destruct (trim v); [|discriminate E]. discriminate Hv. }
  assert (Hout : out
    = (mkResult true (Some ids) None (Some "PubChem")
         (Some (calculateConfidence ids pubchemCID)),
       mkWorld (<[getCacheKey pubchemCID (trim v)
                  := mkEntry ids (clock w + lat PubChem 0) "PubChem"]>
                  (identifierCache w))
               (clock w + lat PubChem 0)
               (trace w ++ [Attempt "PubChem" 0])%list)).
  { unfold out, lookupChemicalIdentifiers.
    rewrite lookupWith_valid; rewrite ?Hn; try assumption.
    rewrite Hc, resolveUncached_cases, Hl.
    change (sortByPriority DATABASES) with [PubChem; NCICACTUS].
    assert (Hresp : respond (resolvers sv lat) PubChem pubchemCID (trim v) 0
                    = Returned (mkResult true (Some ids) None None None)).
    { unfold respond. cbn [name PubChem String.eqb Ascii.eqb Bool.eqb].
      cbv beta iota. cbn [resolvers Resolver.lookupFromPubChem].
      unfold Web.lookupFromPubChem. cbn [getPubChemCID]. now rewrite He. }
    cbn [tryDatabases]. unfold mbind, M_bind.
    rewrite (lookupFromDatabase_first _ _ _ _ _ _ Hresp).
    reflexivity. }
  rewrite Hout. cbn [fst snd trace identifierCache].
  split; [reflexivity|]. split; [reflexivity|].
  split; [apply lookup_insert_eq|].
  intros Ht. assert (Hi : ids = ∅).
  { unfold ids, getAllIdentifiersFromPubChemCID. now rewrite Ht. }
  split; [exact Hi|]. rewrite Hi. reflexivity.
Qed.

Lemma X13_cid_lookup_succeeds_offline_witness :
  isReasonableInput pubchemCID "999999" = true
  /\ fst (lookupChemicalIdentifiers (resolvers unreachable instant)
            pubchemCID "999999" emptyWorld)
     = mkResult true (Some ∅) None (Some "PubChem")
         (Some (calculateConfidence ∅ pubchemCID)).
Proof.
  split; [reflexivity|].
  pose proof (X13_cid_lookup_succeeds_offline unreachable instant "999999"
                emptyWorld eq_refl eq_refl eq_refl) as H.
  cbv zeta in H. destruct H as (H & _ & _ & Hempty).
  destruct (Hempty eq_refl) as [Hi _]. rewrite Hi in H. exact H.
Defined.

Module SynonymFacts.

Lemma takeSynonym_lookup k k' s (ids : IdentifierSet) :
  takeSynonym k s ids !! k'
  = if bool_decide (k = k') && negb (truthy (ids !! k)) && patternTest k s
    then Some s else ids !! k'.
Proof.
  unfold takeSynonym. case_bool_decide as Hk; cbn [andb].
  - subst k'. destruct (negb (truthy (ids !! k)) && patternTest k s);
      [apply lookup_insert_eq|reflexivity].
  - destruct (negb (truthy (ids !! k)) && patternTest k s);
      [now apply lookup_insert_ne|reflexivity].
Qed.

(** One round of the loop changes a field only to fill it. *)
Lemma extractFrom_lookup (ids : IdentifierSet) s k :
  extractFrom ids s !! k
  = if takesSynonyms k && negb (truthy (ids !! k)) && patternTest k s
    then Some s else ids !! k.
Proof.
  unfold extractFrom. rewrite !takeSynonym_lookup.
  destruct k; cbn [takesSynonyms andb];
    repeat (case_bool_decide; try discriminate; cbn [andb]);
    try congruence; rewrite ?takeSynonym_lookup;
    repeat (case_bool_decide; try discriminate; cbn [andb]);
    try reflexivity.
Qed.

(** No pattern of the loop accepts the empty string. *)
Lemma patternTest_nonempty k s :
  takesSynonyms k = true -> patternTest k s = true -> isEmpty s = false.
Proof. destruct s; [|reflexivity]. now destruct k. Qed.

End SynonymFacts.

Import SynonymFacts.

(** ** X14: the first matching synonym fills a field *)

(** X14: the loop over the synonyms of PubChem gives each of the fields
    casNumber, unii, ecNumber, eNumber and rtecsNumber that is not filled
    yet the first synonym, in the order of the list, that passes the
    validation pattern of the field; a later match never replaces it, and
    every other field, and a field already filled, keeps its value. *)
Theorem X14_first_matching_synonym (synonyms : list string)
    (ids : IdentifierSet) (k : Kind) :
  fold_left extractFrom synonyms ids !! k
  = if takesSynonyms k && negb (truthy (ids !! k))
    then match List.find (patternTest k) synonyms with
         | Some synonym => Some synonym
         | None => ids !! k
         end
    else ids !! k.
Proof.
  revert ids. induction synonyms as [|s rest IH]; intros ids;
    cbn [fold_left List.find].
  - now destruct (takesSynonyms k && negb (truthy (ids !! k))).
  - rewrite IH, !extractFrom_lookup.
    destruct (takesSynonyms k) eqn:Hk; cbn [andb]; [|reflexivity].
    destruct (truthy (ids !! k)) eqn:Ht; cbn [negb andb].
    + now rewrite Ht.
    + destruct (patternTest k s) eqn:Hp; [|now rewrite Ht].
      cbn [truthy]. now rewrite (patternTest_nonempty k s Hk Hp).
Qed.

Module PubChemFacts.

Lemma collected_empty : collected ∅.
Proof. intros k s H. now rewrite lookup_empty in H. Qed.

Lemma collected_setIfTruthy k value ids :
  fromPubChem k = true -> takesSynonyms k = false -> k <> pubchemCID ->
  collected ids -> collected (setIfTruthy k value ids).
Proof.
  intros Hk Hs Hc Hids. unfold setIfTruthy.
  destruct value as [s|]; [|exact Hids].
  destruct (isEmpty s) eqn:E; [exact Hids|].
  intros k' s' H. destruct (decide (k = k')) as [<-|Hne].
  - rewrite lookup_insert_eq in H. injection H as <-.
    repeat split; try assumption. congruence.
  - rewrite lookup_insert_ne in H by exact Hne. now apply Hids.
Qed.

Lemma collected_extractFrom ids s : collected ids -> collected (extractFrom ids s).
Proof.
  intros Hids k s' H. rewrite extractFrom_lookup in H.
  destruct (takesSynonyms k && negb (truthy (ids !! k)) && patternTest k s)
    eqn:E; [|now apply Hids].
  apply andb_true_iff in E as [E Hp]. apply andb_true_iff in E as [Hk _].
  injection H as <-. split; [exact (patternTest_nonempty k s Hk Hp)|].
  split; [now destruct k|]. split; [now destruct k|]. now intros _.
Qed.

Lemma collected_fold synonyms : forall ids,
  collected ids -> collected (fold_left extractFrom synonyms ids).
Proof.
  induction synonyms as [|s rest IH]; intros ids H; cbn [fold_left];
    [exact H|]. apply IH, collected_extractFrom, H.
Qed.

End PubChemFacts.

Import PubChemFacts.

(** ** X15: what a set from PubChem holds *)

(** X15: in the set [getAllIdentifiersFromPubChemCID] returns for a
    non-empty CID, whatever the services answer, every value is a
    non-empty string; only the name, SMILES, InChI, the five fields
    filled from synonyms and the CID occur (never chemSpider,
    echaInfoCard or compToxDashboard); the CID, when it is there, is the
    one asked for; and a value filled from a synonym passes the
    validation pattern of its field as it stands. *)
Theorem X15_pubchem_set_content (sv : Services) (cid : string)
    (db : DatabaseConfig) (k : Kind) (s : string) :
  isEmpty cid = false ->
  getAllIdentifiersFromPubChemCID sv cid db !! k = Some s ->
  isEmpty s = false
  /\ fromPubChem k = true
  /\ (k = pubchemCID -> s = cid)
  /\ (takesSynonyms k = true -> patternTest k s = true).
Proof.
  intros Hcid.
  assert (Hweak : forall ids : IdentifierSet, collected ids ->
            ids !! k = Some s ->
            isEmpty s = false /\ fromPubChem k = true
            /\ (k = pubchemCID -> s = cid)
            /\ (takesSynonyms k = true -> patternTest k s = true)).
  { intros ids Hids H. destruct (Hids k s H) as (H1 & H2 & H3 & H4).
    repeat split; try assumption. intros ->. now destruct H3. }
  assert (Hlast : forall ids : IdentifierSet, collected ids ->
            <[pubchemCID := cid]> ids !! k = Some s ->
            isEmpty s = false /\ fromPubChem k = true
            /\ (k = pubchemCID -> s = cid)
            /\ (takesSynonyms k = true -> patternTest k s = true)).
  { intros ids Hids H. destruct (decide (pubchemCID = k)) as [<-|Hne].
    - rewrite lookup_insert_eq in H. injection H as <-.
      repeat split; try assumption; try reflexivity. discriminate.
    - rewrite lookup_insert_ne in H by exact Hne. now apply (Hweak ids). }
  unfold getAllIdentifiersFromPubChemCID. cbv zeta.
  assert (Hprops : forall props, collected
            (setIfTruthy inchi (InChI props)
               (setIfTruthy smiles (CanonicalSMILES props)
                  (setIfTruthy iupacName (IUPACName props) ∅)))).
  { intros props.
    repeat (apply collected_setIfTruthy;
            [reflexivity|reflexivity|discriminate|]).
    apply collected_empty. }
  destruct (propertyTable sv (propsUrl cid db)) as [| |[props|]];
    try (apply Hweak, collected_empty);
    destruct (synonymList sv (synonymsUrl cid db)) as [| |synonyms];
    try (apply Hweak; first [apply Hprops|apply collected_empty]);
    apply Hlast;
    first [apply collected_fold; first [apply Hprops|apply collected_empty]
          |apply Hprops|apply collected_empty].
Qed.

Lemma X15_pubchem_set_content_witness :
  getAllIdentifiersFromPubChemCID knowingEthanol "702" PubChem !! casNumber
  = Some "64-17-5"
  /\ patternTest casNumber "64-17-5" = true.
Proof.
  split; [reflexivity|].
  apply (X15_pubchem_set_content knowingEthanol "702" PubChem casNumber
           "64-17-5"); reflexivity.
Defined.

Module CactusFacts.

Lemma convert_lookup sv v (ids : IdentifierSet) (c : string * Kind) k :
  convert sv v ids c !! k
  = if bool_decide (snd c = k)
    then match converted sv v (fst c) with
         | Some t => Some t
         | None => ids !! k
         end
    else ids !! k.
Proof.
  unfold convert, converted.
  destruct (conversion sv (conversionUrl v (fst c))) as [| |result];
    try (now case_bool_decide).
  destruct (usable result); [|now case_bool_decide].
  case_bool_decide as Hk.
  - subst k. apply lookup_insert_eq.
  - now apply lookup_insert_ne.
Qed.

(** The set after the loop over the conversions, field by field. *)
Lemma conversions_lookup sv v k :
  fold_left (convert sv v) conversions (∅ : IdentifierSet) !! k
  = conversionFor k ≫= converted sv v.
Proof.
  cbn [conversions fold_left]. rewrite !convert_lookup, lookup_empty.
  unfold conversionFor.
  destruct k; cbn [List.find snd conversions];
    repeat match goal with
           | |- context [bool_decide (?a = ?b)] =>
               first [rewrite (bool_decide_eq_true_2 (a = b)) by reflexivity
                     |rewrite (bool_decide_eq_false_2 (a = b)) by discriminate]
           end; cbn;
    repeat match goal with
           | |- context [converted sv v ?to] =>
               destruct (converted sv v to)
           end; reflexivity.
Qed.

(** Some conversion is usable exactly when the set collected is not
    empty. *)
Lemma cactus_usable_iff sv v :
  (exists to k, In (to, k) conversions /\ converted sv v to <> None)
  <-> fold_left (convert sv v) conversions (∅ : IdentifierSet) <> ∅.
Proof.
  pose proof (conversions_lookup sv v) as Hlook.
  set (ids := fold_left (convert sv v) conversions ∅) in *.
  split.
  - intros (to & k & Hin & Hc) He. apply Hc.
    pose proof (Hlook k) as Hk. rewrite He, lookup_empty in Hk.
    cbn in Hin.
    destruct Hin as [[= <- <-]|[[= <- <-]|[[= <- <-]|[[= <- <-]|[]]]]];
      now rewrite Hk.
  - intros Hne. apply map_choose in Hne as (k & t & Hk).
    rewrite Hlook in Hk. unfold conversionFor in Hk.
    destruct (List.find _ conversions) as [[to k']|] eqn:Ef;
      [|discriminate Hk].
    cbn in Hk. apply List.find_some in Ef as [Hin _].
    exists to, k'. split; [exact Hin|]. now rewrite Hk.
Qed.

(** What [lookupFromNCICACTUS] returns. *)
Lemma cactus_result (sv : Services) (kind : Kind) (v : string)
    (db : DatabaseConfig) :
  exists r,
    Web.lookupFromNCICACTUS sv kind v db = Returned r
    /\ (success r = true
        <-> exists to k, In (to, k) conversions
                         /\ converted sv v to <> None)
    /\ match Resolver.identifiers r with
       | Some ids =>
           success r = true
           /\ forall k, ids !! k = conversionFor k ≫= converted sv v
       | None =>
           success r = false
           /\ error r = Some "No identifiers found in NCI CACTUS database"
       end.
Proof.
  unfold Web.lookupFromNCICACTUS. cbv zeta.
  pose proof (conversions_lookup sv v) as Hlook.
  pose proof (cactus_usable_iff sv v) as Hsome.
  set (ids := fold_left (convert sv v) conversions ∅) in *.
  destruct (Nat.eqb (size ids) 0) eqn:E.
  - apply Nat.eqb_eq, map_size_empty_iff in E.
    eexists. split; [reflexivity|]. cbn [success Resolver.identifiers error].
    split; [|now split]. split; [discriminate|].
    intros H. now apply Hsome in H.
  - apply Nat.eqb_neq in E. rewrite map_size_empty_iff in E.
    eexists. split; [reflexivity|]. cbn [success Resolver.identifiers error].
    split; [|now split]. split; [intros _; now apply Hsome|reflexivity].
Qed.

End CactusFacts.

Import CactusFacts.

(** ** X16: what NCI CACTUS contributes *)

(** X16: [lookupFromNCICACTUS] always returns; it asks for the four
    conversions, whatever the kind of the value, and succeeds if and only
    if at least one of them answers with a usable text.  The set of a
    success holds, for each of smiles, iupacName, casNumber and inchi,
    the trimmed answer of its conversion when that was usable, and
    nothing else. *)
Theorem X16_cactus_conversions (sv : Services) (kind : Kind) (v : string)
    (db : DatabaseConfig) :
  exists r,
    Web.lookupFromNCICACTUS sv kind v db = Returned r
    /\ (success r = true
        <-> exists to k, In (to, k) conversions
                         /\ converted sv v to <> None)
    /\ match Resolver.identifiers r with
       | Some ids =>
           success r = true
           /\ forall k, ids !! k = conversionFor k ≫= converted sv v
       | None =>
           success r = false
           /\ error r = Some "No identifiers found in NCI CACTUS database"
       end.
Proof.
  unfold Web.lookupFromNCICACTUS. cbv zeta.
  pose proof (conversions_lookup sv v) as Hlook.
  pose proof (cactus_usable_iff sv v) as Hsome.
  set (ids := fold_left (convert sv v) conversions ∅) in *.
  destruct (Nat.eqb (size ids) 0) eqn:E.
  - apply Nat.eqb_eq, map_size_empty_iff in E.
    eexists. split; [reflexivity|]. cbn [success Resolver.identifiers error].
    split; [|now split]. split; [discriminate|].
    intros H. now apply Hsome in H.
  - apply Nat.eqb_neq in E. rewrite map_size_empty_iff in E.
    eexists. split; [reflexivity|]. cbn [success Resolver.identifiers error].
    split; [|now split]. split; [intros _; now apply Hsome|reflexivity].
Qed.

(** * The local table *)

Module LocalFacts.
Local Open Scope list_scope.

Lemma isSpace_lowerChar c : isSpace (lowerChar c) = isSpace c.
Proof. by_cases_on c. Qed.

Lemma lowerChar_upperChar c : lowerChar (upperChar c) = lowerChar c.
Proof. by_cases_on c. Qed.


Lemma mapChars_compose f g h s :
  (forall c, f (g c) = h c) -> mapChars f (mapChars g s) = mapChars h s.
Proof.
  intros H. induction s as [|c s IH]; cbn; [reflexivity|].
  now rewrite H, IH.
Qed.

Lemma lower_upper s : toLowerCase (toUpperCase s) = toLowerCase s.
Proof. apply mapChars_compose, lowerChar_upperChar. Qed.


Lemma trimStart_lower s : trimStart (toLowerCase s) = toLowerCase (trimStart s).
Proof.
  unfold toLowerCase. induction s as [|c s IH]; simpl; [reflexivity|].
  rewrite isSpace_lowerChar. now destruct (isSpace c).
Qed.

Lemma trimEnd_lower s : trimEnd (toLowerCase s) = toLowerCase (trimEnd s).
Proof.
  unfold toLowerCase. induction s as [|c s IH]; simpl; [reflexivity|].
  rewrite IH, isSpace_lowerChar.
  destruct (trimEnd s); simpl; [now destruct (isSpace c)|reflexivity].
Qed.

Lemma trim_lower s : trim (toLowerCase s) = toLowerCase (trim s).
Proof. unfold trim. now rewrite trimStart_lower, trimEnd_lower. Qed.

(** The local lookup only looks at the value trimmed and in lower case. *)
Lemma local_by_key k v v' :
  trim (toLowerCase v) = trim (toLowerCase v') ->
  getLocalIdentifiers k v = getLocalIdentifiers k v'.
Proof. intros H. unfold getLocalIdentifiers. cbv zeta. now rewrite H. Qed.

Lemma local_upper k v : getLocalIdentifiers k (toUpperCase v) = getLocalIdentifiers k v.
Proof. apply local_by_key. now rewrite lower_upper. Qed.


Lemma local_trim k v : getLocalIdentifiers k (trim v) = getLocalIdentifiers k v.
Proof. apply local_by_key. now rewrite <- trim_lower, trim_idem, trim_lower. Qed.

End LocalFacts.

Import LocalFacts.

(** ** X17: the local table is found under each of its identifiers *)



(** * The form handler *)

Import App View.

Module HandlerFacts.

Lemma orElse_nonempty a b : isEmpty b = false -> isEmpty (orElse a b) = false.
Proof.
  intros Hb. unfold orElse. destruct a as [s|]; [|exact Hb].
  now destruct (isEmpty s) eqn:E.
Qed.

Lemma mergeFound_present (prev found : IdentifierSet) field value k :
  is_Some (prev !! k) -> is_Some (mergeFound prev found field value !! k).
Proof.
  intros [s Hs]. unfold mergeFound.
  destruct (decide (field = k)) as [->|Hne].
  - rewrite lookup_insert_eq. eauto.
  - rewrite lookup_insert_ne by exact Hne.
    rewrite lookup_union. rewrite Hs.
    destruct (found !! k); cbn; eauto.
Qed.

Lemma insert_present (prev : IdentifierSet) field value k :
  is_Some (prev !! k) -> is_Some (<[field := value]> prev !! k).
Proof.
  intros H. destruct (decide (field = k)) as [->|Hne].
  - rewrite lookup_insert_eq. eauto.
  - now rewrite lookup_insert_ne.
Qed.

End HandlerFacts.

Import HandlerFacts.

(** ** X18: the state the handler leaves *)

(** X18: after [handleInputChange] on a value that is not blank, the
    form is no longer looking up, the field is the source field, and
    exactly one of the source label and the error message is set, to a
    string that is not empty: with a label, the identifiers found were
    merged in; with a message, only the field typed in has changed.  No
    field the form had is lost. *)
Theorem X18_handler_outcome (net : Network) (field : Kind) (value : string)
    (st : State) (w : World) :
  isEmpty (trim value) = false ->
  let st' := fst (handleInputChange net field value st w) in
  let typed := <[field := value]> (App.identifiers st) in
  isLookingUp st' = false
  /\ sourceField st' = Some field
  /\ ((lookupError st' = None
       /\ (exists label, lookupSource st' = Some label
                         /\ isEmpty label = false)
       /\ exists found,
            App.identifiers st' = mergeFound typed found field value)
      \/ (lookupSource st' = None
          /\ (exists message, lookupError st' = Some message
                              /\ isEmpty message = false)
          /\ App.identifiers st' = typed))
  /\ (forall k, is_Some (App.identifiers st !! k) ->
                is_Some (App.identifiers st' !! k)).
Proof.
  intros He. cbv zeta. unfold handleInputChange. rewrite He.
  cbv zeta. unfold mbind, M_bind.
  destruct (cleanExpiredCache w) as [u w1].
  cbn [App.identifiers sourceField isLookingUp].
  destruct (validateIdentifier field (normalizeIdentifier field value)).
  2: { cbn. repeat split; [|intros k; apply insert_present].
       right. repeat split. eexists. split; [reflexivity|reflexivity]. }
  cbn [negb].
  destruct (getLocalIdentifiers field value) as [found|].
  { cbn. repeat split.
    - left. repeat split; [now exists "Local Database"|now exists found].
    - intros k Hk. now apply mergeFound_present, insert_present. }
  destruct (lookupChemicalIdentifiers net field value w1) as [result w2].
  destruct (success result), (Resolver.identifiers result) as [found|]; cbn;
    repeat split;
    try (intros k Hk; first [now apply mergeFound_present, insert_present
                            |now apply insert_present]);
    try (right; repeat split; eexists; split;
         [reflexivity|now apply orElse_nonempty]).
  left. repeat split; [|now exists found].
  eexists. split; [reflexivity|now apply orElse_nonempty].
Qed.

Lemma X18_handler_outcome_witness :
  isEmpty (trim "C(C)O") = false
  /\ isLookingUp (fst (handleInputChange echoing smiles "C(C)O" initialState
                         emptyWorld)) = false.
Proof.
  split; [reflexivity|].
  apply (X18_handler_outcome echoing smiles "C(C)O" initialState emptyWorld).
  reflexivity.
Defined.

(** ** X19: when the handler leaves the cache and the network alone *)

(** X19: [handleInputChange] on a blank value touches neither the cache
    nor the network.  On a value that fails the format check, or that the
    local table resolves, it only sweeps the expired cache entries: no
    request is made, and the compound found in the local table is not
    written to the cache. *)
Theorem X19_handler_effects (net : Network) (field : Kind) (value : string)
    (st : State) (w : World) :
  let after := snd (handleInputChange net field value st w) in
  (isEmpty (trim value) = true -> after = w)
  /\ (isEmpty (trim value) = false ->
      validateIdentifier field (normalizeIdentifier field value) = false
      \/ is_Some (getLocalIdentifiers field value) ->
      after = snd (cleanExpiredCache w)
      /\ trace after = trace w
      /\ forall key entry,
           identifierCache after !! key = Some entry ->
           identifierCache w !! key = Some entry).
Proof.
  cbv zeta. unfold handleInputChange. split.
  - intros ->. cbv zeta. now destruct (bool_decide _).
  - intros -> H. cbv zeta. unfold mbind, M_bind.
    assert (Hsw : trace (snd (cleanExpiredCache w)) = trace w
                  /\ forall key entry,
                       identifierCache (snd (cleanExpiredCache w)) !! key
                       = Some entry ->
                       identifierCache w !! key = Some entry).
    { split; [reflexivity|]. intros key entry Hk. cbn in Hk.
      now apply map_lookup_filter_Some in Hk as [Hk _]. }
    destruct (cleanExpiredCache w) as [u w1]. cbn [snd] in *.
    destruct (validateIdentifier field (normalizeIdentifier field value));
      [|now split].
    destruct H as [H|[found H]]; [discriminate H|]. rewrite H. now split.
Qed.

Lemma X19_handler_effects_witness :
  isEmpty (trim " Water ") = false
  /\ is_Some (getLocalIdentifiers iupacName " Water ")
  /\ snd (handleInputChange failing iupacName " Water " initialState
            emptyWorld)
     = snd (cleanExpiredCache emptyWorld).
Proof.
  split; [reflexivity|]. split; [now eexists|].
  apply (X19_handler_effects failing iupacName " Water " initialState
           emptyWorld); [reflexivity|right; now eexists].
Defined.

Module ViewFacts.
Local Open Scope list_scope.

(** [firstNonEmpty] finds the first field of the list that is filled. *)
Lemma firstNonEmpty_found fields : forall (ids : IdentifierSet) k s,
  firstNonEmpty fields ids = Some (k, s) ->
  exists before after,
    fields = before ++ k :: after
    /\ Forall (fun k' => truthy (ids !! k') = false) before
    /\ ids !! k = Some s /\ isEmpty s = false.
Proof.
  induction fields as [|f rest IH]; intros ids k s H; cbn in H;
    [discriminate H|].
  assert (Hrec : truthy (ids !! f) = false ->
                 firstNonEmpty rest ids = Some (k, s) ->
                 exists before after,
                   f :: rest = before ++ k :: after
                   /\ Forall (fun k' => truthy (ids !! k') = false) before
                   /\ ids !! k = Some s /\ isEmpty s = false).
  { intros Hf Hr. destruct (IH ids k s Hr) as (b & a & -> & Hb & Hk).
    exists (f :: b), a. split; [reflexivity|]. split; [|exact Hk].
    now constructor. }
  destruct (ids !! f) as [t|] eqn:Ef; [|now apply Hrec].
  destruct (isEmpty t) eqn:Et; [apply Hrec; [cbn; now rewrite Et|exact H]|].
  injection H as <- <-. exists [], rest. now repeat split.
Qed.

Lemma firstNonEmpty_none fields : forall (ids : IdentifierSet),
  firstNonEmpty fields ids = None ->
  Forall (fun k' => truthy (ids !! k') = false) fields.
Proof.
  induction fields as [|f rest IH]; intros ids H; cbn in H; [constructor|].
  destruct (ids !! f) as [t|] eqn:Ef.
  - destruct (isEmpty t) eqn:Et; [|discriminate H].
    constructor; [rewrite Ef; cbn; now rewrite Et|now apply IH].
  - constructor; [now rewrite Ef|now apply IH].
Qed.

(** The handler leaves the value typed in the field. *)
Lemma handler_pins net field value st w :
  isEmpty (trim value) = false ->
  App.identifiers (fst (handleInputChange net field value st w)) !! field
  = Some value.
Proof.
  intros He. unfold handleInputChange. rewrite He. cbv zeta.
  unfold mbind, M_bind. destruct (cleanExpiredCache w) as [u w1].
  cbn [App.identifiers sourceField isLookingUp].
  destruct (validateIdentifier field (normalizeIdentifier field value));
    cbn [negb]; [|apply lookup_insert_eq].
  destruct (getLocalIdentifiers field value) as [found|];
    [apply lookup_insert_eq|].
  destruct (lookupChemicalIdentifiers net field value w1) as [result w2].
  destruct (success result), (Resolver.identifiers result) as [found|];
    apply lookup_insert_eq.
Qed.

Lemma trim_nonempty value : isEmpty (trim value) = false -> isEmpty value = false.
Proof. now destruct value. Qed.

End ViewFacts.

Import ViewFacts.

(** ** X20: which identifier is rendered *)

(** X20: [currentMolecule] returns the first of smiles, inchi, iupacName,
    casNumber and pubchemCID, in this order, whose field is not empty,
    with the value of the field, and nothing when the five are empty; the
    seven other fields never decide what is rendered.  So after
    [handleInputChange] on the smiles field with a value that is not
    blank, the molecule rendered is the SMILES as typed, whatever the
    lookup found. *)
Theorem X20_rendering_choice (ids : IdentifierSet) (net : Network)
    (value : string) (st : State) (w : World) :
  match currentMolecule ids with
  | Some (k, s) =>
      ids !! k = Some s /\ isEmpty s = false
      /\ exists before after,
           renderingFields = (before ++ k :: after)%list
           /\ Forall (fun k' => truthy (ids !! k') = false) before
  | None => Forall (fun k' => truthy (ids !! k') = false) renderingFields
  end
  /\ (isEmpty (trim value) = false ->
      currentMolecule
        (App.identifiers (fst (handleInputChange net smiles value st w)))
      = Some (smiles, value)).
Proof.
  split.
  - unfold currentMolecule.
    destruct (firstNonEmpty renderingFields ids) as [[k s]|] eqn:E.
    + apply firstNonEmpty_found in E as (b & a & Hf & Hb & Hk & Hs).
      split; [exact Hk|]. split; [exact Hs|]. now exists b, a.
    + now apply firstNonEmpty_none.
  - intros He. unfold currentMolecule.
    cbn [renderingFields firstNonEmpty].
    rewrite (handler_pins net smiles value st w He).
    now rewrite (trim_nonempty value He).
Qed.

Lemma X20_rendering_choice_witness :
  isEmpty (trim "C(C)O") = false
  /\ currentMolecule
       (App.identifiers (fst (handleInputChange echoing smiles "C(C)O"
                                initialState emptyWorld)))
     = Some (smiles, "C(C)O").
Proof.
  split; [reflexivity|].
  apply (X20_rendering_choice ∅ echoing "C(C)O" initialState emptyWorld).
  reflexivity.
Defined.

(** ** X21: clearing the form *)

(** X21: clearing the source field through [handleInputChange] does what
    [handleClearAll] does: every field is blank, no field is the source
    and nothing is rendered.  Clearing another field blanks that field
    alone and keeps the source field.  Neither touches the cache. *)
Theorem X21_clearing (net : Network) (field : Kind) (value : string)
    (st : State) (w : World) :
  isEmpty (trim value) = true ->
  let out := handleInputChange net field value st w in
  snd out = w
  /\ (sourceField st = Some field ->
      fst out = handleClearAll st
      /\ (forall k, App.identifiers (fst out) !! k = Some EmptyString)
      /\ currentMolecule (App.identifiers (fst out)) = None)
  /\ (sourceField st <> Some field ->
      sourceField (fst out) = sourceField st
      /\ App.identifiers (fst out) !! field = Some EmptyString
      /\ forall k, k <> field ->
           App.identifiers (fst out) !! k = App.identifiers st !! k).
Proof.
  intros He. cbv zeta. unfold handleInputChange. rewrite He. cbv zeta.
  cbn [sourceField App.identifiers isLookingUp].
  case_bool_decide as Hs.
  - split; [reflexivity|]. split; [|congruence]. intros _.
    cbn [fst]. split; [reflexivity|]. split; [|reflexivity].
    now intros [].
  - split; [reflexivity|]. split; [congruence|]. intros _. cbn [fst].
    cbn [sourceField App.identifiers]. split; [reflexivity|].
    split; [apply lookup_insert_eq|].
    intros k Hk. now apply lookup_insert_ne.
Qed.

Lemma X21_clearing_witness :
  isEmpty (trim "  ") = true
  /\ snd (handleInputChange failing smiles "  " initialState emptyWorld)
     = emptyWorld.
Proof.
  split; [reflexivity|].
  apply (X21_clearing failing smiles "  " initialState emptyWorld).
  reflexivity.
Defined.
(** * The local table behind the normalisation *)

Module ReachFacts.
Local Open Scope list_scope.

Lemma upperChar_lowerChar c : upperChar (lowerChar c) = upperChar c.
Proof. by_cases_on c. Qed.

Lemma upper_lower s : toUpperCase (toLowerCase s) = toUpperCase s.
Proof. apply mapChars_compose, upperChar_lowerChar. Qed.

(** A value that has a property no key of the table has is no key. *)
Lemma lookupKey_none (P : string -> bool) s table :
  P s = true ->
  forallb (fun e : string * IdentifierSet => negb (P (fst e))) table = true ->
  lookupKey s table = None.
Proof.
  intros Hs. induction table as [|[key c] rest IH]; cbn; [reflexivity|].
  intros [Hk Hr]%andb_true_iff.
  destruct (String.eqb key s) eqn:E; [|auto].
  apply String.eqb_eq in E. subst key. now rewrite Hs in Hk.
Qed.

(** For a kind no compound of the table has a property of, the lookup
    is by alias key alone. *)
Lemma local_without_property k v :
  match k with
  | chemSpider | echaInfoCard | ecNumber | eNumber | rtecsNumber
  | compToxDashboard => True
  | _ => False
  end ->
  getLocalIdentifiers k v = lookupKey (trim (toLowerCase v)) commonCompounds.
Proof.
  intros Hk. unfold getLocalIdentifiers. cbv zeta.
  destruct (lookupKey (trim (toLowerCase v)) commonCompounds);
    [reflexivity|].
  generalize (trim (toLowerCase v)). intros t.
  destruct k; try contradiction; vm_compute; reflexivity.
Qed.

(** The E number pattern needs letters and digits only. *)
Lemma eNumber_no_space s :
  test (Cat (LitI "E") (Cat (RepRange 3 4 digit) (Opt (Cls (icase isLower)))))
    s = true ->
  trim s = s.
Proof.
  intros H. apply trim_no_space.
  apply (matches_within (fun c => negb (isSpace c))) in H; [exact H|].
  assert (Hd : forall c, isDigit c = true -> negb (isSpace c) = true)
    by (intros c; by_cases_on c).
  assert (Hl : forall c, icase isLower c = true -> negb (isSpace c) = true)
    by (intros c; by_cases_on c).
  assert (He : forall c, icase (Ascii.eqb "E") c = true ->
                         negb (isSpace c) = true)
    by (intros c; by_cases_on c).
  cbn. repeat split; auto.
Qed.

Lemma local_eNumber v :
  validateIdentifier eNumber (normalizeIdentifier eNumber v) = true ->
  getLocalIdentifiers eNumber (normalizeIdentifier eNumber v)
  = getLocalIdentifiers eNumber v.
Proof.
  intros Hv. unfold validateIdentifier in Hv.
  rewrite normalize_twice in Hv by reflexivity.
  cbn [VALIDATION_PATTERNS] in Hv. unfold normalizeIdentifier in *.
  rewrite replace_optional_E in *.
  destruct (startsWith (toUpperCase (trim v)) "E") eqn:E.
  { now rewrite local_upper, local_trim. }
  rewrite !local_without_property by exact I.
  set (pat := Cat (LitI "E")
                (Cat (RepRange 3 4 digit) (Opt (Cls (icase isLower))))) in *.
  assert (Hu : toUpperCase (String "E" (toUpperCase (trim v)))
               = String "E" (toUpperCase (trim v))).
  { change (toUpperCase (String "E" (toUpperCase (trim v))))
      with (String "E" (toUpperCase (toUpperCase (trim v)))).
    now rewrite mapChars_upper_idem. }
  rewrite (lookupKey_none (fun s => test pat (toUpperCase s))).
  - symmetry.
    apply (lookupKey_none (fun s => test pat (String "E" (toUpperCase s)))).
    + now rewrite trim_lower, upper_lower.
    + vm_compute. reflexivity.
  - rewrite trim_lower, upper_lower, <- trim_upper, Hu.
    now rewrite (eNumber_no_space _ Hv).
  - vm_compute. reflexivity.
Qed.

Lemma letters_D_T c :
  (icase (Ascii.eqb "D") c = true -> lowerChar c = "d"%char)
  /\ (icase (Ascii.eqb "T") c = true -> lowerChar c = "t"%char).
Proof. by_cases_on c; split; intros H; reflexivity || discriminate H. Qed.

(** A value from which the DTXSID prefix is stripped starts with the
    letters D and T, in either case. *)
Lemma dtxsid_head u rest :
  longestPrefix (Cat (LitI "DTXSID") (Opt (Chr ":"))) u = Some rest ->
  exists c1 c2 u', u = String c1 (String c2 u')
                   /\ lowerChar c1 = "d"%char /\ lowerChar c2 = "t"%char.
Proof.
  intros H. destruct u as [|c1 [|c2 u']].
  - discriminate H.
  - cbn in H. destruct (icase (Ascii.eqb "D") c1); discriminate H.
  - exists c1, c2, u'. split; [reflexivity|].
    cbn [LitI] in H. cbn [longestPrefix deriv nullable andb] in H.
    destruct (icase (Ascii.eqb "D") c1) eqn:E1.
    2: { cbn [cat alt] in H. now rewrite longestPrefix_Void in H. }
    destruct (icase (Ascii.eqb "T") c2) eqn:E2.
    2: { cbn [cat alt deriv nullable andb orb Opt Chr] in H.
         rewrite E2 in H. cbn [cat alt nullable] in H.
         now rewrite longestPrefix_Void in H. }
    split; [now apply letters_D_T|now apply letters_D_T].
Qed.

Lemma trim_keeps_head c1 c2 s :
  isSpace c1 = false -> isSpace c2 = false ->
  trim (String c1 (String c2 s)) = String c1 (String c2 (trimEnd s)).
Proof.
  intros H1 H2. unfold trim. cbn [trimStart]. rewrite H1.
  now rewrite !trimEnd_cons.
Qed.

Lemma local_compToxDashboard v :
  getLocalIdentifiers compToxDashboard
    (normalizeIdentifier compToxDashboard v)
  = getLocalIdentifiers compToxDashboard v.
Proof.
  unfold normalizeIdentifier, replacePrefix.
  destruct (longestPrefix _ (toUpperCase (trim v))) as [rest|] eqn:E.
  2: { now rewrite local_upper, local_trim. }
  apply dtxsid_head in E as (c1 & c2 & u' & Hu & H1 & H2).
  rewrite !local_without_property by exact I.
  rewrite (lookupKey_none (fun s => startsWith s "dt")).
  - symmetry. apply (lookupKey_none (fun s => startsWith s "dt")).
    + rewrite trim_lower, <- lower_upper, Hu.
      change (toLowerCase (String c1 (String c2 u')))
        with (String (lowerChar c1) (String (lowerChar c2) (toLowerCase u'))).
      rewrite H1, H2. now destruct u'.
    + vm_compute. reflexivity.
  - change (toLowerCase ("DTXSID" ++ rest))
      with (String "d" (String "t" (toLowerCase ("XSID" ++ rest)))).
    rewrite trim_keeps_head by reflexivity.
    now destruct (trimEnd _).
  - vm_compute. reflexivity.
Qed.

Lemma local_inchi v :
  isReasonableInput inchi v = true ->
  validateIdentifier inchi (normalizeIdentifier inchi v) = true ->
  getLocalIdentifiers inchi (normalizeIdentifier inchi v)
  = getLocalIdentifiers inchi v.
Proof.
  intros Hr Hv. unfold validateIdentifier in Hv.
  rewrite normalize_twice in Hv by reflexivity.
  cbn [VALIDATION_PATTERNS] in Hv. unfold normalizeIdentifier in *.
  destruct (startsWith (trim v) "InChI=") eqn:E; [apply local_trim|].
  exfalso. past_general_checks Hr.
  destruct (trim v) as [|c t]; [discriminate Hr|].
  unfold test in Hv.
  change (matches (Prefix (Cat (Lit "InChI=1") (Cat (Opt (Chr "S")) (Chr "/"))))
            ("InChI=" ++ String c t))
    with (matches (deriv c (Prefix (Cat (Lit "1")
                     (Cat (Opt (Chr "S")) (Chr "/"))))) t) in Hv.
  destruct (Ascii.eqb "1" c) eqn:E1.
  - apply Ascii.eqb_eq in E1. subst c. discriminate Hr.
  - unfold Prefix in Hv.
    cbn [Lit Chr deriv nullable andb] in Hv. rewrite E1 in Hv.
    cbn [cat alt] in Hv. now rewrite matches_Void in Hv.
Qed.

End ReachFacts.

Import ReachFacts.

Module LabelFacts.

Lemma cached_label_differs s : (s ++ " (cached)")%string <> "Local Database".
Proof.
  intros H.
  do 15 (destruct s as [|? s]; [cbn in H; discriminate H|]).
  cbn in H. discriminate H.
Qed.

End LabelFacts.

Import LabelFacts.

(** ** X22: normalising does not change what the local table finds *)

(** X22: for an input that passes the plausibility and format checks,
    [getLocalIdentifiers] finds on the normalized value exactly what it
    finds on the value as typed.  So when the local table does not know
    the value as typed, which is when the form handler calls
    [lookupChemicalIdentifiers], the lookup never answers from the local
    table: its source is never ["Local Database"]. *)
Theorem X22_local_lookup_after_checks (net : Network) (k : Kind)
    (v : string) (w : World) :
  (isReasonableInput k v = true ->
   validateIdentifier k (normalizeIdentifier k v) = true ->
   getLocalIdentifiers k (normalizeIdentifier k v)
   = getLocalIdentifiers k v)
  /\ (getLocalIdentifiers k v = None ->
      source (fst (lookupChemicalIdentifiers net k v w))
      <> Some "Local Database").
Proof.
  assert (Hsame : isReasonableInput k v = true ->
            validateIdentifier k (normalizeIdentifier k v) = true ->
            getLocalIdentifiers k (normalizeIdentifier k v)
            = getLocalIdentifiers k v).
  { intros Hr Hv. destruct k.
    - (* iupacName *) apply local_trim.
    - (* casNumber *) destruct (plausible_cas v Hr) as [-> _].
      apply local_trim.
    - (* chemSpider *)
      destruct (plausible_database_id chemSpider v eq_refl Hr) as [-> _].
      apply local_trim.
    - (* echaInfoCard *) apply local_trim.
    - (* ecNumber *) apply local_trim.
    - (* eNumber *) now apply local_eNumber.
    - (* pubchemCID *)
      destruct (plausible_database_id pubchemCID v eq_refl Hr) as [-> _].
      apply local_trim.
    - (* rtecsNumber *) unfold normalizeIdentifier.
      now rewrite local_upper, local_trim.
    - (* unii *) unfold normalizeIdentifier.
      now rewrite local_upper, local_trim.
    - (* compToxDashboard *) apply local_compToxDashboard.
    - (* inchi *) now apply local_inchi.
    - (* smiles *) apply local_trim. }
  split; [exact Hsame|]. intros Hl. unfold lookupChemicalIdentifiers.
  destruct (isEmpty (trim v)) eqn:He.
  { unfold lookupWith. rewrite He. discriminate. }
  destruct (isReasonableInput k v) eqn:Hr.
  2: { unfold lookupWith. rewrite He, Hr. discriminate. }
  destruct (validateIdentifier k (normalizeIdentifier k v)) eqn:Hv.
  2: { unfold lookupWith. rewrite He, Hr, Hv. discriminate. }
  rewrite lookupWith_valid by assumption.
  destruct (fst (cacheGet (getCacheKey k (normalizeIdentifier k v)) w))
    as [entry|].
  { cbn [fst source]. intros [= H]. now apply cached_label_differs in H. }
  rewrite resolveUncached_cases, (Hsame eq_refl eq_refl), Hl. cbn [fst].
  destruct (fst (fst (tryDatabases net (sortByPriority DATABASES) k
                        (normalizeIdentifier k v)
                        (getCacheKey k (normalizeIdentifier k v)) [] w)))
    as [result|] eqn:Ef; [|discriminate].
  apply tryDatabases_found in Ef as (_ & ids & db & Hdb & _ & -> & _).
  destruct Hdb as [<-|[<-|[]]]; discriminate.
Qed.

Lemma X22_local_lookup_after_checks_witness :
  isReasonableInput eNumber "e330" = true
  /\ validateIdentifier eNumber (normalizeIdentifier eNumber "e330") = true
  /\ getLocalIdentifiers eNumber (normalizeIdentifier eNumber "e330")
     = getLocalIdentifiers eNumber "e330".
Proof.
  split; [reflexivity|]. split; [reflexivity|].
  apply (X22_local_lookup_after_checks failing eNumber "e330" emptyWorld);
    reflexivity.
Defined.
(** * More on the confidence score *)

Module ScoreFacts.

Lemma count_ratio_le (n m : nat) :
  n <= m ->
  (inject_Z (Z.of_nat n) / 8 <= inject_Z (Z.of_nat m) / 8)%Q.
Proof.
  intros H. apply Qmult_le_compat_r; [|discriminate].
  rewrite <- Zle_Qle. lia.
Qed.

Lemma truthy_weaken (ids ids' : IdentifierSet) k :
  ids ⊆ ids' -> truthy (ids !! k) = true -> truthy (ids' !! k) = true.
Proof.
  intros Hsub H. destruct (ids !! k) as [s|] eqn:E; [|discriminate H].
  now rewrite (lookup_weaken _ _ _ _ E Hsub).
Qed.

(** The score of a set with at most [n] properties. *)
Lemma score_at_most (ids : IdentifierSet) (k : Kind) (n : nat) :
  size ids <= n ->
  (calculateConfidence ids k
   <= Qmax (inject_Z (Z.of_nat n) / 8 + 0.2) 0.3)%Q
  /\ (truthy (ids !! k) = false ->
      (calculateConfidence ids k <= Qmax (inject_Z (Z.of_nat n) / 8) 0.3)%Q).
Proof.
  intros H. apply count_ratio_le in H. unfold calculateConfidence.
  set (q := (inject_Z (Z.of_nat (size ids)) / 8)%Q) in *.
  set (q' := (inject_Z (Z.of_nat n) / 8)%Q) in *.
  split; [destruct (truthy (ids !! k)); minmax|].
  intros ->. minmax.
Qed.

End ScoreFacts.

Import ScoreFacts.

(** ** X23: more identifiers never lower the score *)

(** X23: [calculateConfidence] is monotone: a set that holds every
    property of another one, with the same values, scores at least as
    much, for every requested kind. *)
Theorem X23_confidence_monotone (ids ids' : IdentifierSet) (k : Kind) :
  ids ⊆ ids' ->
  (calculateConfidence ids k <= calculateConfidence ids' k)%Q.
Proof.
  intros Hsub.
  pose proof (count_ratio_le _ _ (map_subseteq_size _ _ Hsub)) as Hn.
  pose proof (truthy_weaken ids ids' k Hsub) as Ht.
  unfold calculateConfidence.
  set (q := (inject_Z (Z.of_nat (size ids)) / 8)%Q) in *.
  set (q' := (inject_Z (Z.of_nat (size ids')) / 8)%Q) in *.
  destruct (truthy (ids !! k)).
  - rewrite (Ht eq_refl). minmax.
  - destruct (truthy (ids' !! k)); minmax.
Qed.

Lemma X23_confidence_monotone_witness :
  mostlyBlank ⊆ <[pubchemCID := "702"]> mostlyBlank
  /\ (calculateConfidence mostlyBlank smiles
      <= calculateConfidence (<[pubchemCID := "702"]> mostlyBlank) smiles)%Q.
Proof.
  assert (H : mostlyBlank ⊆ <[pubchemCID := "702"]> mostlyBlank)
    by (apply insert_subseteq; reflexivity).
  split; [exact H|].
  exact (X23_confidence_monotone mostlyBlank
           (<[pubchemCID := "702"]> mostlyBlank) smiles H).
Defined.

Module CactusScoreFacts.

Lemma cactus_fields sv v (ids : IdentifierSet) :
  (forall k, ids !! k = conversionFor k ≫= converted sv v) ->
  size ids <= 4.
Proof.
  intros H. rewrite <- size_dom.
  assert (Hsub : dom ids ⊆ ({[smiles; iupacName; casNumber; inchi]}
                            : gset Kind)).
  { intros k [s Hs]%elem_of_dom. rewrite H in Hs.
    destruct k; try (vm_compute in Hs; discriminate Hs); set_solver. }
  apply subseteq_size in Hsub.
  assert (H4 : size ({[smiles; iupacName; casNumber; inchi]} : gset Kind) = 4)
    by (vm_compute; reflexivity).
  lia.
Qed.

Lemma cactus_set sv kind v db r ids :
  Web.lookupFromNCICACTUS sv kind v db = Returned r ->
  Resolver.identifiers r = Some ids ->
  forall k, ids !! k = conversionFor k ≫= converted sv v.
Proof.
  unfold Web.lookupFromNCICACTUS. cbv zeta.
  destruct (Nat.eqb _ 0); intros [= <-]; cbn; [discriminate|].
  intros [= <-]. apply conversions_lookup.
Qed.

Lemma cached_label_not_cactus s : (s ++ " (cached)")%string <> "NCI/CACTUS".
Proof.
  intros H.
  do 11 (destruct s as [|? s]; [cbn in H; discriminate H|]).
  cbn in H. discriminate H.
Qed.

End CactusScoreFacts.

Import CactusScoreFacts.

(** ** X24: an answer of NCI/CACTUS scores at most 0.7 *)

(** X24: with the two resolvers, a result of [lookupChemicalIdentifiers]
    whose source is NCI/CACTUS holds at most the four fields smiles,
    iupacName, casNumber and inchi, so its confidence is at most 0.7, and
    at most 0.5 when the requested kind is not among the filled ones. *)
Theorem X24_cactus_score (sv : nat -> Services)
    (lat : DatabaseConfig -> nat -> Z) (k : Kind) (v : string) (w : World) :
  let result := fst (lookupChemicalIdentifiers (resolvers sv lat) k v w) in
  source result = Some "NCI/CACTUS" ->
  exists ids,
    Resolver.identifiers result = Some ids
    /\ confidence result = Some (calculateConfidence ids k)
    /\ size ids <= 4
    /\ (calculateConfidence ids k <= 0.7)%Q
    /\ (truthy (ids !! k) = false -> (calculateConfidence ids k <= 0.5)%Q).
Proof.
  cbv zeta. unfold lookupChemicalIdentifiers.
  destruct (isEmpty (trim v)) eqn:He.
  { unfold lookupWith. rewrite He. discriminate. }
  destruct (isReasonableInput k v) eqn:Hr.
  2: { unfold lookupWith. rewrite He, Hr. discriminate. }
  destruct (validateIdentifier k (normalizeIdentifier k v)) eqn:Hv.
  2: { unfold lookupWith. rewrite He, Hr, Hv. discriminate. }
  rewrite lookupWith_valid by assumption.
  destruct (fst (cacheGet (getCacheKey k (normalizeIdentifier k v)) w))
    as [entry|].
  { cbn [fst source]. intros [= H]. now apply cached_label_not_cactus in H. }
  rewrite resolveUncached_cases.
  destruct (getLocalIdentifiers k (normalizeIdentifier k v)); [discriminate|].
  cbn [fst]. change (sortByPriority DATABASES) with [PubChem; NCICACTUS].
  set (nv := normalizeIdentifier k v). set (key := getCacheKey k nv).
  cbn [tryDatabases]. unfold mbind, M_bind.
  destruct (respond_returns sv lat PubChem k nv 0 (or_introl eq_refl))
    as [r1 Hr1].
  rewrite (lookupFromDatabase_first _ _ _ _ _ _ Hr1).
  assert (Hsecond : forall w1,
    source (match fst (fst (tryDatabases (resolvers sv lat) [NCICACTUS] k nv
                              key [] w1)) with
            | Some result => result
            | None => failed (notFoundMessage v)
            end) = Some "NCI/CACTUS" ->
    exists ids,
      Resolver.identifiers
        (match fst (fst (tryDatabases (resolvers sv lat) [NCICACTUS] k nv
                           key [] w1)) with
         | Some result => result
         | None => failed (notFoundMessage v)
         end) = Some ids
      /\ confidence
           (match fst (fst (tryDatabases (resolvers sv lat) [NCICACTUS] k nv
                              key [] w1)) with
            | Some result => result
            | None => failed (notFoundMessage v)
            end) = Some (calculateConfidence ids k)
      /\ size ids <= 4
      /\ (calculateConfidence ids k <= 0.7)%Q
      /\ (truthy (ids !! k) = false ->
          (calculateConfidence ids k <= 0.5)%Q)).
  { intros w1. cbn [tryDatabases]. unfold mbind, M_bind.
    destruct (respond_returns sv lat NCICACTUS k nv 0
                (or_intror (or_introl eq_refl))) as [r2 Hr2].
    rewrite (lookupFromDatabase_first _ _ _ _ _ _ Hr2).
    assert (Hc : Web.lookupFromNCICACTUS (sv 0) k nv NCICACTUS = Returned r2)
      by exact Hr2.
    destruct (success r2); [|discriminate].
    destruct (Resolver.identifiers r2) as [ids|] eqn:Ei; [|discriminate].
    intros _. exists ids. cbn [source confidence Resolver.identifiers fst snd].
    pose proof (cactus_fields (sv 0) nv ids (cactus_set _ _ _ _ _ _ Hc Ei))
      as Hsize.
    destruct (score_at_most ids k 4 Hsize) as [H7 H5].
    repeat split; try assumption; try reflexivity.
    - eapply Qle_trans; [exact H7|].
      change (inject_Z (Z.of_nat 4) / 8)%Q with (4 # 8)%Q.
      apply Q.max_lub; lra.
    - intros Ht. eapply Qle_trans; [exact (H5 Ht)|].
      change (inject_Z (Z.of_nat 4) / 8)%Q with (4 # 8)%Q.
      apply Q.max_lub; lra. }
  destruct (success r1); [|apply Hsecond].
  destruct (Resolver.identifiers r1) as [ids1|]; [|apply Hsecond].
  discriminate.
Qed.

Lemma X24_cactus_score_witness :
  source (fst (lookupChemicalIdentifiers (resolvers cactusOnly instant)
                 smiles "CCCCCCCC" emptyWorld)) = Some "NCI/CACTUS"
  /\ exists ids,
       Resolver.identifiers
         (fst (lookupChemicalIdentifiers (resolvers cactusOnly instant)
                 smiles "CCCCCCCC" emptyWorld)) = Some ids
       /\ (calculateConfidence ids smiles <= 0.7)%Q.
Proof.
  split; [vm_compute; reflexivity|].
  destruct (X24_cactus_score cactusOnly instant smiles "CCCCCCCC" emptyWorld)
    as (ids & Hi & _ & _ & H7 & _); [vm_compute; reflexivity|].
  exists ids. now split.
Defined.
(** * The shape of a normalized value *)

Module ShapeFacts.

Lemma longestPrefix_suffix s : forall r rest,
  longestPrefix r s = Some rest -> exists m, s = (m ++ rest)%string.
Proof.
  induction s as [|c s IH]; intros r rest H; cbn in H.
  - destruct (nullable r); [|discriminate H]. injection H as <-.
    now exists EmptyString.
  - destruct (longestPrefix (deriv c r) s) as [tl|] eqn:E.
    + injection H as <-. destruct (IH _ _ E) as [m ->].
      now exists (String c m).
    + destruct (nullable r); [|discriminate H]. injection H as <-.
      now exists EmptyString.
Qed.

(** Being in upper case, character by character. *)
Lemma upper_fixed_iff s :
  toUpperCase s = s
  <-> allChars (fun c => Ascii.eqb (upperChar c) c) s = true.
Proof.
  unfold toUpperCase. induction s as [|c s IH]; cbn; [tauto|].
  rewrite andb_true_iff, Ascii.eqb_eq, <- IH. split.
  - intros [= H1 H2]. now split.
  - intros [-> ->]. reflexivity.
Qed.

Lemma upper_suffix m rest :
  toUpperCase (m ++ rest) = (m ++ rest)%string -> toUpperCase rest = rest.
Proof.
  rewrite !upper_fixed_iff, allChars_app. now intros [_ H]%andb_true_iff.
Qed.

End ShapeFacts.

Import ShapeFacts.

(** ** X25: the shape of a normalized value *)

(** X25: whatever the input, the value [normalizeIdentifier] returns has
    no white space around it unless the kind is one of the three whose
    prefix is stripped; it starts with [InChI=] for an InChI and with [E]
    for an E number; it is in upper case for unii, rtecsNumber, eNumber
    and compToxDashboard; and for a CAS number it is never a bare string
    of eight or nine digits. *)
Theorem X25_normal_form_shape (k : Kind) (v : string) :
  let nv := normalizeIdentifier k v in
  (stripsPrefix k = false -> trim nv = nv)
  /\ (k = inchi -> startsWith nv "InChI=" = true)
  /\ (k = eNumber -> startsWith nv "E" = true)
  /\ (upperCased k = true -> toUpperCase nv = nv)
  /\ (k = casNumber -> test (RepRange 8 9 digit) nv = false).
Proof.
  cbv zeta. split; [|split; [|split; [|split]]].
  - intros Hk. destruct k; try discriminate Hk; clear Hk;
      unfold normalizeIdentifier; try apply trim_idem.
    + (* casNumber *)
      destruct (test (RepRange 8 9 digit) (trim v)) eqn:E;
        [|apply trim_idem].
      assert (Hd : allChars isDigit (trim v) = true)
        by (apply (matches_within isDigit) in E;
            [exact E|apply digits_within_RepRange]).
      destruct (Nat.eqb (String.length (trim v)) 8).
      * now destruct (hyphenated_fixed (trim v) 0 5 5 7 7 Hd) as [-> _].
      * now destruct (hyphenated_fixed (trim v) 0 6 6 8 8 Hd) as [-> _].
    + (* eNumber *)
      rewrite replace_optional_E.
      destruct (trim_upper_fixed v) as [Ht Hu].
      destruct (startsWith (toUpperCase (trim v)) "E"); [exact Ht|].
      apply trim_fixed; [reflexivity|].
      rewrite trimEnd_cons by reflexivity. f_equal.
      rewrite <- Ht. apply trimEnd_trim.
    + (* rtecsNumber *) now destruct (trim_upper_fixed v).
    + (* unii *) now destruct (trim_upper_fixed v).
    + (* inchi *)
      destruct (startsWith (trim v) "InChI="); [apply trim_idem|].
      apply trim_fixed; [reflexivity|].
      change ("InChI=" ++ trim v)
        with (String "I" (String "n" (String "C" (String "h" (String "I"
                (String "=" (trim v))))))).
      rewrite !trimEnd_cons by reflexivity. now rewrite trimEnd_trim.
  - intros ->. unfold normalizeIdentifier.
    destruct (startsWith (trim v) "InChI=") eqn:E; [exact E|].
    unfold startsWith. apply prefix_app.
  - intros ->. unfold normalizeIdentifier. rewrite replace_optional_E.
    destruct (startsWith (toUpperCase (trim v)) "E") eqn:E; [exact E|].
    unfold startsWith. cbn. now destruct (toUpperCase (trim v)).
  - intros Hk. destruct (trim_upper_fixed v) as [_ Hu].
    destruct k; try discriminate Hk; clear Hk; unfold normalizeIdentifier;
      try exact Hu.
    + (* eNumber *)
      rewrite replace_optional_E.
      destruct (startsWith (toUpperCase (trim v)) "E"); [exact Hu|].
      change (toUpperCase (String "E" (toUpperCase (trim v))))
        with (String "E" (toUpperCase (toUpperCase (trim v)))).
      now rewrite Hu.
    + (* compToxDashboard *)
      unfold replacePrefix.
      destruct (longestPrefix _ (toUpperCase (trim v))) as [rest|] eqn:E;
        [|exact Hu].
      apply longestPrefix_suffix in E as [m Hm]. rewrite Hm in Hu.
      apply upper_suffix in Hu.
      apply upper_fixed_iff. rewrite allChars_app.
      apply upper_fixed_iff in Hu. now rewrite Hu.
  - intros ->. unfold normalizeIdentifier.
    destruct (test (RepRange 8 9 digit) (trim v)) eqn:E; [|exact E].
    assert (Hd : allChars isDigit (trim v) = true)
      by (apply (matches_within isDigit) in E;
          [exact E|apply digits_within_RepRange]).
    destruct (Nat.eqb (String.length (trim v)) 8).
    + now destruct (hyphenated_fixed (trim v) 0 5 5 7 7 Hd) as [_ ->].
    + now destruct (hyphenated_fixed (trim v) 0 6 6 8 8 Hd) as [_ ->].
Qed.

Lemma X25_normal_form_shape_witness :
  stripsPrefix inchi = false
  /\ trim (normalizeIdentifier inchi " 1S/H2O/h1H2 ")
     = normalizeIdentifier inchi " 1S/H2O/h1H2 ".
Proof.
  split; [reflexivity|].
  apply (X25_normal_form_shape inchi " 1S/H2O/h1H2 "). reflexivity.
Defined.
(** * Inputs that differ in case *)

Module VariantFacts.







End VariantFacts.

Import VariantFacts.

(** ** X26: inputs that differ only in case share the cache *)



(** * What the form shows *)

Import Form.

Module FormFacts.
Local Open Scope list_scope.



End FormFacts.

Import FormFacts.

(** ** X27: the banners after an input *)

(** X27: after [handleInputChange] on a value that is not blank the
    form shows no spinner and exactly one of the two banners, the error
    or the success; after a blank value it shows neither of them. *)
Theorem X27_banners (net : Network) (field : Kind) (value : string)
    (st : State) (w : World) :
  let st' := fst (handleInputChange net field value st w) in
  if isEmpty (trim value)
  then showsError st' = false /\ showsSuccess st' = false
       /\ showsSpinner st' = showsSpinner st
  else showsSpinner st' = false
       /\ xorb (showsError st') (showsSuccess st') = true.
Proof.
  cbv zeta. unfold handleInputChange, showsError, showsSuccess, showsSpinner.
  destruct (isEmpty (trim value)) eqn:He; cbv zeta.
  { now destruct (bool_decide _). }
  unfold mbind, M_bind. destruct (cleanExpiredCache w) as [u w1].
  cbn [App.identifiers sourceField isLookingUp].
  destruct (validateIdentifier field (normalizeIdentifier field value));
    cbn [negb]; [|now split].
  destruct (getLocalIdentifiers field value) as [found|]; [now split|].
  destruct (lookupChemicalIdentifiers net field value w1) as [result w2].
  assert (Hs : forall a, truthy (Some (orElse a "External Database")) = true).
  { intros a. cbn. now rewrite (orElse_nonempty a "External Database"). }
  assert (Hm : forall a, truthy (Some (orElse a "Unknown lookup error"))
                         = true).
  { intros a. cbn. now rewrite (orElse_nonempty a "Unknown lookup error"). }
  destruct (success result), (Resolver.identifiers result) as [found|];
    unfold mret, M_ret; cbn [fst isLookingUp lookupError lookupSource];
    rewrite ?Hs, ?Hm; now split.
Qed.

Lemma X27_banners_witness :
  isEmpty (trim "C(C)O") = false
  /\ showsSpinner (fst (handleInputChange echoing smiles "C(C)O" initialState
                          emptyWorld)) = false.
Proof.
  split; [reflexivity|].
  exact (proj1 (X27_banners echoing smiles "C(C)O" initialState emptyWorld)).
Defined.

(** ** X28: a compound of the local table fills the form *)


(** * The outcome with the two resolvers *)

Module RemoteFacts.

(** [lookupFromPubChem] by whether a CID was found. *)
Lemma pubchem_by_cid sv k v db :
  Web.lookupFromPubChem sv k v db
  = if truthy (getPubChemCID sv k v db)
    then Returned (mkResult true
           (Some (getAllIdentifiersFromPubChemCID sv
                    (default EmptyString (getPubChemCID sv k v db)) db))
           None None None)
    else Returned (mkResult false None
           (Some "Could not find compound in PubChem database") None None).
Proof.
  unfold Web.lookupFromPubChem.
  destruct (getPubChemCID sv k v db) as [cid|]; [|reflexivity].
  cbn [truthy default]. now destruct (isEmpty cid).
Qed.

End RemoteFacts.

Import RemoteFacts.

(** ** X29: when a lookup that reaches the network fails *)

(** X29: with the two resolvers, for a request that passes the checks
    and misses the cache and the local table, what the first attempt on
    each source answers decides the outcome.  The lookup succeeds from
    PubChem exactly when [getPubChemCID] yields a CID; otherwise it
    succeeds from NCI/CACTUS exactly when one of the four conversions
    gives a usable text; otherwise it fails with the "Unable to find"
    message and leaves the cache as it was. *)
Theorem X29_remote_outcome (sv : nat -> Services)
    (lat : DatabaseConfig -> nat -> Z) (k : Kind) (v : string) (w : World) :
  isEmpty (trim v) = false ->
  isReasonableInput k v = true ->
  validateIdentifier k (normalizeIdentifier k v) = true ->
  fst (cacheGet (getCacheKey k (normalizeIdentifier k v)) w) = None ->
  getLocalIdentifiers k (normalizeIdentifier k v) = None ->
  let nv := normalizeIdentifier k v in
  let out := lookupChemicalIdentifiers (resolvers sv lat) k v w in
  let cidFound := truthy (getPubChemCID (sv 0) k nv PubChem) in
  (cidFound = true <-> source (fst out) = Some "PubChem")
  /\ (cidFound = false ->
      (source (fst out) = Some "NCI/CACTUS"
       <-> exists to field, In (to, field) conversions
                            /\ converted (sv 0) nv to <> None)
      /\ (success (fst out) = false
          <-> forall to field, In (to, field) conversions ->
                               converted (sv 0) nv to = None)
      /\ (success (fst out) = false ->
          fst out = failed (notFoundMessage v)
          /\ identifierCache (snd out) = identifierCache w)).
Proof.
  intros He Hr Hv Hc Hl. cbv zeta. unfold lookupChemicalIdentifiers.
  rewrite lookupWith_valid by assumption. rewrite Hc.
  rewrite resolveUncached_cases, Hl.
  change (sortByPriority DATABASES) with [PubChem; NCICACTUS].
  set (nv := normalizeIdentifier k v). set (key := getCacheKey k nv).
  cbn [tryDatabases]. unfold mbind, M_bind.
  assert (H1 : respond (resolvers sv lat) PubChem k nv 0
               = Web.lookupFromPubChem (sv 0) k nv PubChem) by reflexivity.
  assert (H2 : respond (resolvers sv lat) NCICACTUS k nv 0
               = Web.lookupFromNCICACTUS (sv 0) k nv NCICACTUS)
    by reflexivity.
  rewrite pubchem_by_cid in H1.
  destruct (truthy (getPubChemCID (sv 0) k nv PubChem)).
  { rewrite (lookupFromDatabase_first _ _ _ _ _ _ H1).
    cbn. split; [now split|discriminate]. }
  destruct (cactus_result (sv 0) k nv NCICACTUS) as (r2 & Hr2 & Hiff & Hids).
  rewrite Hr2 in H2.
  rewrite (lookupFromDatabase_first _ _ _ _ _ _ H1).
  cbn [success Resolver.identifiers].
  rewrite (lookupFromDatabase_first _ _ _ _ _ _ H2).
  split; [split; [discriminate|]|intros _].
  { destruct (success r2), (Resolver.identifiers r2); discriminate. }
  destruct (Resolver.identifiers r2) as [ids|];
    destruct Hids as [Hs _]; rewrite Hs in *; cbn.
  - split; [split; [intros _; now apply Hiff|reflexivity]|].
    split; [|discriminate]. split; [discriminate|].
    intros Hnone. destruct (proj1 Hiff eq_refl) as (to & f & Hin & Hn).
    now rewrite (Hnone to f Hin) in Hn.
  - split; [split; [discriminate|]|].
    { intros Hex. apply Hiff in Hex. discriminate Hex. }
    split; [|now split]. split; [|reflexivity].
    intros _ to f Hin.
    destruct (converted (sv 0) nv to) eqn:E; [|reflexivity].
    assert (Hex : exists to k, In (to, k) conversions
                   /\ converted (sv 0) nv to <> None)
      by (exists to, f; split; [exact Hin|now rewrite E]).
    apply Hiff in Hex. discriminate Hex.
Qed.

Lemma X29_remote_outcome_witness :
  isReasonableInput smiles "CCCCCCCC" = true
  /\ source (fst (lookupChemicalIdentifiers (resolvers cactusOnly instant)
                    smiles "CCCCCCCC" emptyWorld)) <> Some "PubChem".
Proof.
  split; [reflexivity|].
  destruct (X29_remote_outcome cactusOnly instant smiles "CCCCCCCC"
              emptyWorld eq_refl eq_refl eq_refl eq_refl eq_refl)
    as [Hcid _].
  intros Hs. apply Hcid in Hs. discriminate Hs.
Defined.
(** * The requests *)

Module UrlFacts.







End UrlFacts.

Import UrlFacts.

(** ** X30: what the requests carry *)


